(** * Game-analytics: the query and filter composition of the dashboard pages

    A shallow embedding of the three Streamlit pages
    ([1_Competitions.py], [2_Complexes_Venues.py], [3_Competitor_Rankings.py]):
    the connection provider [get_db_connection], the query runner
    [run_sql_query], the SQL text each page composes from its widgets, and a
    model of the relational store that reads that SQL text. *)

From Stdlib Require Import List String Ascii Bool Arith NArith ZArith Lia.
From Stdlib Require Import DecimalString DecimalN DecimalFacts.
From Stdlib Require Import Sorting.Permutation Sorting.Sorted.
Import ListNotations.
Open Scope string_scope.

(** ** Python strings *)

Module Py.

(** The line feed of a triple-quoted literal. *)
Definition nl : string := String (ascii_of_nat 10) "".

(** [sep.join(parts)]. *)
Fixpoint join (sep : string) (parts : list string) : string :=
  match parts with
  | [] => ""
  | [p] => p
  | p :: rest => p ++ sep ++ join sep rest
  end.

(** [str(n)] of a non-negative [int], as an f-string prints it. *)
Definition str_of_int (n : N) : string :=
  NilZero.string_of_uint (N.to_uint n).

(** Truth value of a [str]: the empty string is false. *)
Definition truthy (s : string) : bool :=
  match s with
  | EmptyString => false
  | String _ _ => true
  end.

(** [a != b] on strings. *)
Definition neq (a b : string) : bool := negb (String.eqb a b).


End Py.

(** ** Page 1: competitions *)

Module Competitions.
Import Py.

(** The four select boxes; each offers ['All'] first and defaults to it. *)
Record Filters := {
  selected_category : string;
  selected_type : string;
  selected_gender : string;
  selected_level : string
}.

Definition default_filters : Filters :=
  {| selected_category := "All"; selected_type := "All";
     selected_gender := "All"; selected_level := "All" |}.

(** [where_clauses], after the four [if ... != 'All': append(...)]. *)
Definition where_clauses (f : Filters) : list string :=
  (if neq (selected_category f) "All"
   then ["cat.category_name = '" ++ selected_category f ++ "'"] else []) ++
  (if neq (selected_type f) "All"
   then ["c.type = '" ++ selected_type f ++ "'"] else []) ++
  (if neq (selected_gender f) "All"
   then ["c.gender = '" ++ selected_gender f ++ "'"] else []) ++
  (if neq (selected_level f) "All"
   then ["c.level = '" ++ selected_level f ++ "'"] else []).

(** ["WHERE " + " AND ".join(where_clauses) if where_clauses else ""]. *)
Definition where_condition_of (clauses : list string) : string :=
  match clauses with
  | [] => ""
  | _ :: _ => "WHERE " ++ join " AND " clauses
  end.

Definition where_condition (f : Filters) : string :=
  where_condition_of (where_clauses f).

Definition query_head : string :=
  nl ++
  "    SELECT" ++
  nl ++
  "        c.competition_name," ++
  nl ++
  "        cat.category_name," ++
  nl ++
  "        c.type," ++
  nl ++
  "        c.gender," ++
  nl ++
  "        c.level," ++
  nl ++
  "        CASE WHEN c.parent_id IS NULL THEN 'Yes' ELSE 'No' END AS is_top_level" ++
  nl ++
  "    FROM" ++
  nl ++
  "        competitions c" ++
  nl ++
  "    JOIN" ++
  nl ++
  "        categories cat ON c.category_id = cat.category_id" ++
  nl ++
  "    ".

Definition query_tail : string :=
  nl ++
  "    ORDER BY cat.category_name, c.competition_name;" ++
  nl.

(** The f-string with [{where_condition}] as its one hole. *)
Definition query_template (where_text : string) : string :=
  query_head ++ where_text ++ query_tail.

Definition filtered_competitions_query (f : Filters) : string :=
  query_template (where_condition f).

(** The listing with no WHERE clause at all. *)
Definition unfiltered_competitions_query : string := query_template "".

End Competitions.

(** ** Page 3: competitor rankings *)

Module Rankings.
Import Py.

(** The widgets above the search: a text input, four number inputs (integer
    valued, bounded below by their [min_value]) and a select box. *)
Record Filters := {
  competitor_name_search : string;
  min_rank : N;
  max_rank : N;
  min_points : N;
  max_points : N;
  selected_country_competitor : string
}.

(** What each widget holds until the user touches it: its [value=], and
    [index=0] of the select box. *)
Definition default_filters : Filters :=
  {| competitor_name_search := "";
     min_rank := 1; max_rank := 10000;
     min_points := 0; max_points := 1000000;
     selected_country_competitor := "All" |}.

(** The literal [search_query_base] starts from; a backslash at the end of
    a source line joins it to the next. *)
Definition search_query_head : string :=
  nl ++
  "                    SELECT c.name AS competitor_name, " ++
  "                           cr.rank, " ++
  "                           cr.movement, " ++
  "                           cr.points, " ++
  "                           cr.competitions_played, " ++
  "                           c.country, " ++
  "                           c.country_code" ++
  nl ++
  "                    FROM competitor_rankings cr " ++
  "                             JOIN " ++
  "                         competitors c ON cr.competitor_id = c.competitor_id" ++
  nl ++
  "                    WHERE 1 = 1 " ++
  "                    ".

(** The part of that literal before its WHERE keyword. *)
Definition search_select_from : string :=
  nl ++
  "                    SELECT c.name AS competitor_name, " ++
  "                           cr.rank, " ++
  "                           cr.movement, " ++
  "                           cr.points, " ++
  "                           cr.competitions_played, " ++
  "                           c.country, " ++
  "                           c.country_code" ++
  nl ++
  "                    FROM competitor_rankings cr " ++
  "                             JOIN " ++
  "                         competitors c ON cr.competitor_id = c.competitor_id" ++
  nl ++
  "                    ".

(** The placeholder condition and the blanks that follow it. *)
Definition where_placeholder : string :=
  "1 = 1 " ++ "                    ".

Definition name_clause (f : Filters) : string :=
  if truthy (competitor_name_search f)
  then " AND c.name ILIKE '%" ++ competitor_name_search f ++ "%'"
  else "".

Definition rank_clause (f : Filters) : string :=
  " AND cr.rank >= " ++ str_of_int (min_rank f) ++
  " AND cr.rank <= " ++ str_of_int (max_rank f).

Definition points_clause (f : Filters) : string :=
  " AND cr.points >= " ++ str_of_int (min_points f) ++
  " AND cr.points <= " ++ str_of_int (max_points f).

Definition country_clause (f : Filters) : string :=
  if neq (selected_country_competitor f) "All"
  then " AND c.country = '" ++ selected_country_competitor f ++ "'"
  else "".

Definition order_clause : string := " ORDER BY cr.rank;".

(** [search_query_base] after its successive [+=]. *)
Definition search_query_base (f : Filters) : string :=
  ((((search_query_head ++ name_clause f) ++ rank_clause f)
      ++ points_clause f) ++ country_clause f) ++ order_clause.

(** The same listing with nothing appended between the placeholder and the
    ordering. *)
Definition unfiltered_search_query : string :=
  search_query_head ++ order_clause.

(** The text of [search_query_base] from the WHERE keyword's condition up
    to the ordering. *)
Definition where_text (f : Filters) : string :=
  where_placeholder ++
  name_clause f ++ rank_clause f ++ points_clause f ++ country_clause f.

Definition countries_query : string :=
  "SELECT DISTINCT country FROM competitors ORDER BY country;".

Definition top_ranked_query : string :=
  nl ++
  "                              SELECT c.name AS competitor_name," ++
  nl ++
  "                                     cr.rank," ++
  nl ++
  "                                     cr.points," ++
  nl ++
  "                                     c.country" ++
  nl ++
  "                              FROM competitor_rankings cr" ++
  nl ++
  "                                       JOIN" ++
  nl ++
  "                                   competitors c ON cr.competitor_id = c.competitor_id" ++
  nl ++
  "                              ORDER BY cr.rank LIMIT 10;" ++
  nl ++
  "                              ".

Definition highest_points_query : string :=
  nl ++
  "                                  SELECT c.name AS competitor_name," ++
  nl ++
  "                                         cr.points," ++
  nl ++
  "                                         cr.rank," ++
  nl ++
  "                                         c.country" ++
  nl ++
  "                                  FROM competitor_rankings cr" ++
  nl ++
  "                                           JOIN" ++
  nl ++
  "                                       competitors c ON cr.competitor_id = c.competitor_id" ++
  nl ++
  "                                  ORDER BY cr.points DESC LIMIT 10;" ++
  nl ++
  "                                  ".

End Rankings.

(** ** The runtime both functions live in *)

(** A cell of a result row. *)
Inductive Value :=
| VInt (z : Z)
| VStr (s : string).

(** [pd.DataFrame]: named columns in order, rows in order. *)
Record DataFrame := {
  columns : list string;
  rows : list (list Value)
}.

(** [pd.DataFrame()]. *)
Definition empty_frame : DataFrame := {| columns := []; rows := [] |}.

(** [df.empty]. *)
Definition df_empty (df : DataFrame) : bool :=
  match columns df, rows df with
  | _ :: _, _ :: _ => false
  | _, _ => true
  end.

(** What [connection.execute] hands back: [result.keys()] and
    [result.fetchall()]. *)
Record ResultSet := {
  keys : list string;
  fetchall : list (list Value)
}.

(** A call returns or raises an [Exception] whose [str] is [e]. *)
Inductive Res (A : Type) :=
| Ok (a : A)
| Raise (e : string).
Arguments Ok {A} a.
Arguments Raise {A} e.

(** The banners Streamlit shows the viewer. *)
Inductive Banner :=
| Warning (text : string)
| Error (text : string)
| Info (text : string).

(** The collaborators outside the repository: configuration, SQLAlchemy and
    the store behind it.  Each call may raise and may change the world. *)
Record Driver := {
  World : Type;
  Engine : Type;
  Connection : Type;
  get_connection_string : World -> Res string * World;
  create_engine : string -> World -> Res Engine * World;
  connect : Engine -> World -> Res Connection * World;
  execute : Connection -> string -> World -> Res ResultSet * World;
  close : Connection -> World -> Res unit * World
}.

Module Runtime.
Section WithDriver.
Context (D : Driver).

(** The Streamlit process as one page file's [get_db_connection] sees it:
    the world outside, the banners shown so far, the entry
    [st.cache_resource] keeps for this function, and how many times
    [create_engine] has been called.  The entries of all three page files
    are in [Session.Process]. *)
Record Proc := {
  world : World D;
  banners : list Banner;
  cached : option (option (Engine D));
  engines_created : nat
}.

Definition M (A : Type) : Type := Proc -> Res A * Proc.

Definition ret {A} (a : A) : M A := fun s => (Ok a, s).

Definition bind {A B} (m : M A) (k : A -> M B) : M B :=
  fun s =>
    match m s with
    | (Ok a, s1) => k a s1
    | (Raise e, s1) => (Raise e, s1)
    end.

(** [try: body / except Exception as e: handler e]. *)
Definition try_except {A} (body : M A) (handler : string -> M A) : M A :=
  fun s =>
    match body s with
    | (Ok a, s1) => (Ok a, s1)
    | (Raise e, s1) => handler e s1
    end.

(** A call into the driver. *)
Definition ext {A} (call : World D -> Res A * World D) : M A :=
  fun s =>
    let (r, w) := call (world s) in
    (r, {| world := w; banners := banners s; cached := cached s;
           engines_created := engines_created s |}).

Definition show (b : Banner) : M unit :=
  fun s =>
    (Ok tt, {| world := world s; banners := banners s ++ [b];
               cached := cached s; engines_created := engines_created s |}).

Definition st_warning (text : string) : M unit := show (Warning text).
Definition st_error (text : string) : M unit := show (Error text).

Definition count_engine : M unit :=
  fun s =>
    (Ok tt, {| world := world s; banners := banners s; cached := cached s;
               engines_created := S (engines_created s) |}).

Definition set_cached (v : option (Engine D)) : M unit :=
  fun s =>
    (Ok tt, {| world := world s; banners := banners s; cached := Some v;
               engines_created := engines_created s |}).

Local Notation "x <- m ;; k" := (bind m (fun x => k))
  (at level 61, m at next level, right associativity).
Local Notation "m ;;; k" := (bind m (fun _ => k))
  (at level 61, right associativity).

(** [with engine.connect() as connection: body]: the connection is closed
    on the way out whether [body] returned or raised; an exception of
    [close] replaces the one in flight. *)
Definition with_connect {A} (engine : Engine D)
    (body : Connection D -> M A) : M A :=
  connection <- ext (connect D engine) ;;
  fun s =>
    match body connection s with
    | (Ok a, s1) =>
        match ext (close D connection) s1 with
        | (Ok _, s2) => (Ok a, s2)
        | (Raise e, s2) => (Raise e, s2)
        end
    | (Raise e, s1) =>
        match ext (close D connection) s1 with
        | (Ok _, s2) => (Raise e, s2)
        | (Raise e', s2) => (Raise e', s2)
        end
    end.

(** The body of [get_db_connection]. *)
Definition get_db_connection_body : M (option (Engine D)) :=
  conn_string <- ext (get_connection_string D) ;;
  try_except
    (count_engine ;;;
     engine <- ext (create_engine D conn_string) ;;
     with_connect engine (fun connection =>
       ext (execute D connection "SELECT 1")) ;;;
     ret (Some engine))
    (fun _ => ret None).

(** [@st.cache_resource] on a function of no arguments: the first call that
    returns stores what it returned, [None] included; later calls answer
    from the store and do not run the body.  Nothing in the pages clears
    or expires the entry. *)
Definition cache_resource (body : M (option (Engine D)))
    : M (option (Engine D)) :=
  fun s =>
    match cached s with
    | Some v => (Ok v, s)
    | None => (v <- body ;; set_cached v ;;; ret v) s
    end.

Definition get_db_connection : M (option (Engine D)) :=
  cache_resource get_db_connection_body.

Definition connection_warning : string :=
  "Database connection not established. Some features may not work.".

(** [run_sql_query(query, engine_obj)]. *)
Definition run_sql_query (query : string) (engine_obj : option (Engine D))
    : M DataFrame :=
  match engine_obj with
  | None => st_warning connection_warning ;;; ret empty_frame
  | Some engine =>
      try_except
        (with_connect engine (fun connection =>
           result <- ext (execute D connection query) ;;
           ret {| columns := keys result; rows := fetchall result |}))
        (fun e => st_error ("Error executing query: " ++ e) ;;;
                  ret empty_frame)
  end.

(** What a page does between two reruns, as far as the connection goes. *)
Inductive Call :=
| GetConnection
| RunQuery (query : string) (engine_obj : option (Engine D)).

(** The handles [get_db_connection] returned over a run of calls, oldest
    first, and the process after them. *)
Fixpoint run_calls (calls : list Call) (s : Proc)
    : list (option (Engine D)) * Proc :=
  match calls with
  | [] => ([], s)
  | GetConnection :: rest =>
      match get_db_connection s with
      | (Ok v, s1) => let (vs, s2) := run_calls rest s1 in (v :: vs, s2)
      | (Raise _, s1) => run_calls rest s1
      end
  | RunQuery q e :: rest => run_calls rest (snd (run_sql_query q e s))
  end.

(** A process that has just started. *)
Definition fresh (w : World D) : Proc :=
  {| world := w; banners := []; cached := None; engines_created := 0 |}.

End WithDriver.

Arguments world {D} _.
Arguments banners {D} _.
Arguments cached {D} _.
Arguments engines_created {D} _.

End Runtime.

(** ** The store: a reader of the SQL the rankings page sends

    The store is outside the repository.  What follows is the part of
    PostgreSQL the rankings page relies on: the two competitor tables,
    SELECT with column aliases, one inner JOIN, a WHERE of comparisons joined
    by AND and OR, ILIKE, ORDER BY one column, LIMIT, line comments and
    quoted literals.  Columns hold no NULL; text is compared byte-wise and
    case is folded on ASCII letters. *)

Module Pg.
Local Open Scope list_scope.

Record Competitor := {
  competitor_id : Z;
  name : string;
  country : string;
  country_code : string;
  abbreviation : string
}.

Record CompetitorRanking := {
  ranking_competitor_id : Z;
  rank : Z;
  movement : Z;
  points : Z;
  competitions_played : Z
}.

Record Store := {
  competitors : list Competitor;
  competitor_rankings : list CompetitorRanking
}.

(** *** Characters *)

Definition code (c : ascii) : nat := nat_of_ascii c.

Definition is_space (c : ascii) : bool :=
  match code c with
  | 32 | 9 | 10 | 13 => true
  | _ => false
  end.

Definition is_digit (c : ascii) : bool :=
  Nat.leb 48 (code c) && Nat.leb (code c) 57.

Definition is_upper (c : ascii) : bool :=
  Nat.leb 65 (code c) && Nat.leb (code c) 90.

Definition is_letter (c : ascii) : bool :=
  is_upper c || (Nat.leb 97 (code c) && Nat.leb (code c) 122)
  || Nat.eqb (code c) 95.

(** Inside a name: letters, digits, and the dot of a qualified column. *)
Definition is_word (c : ascii) : bool :=
  is_letter c || is_digit c || Nat.eqb (code c) 46.

Definition lower_char (c : ascii) : ascii :=
  if is_upper c then ascii_of_nat (code c + 32) else c.

Fixpoint lower (s : string) : string :=
  match s with
  | EmptyString => EmptyString
  | String c rest => String (lower_char c) (lower rest)
  end.

Definition quote : ascii := "'"%char.

(** *** Tokens *)

Inductive token :=
| KSelect | KDistinct | KAs | KFrom | KJoin | KOn | KWhere | KAnd | KOr
| KIlike | KOrder | KBy | KDesc | KLimit
| TId (id : string)
| TNum (n : N)
| TStr (s : string)
| TEq | TGe | TLe | TComma | TSemi.

(** Keywords are recognised in any case; other names fold to lower case. *)
Definition word_token (w : string) : token :=
  let l := lower w in
  if l =? "select" then KSelect
  else if l =? "distinct" then KDistinct
  else if l =? "as" then KAs
  else if l =? "from" then KFrom
  else if l =? "join" then KJoin
  else if l =? "on" then KOn
  else if l =? "where" then KWhere
  else if l =? "and" then KAnd
  else if l =? "or" then KOr
  else if l =? "ilike" then KIlike
  else if l =? "order" then KOrder
  else if l =? "by" then KBy
  else if l =? "desc" then KDesc
  else if l =? "limit" then KLimit
  else TId l.

Definition number_token (digits : string) : token :=
  match NilZero.uint_of_string digits with
  | Some d => TNum (N.of_uint d)
  | None => TNum 0
  end.

(** Where the scanner is between two characters. *)
Inductive lstate :=
| LNormal
| LWord (acc : string)
| LNumber (acc : string)
| LString (acc : string)
| LQuote (acc : string)
| LDash
| LComment
| LLess
| LGreater
| LFail.

Definition snoc (acc : string) (c : ascii) : string :=
  (acc ++ String c "")%string.

(** A character met outside any token. *)
Definition start (c : ascii) : lstate * list token :=
  if is_space c then (LNormal, [])
  else if is_digit c then (LNumber (String c ""), [])
  else if is_letter c then (LWord (String c ""), [])
  else if Ascii.eqb c quote then (LString "", [])
  else if Ascii.eqb c "-" then (LDash, [])
  else if Ascii.eqb c "<" then (LLess, [])
  else if Ascii.eqb c ">" then (LGreater, [])
  else if Ascii.eqb c "=" then (LNormal, [TEq])
  else if Ascii.eqb c "," then (LNormal, [TComma])
  else if Ascii.eqb c ";" then (LNormal, [TSemi])
  else (LFail, []).

Definition after (t : token) (c : ascii) : lstate * list token :=
  let (st, out) := start c in (st, t :: out).

(** One character.  A quote inside a literal either ends it or, doubled,
    stands for itself; two dashes open a comment that runs to the end of
    the line. *)
Definition step (st : lstate) (c : ascii) : lstate * list token :=
  match st with
  | LNormal => start c
  | LWord acc =>
      if is_word c then (LWord (snoc acc c), [])
      else after (word_token acc) c
  | LNumber acc =>
      if is_digit c then (LNumber (snoc acc c), [])
      else after (number_token acc) c
  | LString acc =>
      if Ascii.eqb c quote then (LQuote acc, [])
      else (LString (snoc acc c), [])
  | LQuote acc =>
      if Ascii.eqb c quote then (LString (snoc acc quote), [])
      else after (TStr acc) c
  | LDash => if Ascii.eqb c "-" then (LComment, []) else (LFail, [])
  | LComment => if Nat.eqb (code c) 10 then (LNormal, []) else (LComment, [])
  | LLess => if Ascii.eqb c "=" then (LNormal, [TLe]) else (LFail, [])
  | LGreater => if Ascii.eqb c "=" then (LNormal, [TGe]) else (LFail, [])
  | LFail => (LFail, [])
  end.

Fixpoint scan (st : lstate) (s : string) : lstate * list token :=
  match s with
  | EmptyString => (st, [])
  | String c rest =>
      let (st1, out1) := step st c in
      let (st2, out2) := scan st1 rest in
      (st2, out1 ++ out2)
  end.

(** The end of the text: a literal left open is an error. *)
Definition finish (st : lstate) : option (list token) :=
  match st with
  | LNormal | LComment => Some []
  | LWord acc => Some [word_token acc]
  | LNumber acc => Some [number_token acc]
  | LQuote acc => Some [TStr acc]
  | LString _ | LDash | LLess | LGreater | LFail => None
  end.

Definition lex (s : string) : option (list token) :=
  let (st, out) := scan LNormal s in
  match finish st with
  | Some last => Some (out ++ last)
  | None => None
  end.

(** *** Queries *)

Inductive operand :=
| OCol (ref : string)
| ONum (n : N)
| OStr (s : string).

Inductive cmp := CEq | CGe | CLe | CIlike.

Record atom := { lhs : operand; op : cmp; rhs : operand }.

Record item := { expr : operand; out_name : string }.

Record table_ref := { table : string; alias : string }.

Record join_clause := { joined : table_ref; on : atom }.

(** A condition is kept as the OR of its AND-groups, AND binding tighter. *)
Definition condition := list (list atom).

Record query := {
  distinct : bool;
  items : list item;
  from : option table_ref;
  join : option join_clause;
  where_ : option condition;
  order_by : option (string * bool);
  limit : option N
}.

(** [alias.column] cut at its dot. *)
Fixpoint split_dot (s : string) : option (string * string) :=
  match s with
  | EmptyString => None
  | String c rest =>
      if Nat.eqb (code c) 46 then Some (""%string, rest)
      else match split_dot rest with
           | Some (a, b) => Some (String c a, b)
           | None => None
           end
  end.

(** The column name a select item gets when it has no AS. *)
Definition default_name (x : operand) : string :=
  match x with
  | OCol ref => match split_dot ref with
                | Some (_, c) => c
                | None => ref
                end
  | _ => "?column?"
  end.

Definition operand_of (t : token) : option operand :=
  match t with
  | TId ref => Some (OCol ref)
  | TNum n => Some (ONum n)
  | TStr s => Some (OStr s)
  | _ => None
  end.

Definition cmp_of (t : token) : option cmp :=
  match t with
  | TEq => Some CEq
  | TGe => Some CGe
  | TLe => Some CLe
  | KIlike => Some CIlike
  | _ => None
  end.

Definition atom_of (a o b : token) : option atom :=
  match operand_of a, cmp_of o, operand_of b with
  | Some x, Some c, Some y => Some {| lhs := x; op := c; rhs := y |}
  | _, _, _ => None
  end.

Definition named (e : token) (a : string) : option item :=
  match operand_of e with
  | Some x => Some {| expr := x; out_name := a |}
  | None => None
  end.

Definition unnamed (e : token) : option item :=
  match operand_of e with
  | Some x => Some {| expr := x; out_name := default_name x |}
  | None => None
  end.

Definition more_items (first : option item)
    (rest : option (list item * list token))
    : option (list item * list token) :=
  match first, rest with
  | Some i, Some (is_, r) => Some (i :: is_, r)
  | _, _ => None
  end.

Definition last_item (first : option item) (r : list token)
    : option (list item * list token) :=
  match first with
  | Some i => Some ([i], r)
  | None => None
  end.

Fixpoint parse_items (toks : list token)
    : option (list item * list token) :=
  match toks with
  | e :: KAs :: TId a :: TComma :: more =>
      more_items (named e a) (parse_items more)
  | e :: KAs :: TId a :: rest => last_item (named e a) rest
  | e :: TComma :: more => more_items (unnamed e) (parse_items more)
  | e :: rest => last_item (unnamed e) rest
  | [] => None
  end.

Fixpoint parse_condition (toks : list token)
    : option (condition * list token) :=
  match toks with
  | a :: o :: b :: rest =>
      match atom_of a o b with
      | None => None
      | Some x =>
          match rest with
          | KAnd :: rest' =>
              match parse_condition rest' with
              | Some (group :: groups, r) => Some ((x :: group) :: groups, r)
              | _ => None
              end
          | KOr :: rest' =>
              match parse_condition rest' with
              | Some (groups, r) => Some ([x] :: groups, r)
              | None => None
              end
          | _ => Some ([[x]], rest)
          end
      end
  | _ => None
  end.

Definition parse_table (toks : list token)
    : option (table_ref * list token) :=
  match toks with
  | TId t :: TId a :: rest => Some ({| table := t; alias := a |}, rest)
  | TId t :: rest => Some ({| table := t; alias := t |}, rest)
  | _ => None
  end.

Definition parse_from (toks : list token)
    : option (option table_ref * list token) :=
  match toks with
  | KFrom :: rest =>
      match parse_table rest with
      | Some (t, r) => Some (Some t, r)
      | None => None
      end
  | _ => Some (None, toks)
  end.

Definition parse_join (toks : list token)
    : option (option join_clause * list token) :=
  match toks with
  | KJoin :: rest =>
      match parse_table rest with
      | Some (t, KOn :: a :: o :: b :: r) =>
          match atom_of a o b with
          | Some x => Some (Some {| joined := t; on := x |}, r)
          | None => None
          end
      | _ => None
      end
  | _ => Some (None, toks)
  end.

Definition parse_where (toks : list token)
    : option (option condition * list token) :=
  match toks with
  | KWhere :: rest =>
      match parse_condition rest with
      | Some (c, r) => Some (Some c, r)
      | None => None
      end
  | _ => Some (None, toks)
  end.

Definition parse_order (toks : list token)
    : option (option (string * bool) * list token) :=
  match toks with
  | KOrder :: KBy :: TId c :: KDesc :: rest => Some (Some (c, true), rest)
  | KOrder :: KBy :: TId c :: rest => Some (Some (c, false), rest)
  | KOrder :: _ => None
  | _ => Some (None, toks)
  end.

Definition parse_limit (toks : list token)
    : option (option N * list token) :=
  match toks with
  | KLimit :: TNum n :: rest => Some (Some n, rest)
  | KLimit :: _ => None
  | _ => Some (None, toks)
  end.

Definition parse_end (toks : list token) : bool :=
  match toks with
  | [] | [TSemi] => true
  | _ => false
  end.

Definition parse (toks : list token) : option query :=
  match toks with
  | KSelect :: toks0 =>
      let (d, toks1) := match toks0 with
                        | KDistinct :: r => (true, r)
                        | _ => (false, toks0)
                        end in
      match parse_items toks1 with
      | None => None
      | Some (its, toks2) =>
      match parse_from toks2 with
      | None => None
      | Some (f, toks3) =>
      match (match f with
             | Some _ => parse_join toks3
             | None => Some (None, toks3)
             end) with
      | None => None
      | Some (j, toks4) =>
      match parse_where toks4 with
      | None => None
      | Some (w, toks5) =>
      match parse_order toks5 with
      | None => None
      | Some (o, toks6) =>
      match parse_limit toks6 with
      | None => None
      | Some (l, toks7) =>
          if parse_end toks7
          then Some {| distinct := d; items := its; from := f; join := j;
                       where_ := w; order_by := o; limit := l |}
          else None
      end end end end end end
  | _ => None
  end.

(** *** Evaluation *)

(** A row in flight: every cell with the table alias and the column it
    came from. *)
Record cell := { of_alias : string; of_column : string; held : Value }.

Definition Row := list cell.

Definition competitor_row (a : string) (c : Competitor) : Row :=
  [ {| of_alias := a; of_column := "competitor_id";
       held := VInt (competitor_id c) |};
    {| of_alias := a; of_column := "name"; held := VStr (name c) |};
    {| of_alias := a; of_column := "country"; held := VStr (country c) |};
    {| of_alias := a; of_column := "country_code";
       held := VStr (country_code c) |};
    {| of_alias := a; of_column := "abbreviation";
       held := VStr (abbreviation c) |} ].

Definition ranking_row (a : string) (r : CompetitorRanking) : Row :=
  [ {| of_alias := a; of_column := "competitor_id";
       held := VInt (ranking_competitor_id r) |};
    {| of_alias := a; of_column := "rank"; held := VInt (rank r) |};
    {| of_alias := a; of_column := "movement"; held := VInt (movement r) |};
    {| of_alias := a; of_column := "points"; held := VInt (points r) |};
    {| of_alias := a; of_column := "competitions_played";
       held := VInt (competitions_played r) |} ].

Definition scan_table (db : Store) (t : table_ref) : option (list Row) :=
  if table t =? "competitors"
  then Some (map (competitor_row (alias t)) (competitors db))
  else if table t =? "competitor_rankings"
  then Some (map (ranking_row (alias t)) (competitor_rankings db))
  else None.

(** A qualified reference names one cell; a bare column must be the only
    one of its name in the row. *)
Definition resolve (ref : string) (r : Row) : option Value :=
  match split_dot ref with
  | Some (a, c) =>
      match filter (fun x => (of_alias x =? a) && (of_column x =? c)) r with
      | x :: _ => Some (held x)
      | [] => None
      end
  | None =>
      match filter (fun x => of_column x =? ref) r with
      | [x] => Some (held x)
      | _ => None
      end
  end.

Definition eval_operand (x : operand) (r : Row) : option Value :=
  match x with
  | OCol ref => resolve ref r
  | ONum n => Some (VInt (Z.of_N n))
  | OStr s => Some (VStr s)
  end.

(** LIKE: [%] stands for any run of characters, [_] for any one, and a
    backslash takes the next pattern character literally. *)
Fixpoint like_match (p t : string) {struct p} : bool :=
  match p with
  | EmptyString =>
      match t with
      | EmptyString => true
      | String _ _ => false
      end
  | String c p' =>
      if Ascii.eqb c "%" then
        (fix any (t : string) : bool :=
           like_match p' t ||
           match t with
           | EmptyString => false
           | String _ t' => any t'
           end) t
      else if Ascii.eqb c "_" then
        match t with
        | EmptyString => false
        | String _ t' => like_match p' t'
        end
      else if Ascii.eqb c "\" then
        match p' with
        | EmptyString => false
        | String e p'' =>
            match t with
            | EmptyString => false
            | String d t' => Ascii.eqb e d && like_match p'' t'
            end
        end
      else
        match t with
        | EmptyString => false
        | String d t' => Ascii.eqb c d && like_match p' t'
        end
  end.

(** A pattern may not end in a lone backslash. *)
Fixpoint pattern_ok (p : string) : bool :=
  match p with
  | EmptyString => true
  | String c p' =>
      if Ascii.eqb c "\" then
        match p' with
        | EmptyString => false
        | String _ p'' => pattern_ok p''
        end
      else pattern_ok p'
  end.

Definition ilike (text pattern : string) : option bool :=
  if pattern_ok pattern
  then Some (like_match (lower pattern) (lower text))
  else None.

(** Operands of different types do not compare. *)
Definition compare_values (c : cmp) (a b : Value) : option bool :=
  match c, a, b with
  | CEq, VInt x, VInt y => Some (Z.eqb x y)
  | CEq, VStr x, VStr y => Some (x =? y)
  | CGe, VInt x, VInt y => Some (Z.leb y x)
  | CGe, VStr x, VStr y => Some (String.leb y x)
  | CLe, VInt x, VInt y => Some (Z.leb x y)
  | CLe, VStr x, VStr y => Some (String.leb x y)
  | CIlike, VStr x, VStr y => ilike x y
  | _, _, _ => None
  end.

Definition eval_atom (a : atom) (r : Row) : option bool :=
  match eval_operand (lhs a) r, eval_operand (rhs a) r with
  | Some x, Some y => compare_values (op a) x y
  | _, _ => None
  end.

Fixpoint eval_all (group : list atom) (r : Row) : option bool :=
  match group with
  | [] => Some true
  | a :: rest =>
      match eval_atom a r, eval_all rest r with
      | Some x, Some y => Some (x && y)
      | _, _ => None
      end
  end.

Fixpoint eval_condition (c : condition) (r : Row) : option bool :=
  match c with
  | [] => Some false
  | group :: rest =>
      match eval_all group r, eval_condition rest r with
      | Some x, Some y => Some (x || y)
      | _, _ => None
      end
  end.

(** The rows a test accepts, in their order; a test that fails on any row
    fails the query. *)
Fixpoint keep (p : Row -> option bool) (rs : list Row)
    : option (list Row) :=
  match rs with
  | [] => Some []
  | r :: rest =>
      match p r, keep p rest with
      | Some true, Some k => Some (r :: k)
      | Some false, Some k => Some k
      | _, _ => None
      end
  end.

Fixpoint each {A B} (f : A -> option B) (l : list A) : option (list B) :=
  match l with
  | [] => Some []
  | x :: rest =>
      match f x, each f rest with
      | Some y, Some ys => Some (y :: ys)
      | _, _ => None
      end
  end.

Definition pairs (ls rs : list Row) : list Row :=
  flat_map (fun l => map (fun r => l ++ r) rs) ls.

Definition value_leb (a b : Value) : bool :=
  match a, b with
  | VInt x, VInt y => Z.leb x y
  | VStr x, VStr y => String.leb x y
  | VInt _, VStr _ => true
  | VStr _, VInt _ => false
  end.

Definition value_eqb (a b : Value) : bool :=
  match a, b with
  | VInt x, VInt y => Z.eqb x y
  | VStr x, VStr y => x =? y
  | _, _ => false
  end.

(** Insertion sort on a key: rows of equal key keep their order. *)
Fixpoint insert_by {A} (key : A -> Value) (le : Value -> Value -> bool)
    (x : A) (sorted : list A) : list A :=
  match sorted with
  | [] => [x]
  | y :: rest =>
      if le (key x) (key y) then x :: sorted
      else y :: insert_by key le x rest
  end.

Fixpoint sort_by {A} (key : A -> Value) (le : Value -> Value -> bool)
    (l : list A) : list A :=
  match l with
  | [] => []
  | x :: rest => insert_by key le x (sort_by key le rest)
  end.

(** Every element is at most each one after it. *)
Fixpoint ascending {A} (key : A -> Value) (le : Value -> Value -> bool)
    (l : list A) : Prop :=
  match l with
  | [] => True
  | x :: rest =>
      (forall y, In y rest -> le (key x) (key y) = true)
      /\ ascending key le rest
  end.

Definition with_key (col : string) (r : Row) : option (Value * Row) :=
  match resolve col r with
  | Some k => Some (k, r)
  | None => None
  end.

Definition order_of (desc : bool) : Value -> Value -> bool :=
  if desc then (fun a b => value_leb b a) else value_leb.

Definition sort_rows (col : string) (desc : bool) (rs : list Row)
    : option (list Row) :=
  match each (with_key col) rs with
  | Some keyed => Some (map snd (sort_by fst (order_of desc) keyed))
  | None => None
  end.

Definition project (its : list item) (r : Row) : option (list Value) :=
  each (fun i => eval_operand (expr i) r) its.

Fixpoint same_row (a b : list Value) : bool :=
  match a, b with
  | [], [] => true
  | x :: a', y :: b' => value_eqb x y && same_row a' b'
  | _, _ => false
  end.

(** DISTINCT: each row once, at its first place. *)
Fixpoint dedup (seen : list (list Value)) (l : list (list Value))
    : list (list Value) :=
  match l with
  | [] => []
  | r :: rest =>
      if existsb (same_row r) seen then dedup seen rest
      else r :: dedup (r :: seen) rest
  end.

Definition eval (db : Store) (q : query) : option ResultSet :=
  match (match from q with
         | None => Some [[]]
         | Some t => scan_table db t
         end) with
  | None => None
  | Some base =>
  match (match join q with
         | None => Some base
         | Some j =>
             match scan_table db (joined j) with
             | Some rs => keep (eval_atom (on j)) (pairs base rs)
             | None => None
             end
         end) with
  | None => None
  | Some joined_rows =>
  match (match where_ q with
         | None => Some joined_rows
         | Some c => keep (eval_condition c) joined_rows
         end) with
  | None => None
  | Some kept =>
  match (match order_by q with
         | None => Some kept
         | Some (col, desc) => sort_rows col desc kept
         end) with
  | None => None
  | Some sorted =>
  match each (project (items q)) sorted with
  | None => None
  | Some projected =>
      let uniq := if distinct q then dedup [] projected else projected in
      let out := match limit q with
                 | None => uniq
                 | Some n => firstn (N.to_nat n) uniq
                 end in
      Some {| keys := map out_name (items q); fetchall := out |}
  end end end end end.

(** [connection.execute(text(sql))] against this store. *)
Definition execute_sql (db : Store) (sql : string) : Res ResultSet :=
  match lex sql with
  | None => Raise "syntax error"
  | Some toks =>
      match parse toks with
      | None => Raise "syntax error"
      | Some q =>
          match eval db q with
          | None => Raise "undefined column or operator"
          | Some rs => Ok rs
          end
      end
  end.

(** A driver whose every call succeeds and whose engine is this store. *)
Definition driver (db : Store) : Driver :=
  {| World := unit;
     Engine := Store;
     Connection := Store;
     get_connection_string := fun w => (Ok "postgresql://"%string, w);
     create_engine := fun _ w => (Ok db, w);
     connect := fun e w => (Ok e, w);
     execute := fun c sql w => (execute_sql c sql, w);
     close := fun _ w => (Ok tt, w) |}.

End Pg.

(** ** The rankings page against the store *)

Module RankingsPage.
Import Rankings.

(** The frame a call leaves the page with. *)
Definition frame {S : Type} (r : Res DataFrame * S) : DataFrame :=
  match fst r with
  | Ok df => df
  | Raise _ => empty_frame
  end.

(** [run_sql_query(sql)] on a page whose [engine] is the store [db]. *)
Definition run (db : Pg.Store) (sql : string)
    (s : Runtime.Proc (Pg.driver db)) : DataFrame :=
  frame (Runtime.run_sql_query (Pg.driver db) sql (Some db) s).

(** The process of a page that has just started on the store [db]. *)
Definition started (db : Pg.Store) : Runtime.Proc (Pg.driver db) :=
  Runtime.fresh (Pg.driver db) tt.

Definition filtered_competitors_df (db : Pg.Store) (f : Filters) :=
  run db (search_query_base f).

Definition unfiltered_competitors_df (db : Pg.Store) :=
  run db unfiltered_search_query.

Definition competitor_countries_df (db : Pg.Store) :=
  run db countries_query.

Definition top_ranked_df (db : Pg.Store) := run db top_ranked_query.

Definition highest_points_df (db : Pg.Store) := run db highest_points_query.

(** The value a row holds under a column name. *)
Fixpoint field (cols : list string) (col : string) (row : list Value)
    : option Value :=
  match cols, row with
  | c :: cols', v :: row' =>
      if c =? col then Some v else field cols' col row'
  | _, _ => None
  end.

Definition search_columns : list string :=
  ["competitor_name"; "rank"; "movement"; "points";
   "competitions_played"; "country"; "country_code"].

(** A text with no single quote cannot leave the literal it is put in. *)
Fixpoint no_quote (s : string) : bool :=
  match s with
  | EmptyString => true
  | String c rest => negb (Ascii.eqb c Pg.quote) && no_quote rest
  end.



(** The rankings with their competitor, in the order of the join. *)
Definition ranked (db : Pg.Store)
    : list (Pg.CompetitorRanking * Pg.Competitor) :=
  filter (fun p => Z.eqb (Pg.ranking_competitor_id (fst p))
                         (Pg.competitor_id (snd p)))
         (list_prod (Pg.competitor_rankings db) (Pg.competitors db)).

(** The row the search shows for a ranking and its competitor. *)
Definition search_row (p : Pg.CompetitorRanking * Pg.Competitor)
    : list Value :=
  [VStr (Pg.name (snd p)); VInt (Pg.rank (fst p));
   VInt (Pg.movement (fst p)); VInt (Pg.points (fst p));
   VInt (Pg.competitions_played (fst p));
   VStr (Pg.country (snd p)); VStr (Pg.country_code (snd p))].

Definition within (lo hi : N) (v : Z) : bool :=
  Z.leb (Z.of_N lo) v && Z.leb v (Z.of_N hi).

(** A shown row whose rank and points lie within the bounds. *)
Definition row_within (lo hi plo phi : N) (row : list Value) : bool :=
  match field search_columns "rank" row,
        field search_columns "points" row with
  | Some (VInt r), Some (VInt p) => within lo hi r && within plo phi p
  | _, _ => false
  end.

(** A ranking and its competitor as the join hands them on. *)
Definition joined_row (p : Pg.CompetitorRanking * Pg.Competitor)
    : Pg.Row :=
  (Pg.ranking_row "cr" (fst p) ++ Pg.competitor_row "c" (snd p))%list.

Definition rank_key (p : Pg.CompetitorRanking * Pg.Competitor) : Value :=
  VInt (Pg.rank (fst p)).

(** The pattern the name search sends, matched the way ILIKE does. *)
Definition name_matches (search name : string) : bool :=
  Pg.like_match (Pg.lower ("%" ++ search ++ "%")) (Pg.lower name).

(** What the WHERE clause of the search asks of a ranking, when no
    interpolated text leaves its literal. *)
Definition accepts (f : Filters)
    (p : Pg.CompetitorRanking * Pg.Competitor) : bool :=
  (if Py.truthy (competitor_name_search f)
   then name_matches (competitor_name_search f) (Pg.name (snd p))
   else true)
  && within (min_rank f) (max_rank f) (Pg.rank (fst p))
  && within (min_points f) (max_points f) (Pg.points (fst p))
  && (if Py.neq (selected_country_competitor f) "All"
      then Pg.country (snd p) =? selected_country_competitor f
      else true).


(** The tokens and the query the search text reads as, under the same
    proviso. *)
Definition search_items : list Pg.item :=
  [ {| Pg.expr := Pg.OCol "c.name"; Pg.out_name := "competitor_name" |};
    {| Pg.expr := Pg.OCol "cr.rank"; Pg.out_name := "rank" |};
    {| Pg.expr := Pg.OCol "cr.movement"; Pg.out_name := "movement" |};
    {| Pg.expr := Pg.OCol "cr.points"; Pg.out_name := "points" |};
    {| Pg.expr := Pg.OCol "cr.competitions_played";
       Pg.out_name := "competitions_played" |};
    {| Pg.expr := Pg.OCol "c.country"; Pg.out_name := "country" |};
    {| Pg.expr := Pg.OCol "c.country_code";
       Pg.out_name := "country_code" |} ].

Definition head_tokens : list Pg.token :=
  [ Pg.KSelect; Pg.TId "c.name"; Pg.KAs; Pg.TId "competitor_name";
    Pg.TComma; Pg.TId "cr.rank"; Pg.TComma; Pg.TId "cr.movement";
    Pg.TComma; Pg.TId "cr.points"; Pg.TComma;
    Pg.TId "cr.competitions_played"; Pg.TComma; Pg.TId "c.country";
    Pg.TComma; Pg.TId "c.country_code"; Pg.KFrom;
    Pg.TId "competitor_rankings"; Pg.TId "cr"; Pg.KJoin;
    Pg.TId "competitors"; Pg.TId "c"; Pg.KOn; Pg.TId "cr.competitor_id";
    Pg.TEq; Pg.TId "c.competitor_id"; Pg.KWhere; Pg.TNum 1; Pg.TEq;
    Pg.TNum 1 ].

Definition name_tokens (f : Filters) : list Pg.token :=
  if Py.truthy (competitor_name_search f)
  then [ Pg.KAnd; Pg.TId "c.name"; Pg.KIlike;
         Pg.TStr ("%" ++ competitor_name_search f ++ "%") ]
  else [].

Definition rank_tokens (f : Filters) : list Pg.token :=
  [ Pg.KAnd; Pg.TId "cr.rank"; Pg.TGe; Pg.TNum (min_rank f);
    Pg.KAnd; Pg.TId "cr.rank"; Pg.TLe; Pg.TNum (max_rank f) ].

Definition points_tokens (f : Filters) : list Pg.token :=
  [ Pg.KAnd; Pg.TId "cr.points"; Pg.TGe; Pg.TNum (min_points f);
    Pg.KAnd; Pg.TId "cr.points"; Pg.TLe; Pg.TNum (max_points f) ].

Definition country_tokens (f : Filters) : list Pg.token :=
  if Py.neq (selected_country_competitor f) "All"
  then [ Pg.KAnd; Pg.TId "c.country"; Pg.TEq;
         Pg.TStr (selected_country_competitor f) ]
  else [].

Definition order_tokens : list Pg.token :=
  [ Pg.KOrder; Pg.KBy; Pg.TId "cr.rank"; Pg.TSemi ].

Definition search_tokens (f : Filters) : list Pg.token :=
  (head_tokens ++ name_tokens f ++ rank_tokens f ++ points_tokens f
     ++ country_tokens f ++ order_tokens)%list.

(** A text read from the start gives these tokens once the token being
    read at its end, if any, is let out. *)
Definition reads_as (s : string) (toks : list Pg.token) : Prop :=
  exists st out last,
    Pg.scan Pg.LNormal s = (st, out)
    /\ Pg.finish st = Some last
    /\ st <> Pg.LComment
    /\ toks = (out ++ last)%list.

Definition compare_atom (l : Pg.operand) (c : Pg.cmp) (r : Pg.operand)
    : Pg.atom :=
  {| Pg.lhs := l; Pg.op := c; Pg.rhs := r |}.

Definition search_atoms (f : Filters) : list Pg.atom :=
  ([ compare_atom (Pg.ONum 1) Pg.CEq (Pg.ONum 1) ]
   ++ (if Py.truthy (competitor_name_search f)
       then [ compare_atom (Pg.OCol "c.name") Pg.CIlike
                (Pg.OStr ("%" ++ competitor_name_search f ++ "%")) ]
       else [])
   ++ [ compare_atom (Pg.OCol "cr.rank") Pg.CGe (Pg.ONum (min_rank f));
        compare_atom (Pg.OCol "cr.rank") Pg.CLe (Pg.ONum (max_rank f));
        compare_atom (Pg.OCol "cr.points") Pg.CGe
          (Pg.ONum (min_points f));
        compare_atom (Pg.OCol "cr.points") Pg.CLe
          (Pg.ONum (max_points f)) ]
   ++ (if Py.neq (selected_country_competitor f) "All"
       then [ compare_atom (Pg.OCol "c.country") Pg.CEq
                (Pg.OStr (selected_country_competitor f)) ]
       else []))%list.

Definition rankings_join : Pg.join_clause :=
  {| Pg.joined := {| Pg.table := "competitors"; Pg.alias := "c" |};
     Pg.on := compare_atom (Pg.OCol "cr.competitor_id") Pg.CEq
                (Pg.OCol "c.competitor_id") |}.

(** The listing with a single AND-group as its condition. *)
Definition listing_query (atoms : list Pg.atom) : Pg.query :=
  {| Pg.distinct := false;
     Pg.items := search_items;
     Pg.from := Some {| Pg.table := "competitor_rankings";
                        Pg.alias := "cr" |};
     Pg.join := Some rankings_join;
     Pg.where_ := Some [atoms];
     Pg.order_by := Some ("cr.rank", false);
     Pg.limit := None |}.

Definition search_query (f : Filters) : Pg.query :=
  listing_query (search_atoms f).

(** The rows a listing shows when its condition comes to [q]. *)
Definition listing (db : Pg.Store)
    (q : Pg.CompetitorRanking * Pg.Competitor -> bool)
    : list (list Value) :=
  map search_row (Pg.sort_by rank_key Pg.value_leb (filter q (ranked db))).

Definition search_result (db : Pg.Store) (f : Filters)
    : list (list Value) :=
  listing db (accepts f).

(** The least value the rank inputs let the user enter ([min_value=1]);
    they have no [max_value]. *)
Definition rank_min_value : Z := 1.

(** The least value the points inputs let the user enter
    ([min_value=0]); they have no [max_value] either. *)
Definition points_min_value : Z := 0.

(** Modelled from the spec: the values the data model allows in the
    [rank] column, a positive integer; the schema itself is not part of
    the pages. *)
Definition permitted_rank (r : Z) : bool := Z.leb 1 r.

(** Modelled from the spec: the same for [points], a non-negative
    number. *)
Definition permitted_points (p : Z) : bool := Z.leb 0 p.

End RankingsPage.

(** The store of the scenarios: rankings 1, 3, 6 and 10, and competitors
    from USA, ESP, USA and FRA. *)
Definition scenario_store : Pg.Store :=
  {| Pg.competitors :=
       [ {| Pg.competitor_id := 1; Pg.name := "Serena Cole";
            Pg.country := "USA"; Pg.country_code := "USA";
            Pg.abbreviation := "COL" |};
         {| Pg.competitor_id := 2; Pg.name := "Ana Ruiz";
            Pg.country := "ESP"; Pg.country_code := "ESP";
            Pg.abbreviation := "RUI" |};
         {| Pg.competitor_id := 3; Pg.name := "Tom Hale";
            Pg.country := "USA"; Pg.country_code := "USA";
            Pg.abbreviation := "HAL" |};
         {| Pg.competitor_id := 4; Pg.name := "Luc Petit";
            Pg.country := "FRA"; Pg.country_code := "FRA";
            Pg.abbreviation := "PET" |} ];
     Pg.competitor_rankings :=
       [ {| Pg.ranking_competitor_id := 1; Pg.rank := 3; Pg.movement := 0;
            Pg.points := 700; Pg.competitions_played := 12 |};
         {| Pg.ranking_competitor_id := 2; Pg.rank := 1; Pg.movement := 1;
            Pg.points := 950; Pg.competitions_played := 15 |};
         {| Pg.ranking_competitor_id := 3; Pg.rank := 10; Pg.movement := 0;
            Pg.points := 120; Pg.competitions_played := 7 |};
         {| Pg.ranking_competitor_id := 4; Pg.rank := 6; Pg.movement := 2;
            Pg.points := 400; Pg.competitions_played := 9 |} ] |}.

(** A store holding one ranking beyond the default upper bound. *)
Definition long_tail_store : Pg.Store :=
  {| Pg.competitors :=
       [ {| Pg.competitor_id := 1; Pg.name := "Ana Ruiz";
            Pg.country := "ESP"; Pg.country_code := "ESP";
            Pg.abbreviation := "RUI" |};
         {| Pg.competitor_id := 2; Pg.name := "Tom Hale";
            Pg.country := "USA"; Pg.country_code := "USA";
            Pg.abbreviation := "HAL" |} ];
     Pg.competitor_rankings :=
       [ {| Pg.ranking_competitor_id := 1; Pg.rank := 1; Pg.movement := 0;
            Pg.points := 950; Pg.competitions_played := 15 |};
         {| Pg.ranking_competitor_id := 2; Pg.rank := 10001; Pg.movement := 0;
            Pg.points := 3; Pg.competitions_played := 1 |} ] |}.

(** The search left as it is but for a maximum rank of 5. *)
Definition top_five : Rankings.Filters :=
  {| Rankings.competitor_name_search := "";
     Rankings.min_rank := 1; Rankings.max_rank := 5;
     Rankings.min_points := 0; Rankings.max_points := 1000000;
     Rankings.selected_country_competitor := "All" |}.

(** The same with a name text that closes its literal and comments out
    what follows. *)
Definition escaping_search : Rankings.Filters :=
  {| Rankings.competitor_name_search := "' OR 1 = 1 --";
     Rankings.min_rank := 1; Rankings.max_rank := 5;
     Rankings.min_points := 0; Rankings.max_points := 1000000;
     Rankings.selected_country_competitor := "All" |}.

(** The same with the bounds the wrong way round. *)
Definition escaping_empty_range : Rankings.Filters :=
  {| Rankings.competitor_name_search := "' OR 1 = 1 --";
     Rankings.min_rank := 5; Rankings.max_rank := 1;
     Rankings.min_points := 0; Rankings.max_points := 1000000;
     Rankings.selected_country_competitor := "All" |}.


(** A search for [ana], all else left as it is. *)
Definition ana_search : Rankings.Filters :=
  {| Rankings.competitor_name_search := "ana";
     Rankings.min_rank := 1; Rankings.max_rank := 10000;
     Rankings.min_points := 0; Rankings.max_points := 1000000;
     Rankings.selected_country_competitor := "All" |}.

(** A driver whose store cannot be reached: [connect] raises. *)
Definition unreachable_driver : Driver :=
  {| World := unit;
     Engine := unit;
     Connection := unit;
     get_connection_string := fun w => (Ok "postgresql://", w);
     create_engine := fun _ w => (Ok tt, w);
     connect := fun _ w => (Raise "connection refused", w);
     execute := fun _ _ w => (Raise "closed", w);
     close := fun _ w => (Ok tt, w) |}.

(** ** Frames and widgets in the page scripts *)

Module Pandas.

(** [str(v)] of a cell, as an f-string prints it. *)
Definition str_value (v : Value) : string :=
  match v with
  | VStr s => s
  | VInt z => NilZero.string_of_int (Z.to_int z)
  end.

(** The same for what a select box hands back, [None] included. *)
Definition str_selected (o : option Value) : string :=
  match o with
  | Some v => str_value v
  | None => "None"
  end.

(** Truth value of what a select box hands back: [None], zero and the
    empty text are false. *)
Definition truthy_selected (o : option Value) : bool :=
  match o with
  | Some (VStr s) => Py.truthy s
  | Some (VInt z) => negb (Z.eqb z 0)
  | None => false
  end.

(** The cells under a column name, top to bottom. *)
Fixpoint cells (cols : list string) (col : string)
    (rws : list (list Value)) : list Value :=
  match rws with
  | [] => []
  | row :: rest =>
      match RankingsPage.field cols col row with
      | Some v => v :: cells cols col rest
      | None => cells cols col rest
      end
  end.

(** [df[col].tolist()]: a KeyError when the frame has no such column. *)
Definition tolist (df : DataFrame) (col : string) : Res (list Value) :=
  if existsb (String.eqb col) (columns df)
  then Ok (cells (columns df) col (rows df))
  else Raise ("'" ++ col ++ "'").

(** [df.set_index(col)], kept as the frame itself: it raises the same
    KeyError. *)
Definition set_index (df : DataFrame) (col : string) : Res DataFrame :=
  if existsb (String.eqb col) (columns df)
  then Ok df
  else Raise ("'" ++ col ++ "'").

End Pandas.

Module Widgets.

(** [st.selectbox(label, options, index=0)]: the option the viewer picked;
    the first one until they pick, or when their pick is no longer there;
    [None] when there is nothing to pick from. *)
Definition selectbox (options : list Value) (pick : nat) : option Value :=
  match nth_error options pick with
  | Some v => Some v
  | None => nth_error options 0
  end.

End Widgets.

(** ** What a page puts on the screen *)

Module Screen.

(** The elements a page draws besides its banners. *)
Inductive Element :=
| Dataframe (df : DataFrame)
| TransposedTable (df : DataFrame)
| BarChart (df : DataFrame) (index : string).

Section WithDriver.
Context (D : Driver).

Record State := {
  elements : list Element;
  process : Runtime.Proc D
}.

Definition Page (A : Type) : Type := State -> Res A * State.

Definition ret {A} (a : A) : Page A := fun sc => (Ok a, sc).

Definition bind {A B} (m : Page A) (k : A -> Page B) : Page B :=
  fun sc =>
    match m sc with
    | (Ok a, sc1) => k a sc1
    | (Raise e, sc1) => (Raise e, sc1)
    end.

(** A call of the runtime from a page. *)
Definition call {A} (m : Runtime.M D A) : Page A :=
  fun sc =>
    let (r, s) := m (process sc) in
    (r, {| elements := elements sc; process := s |}).

(** A pandas operation that may raise. *)
Definition pandas {A} (r : Res A) : Page A := fun sc => (r, sc).

Definition draw (e : Element) : Page unit :=
  fun sc =>
    (Ok tt, {| elements := elements sc ++ [e]; process := process sc |}).

Definition st_dataframe (df : DataFrame) : Page unit := draw (Dataframe df).

Definition st_info (text : string) : Page unit :=
  call (Runtime.show D (Info text)).

Definition run_sql_query (query : string)
    (engine_obj : option (Engine D)) : Page DataFrame :=
  call (Runtime.run_sql_query D query engine_obj).

(** [if not df.empty: st.dataframe(df) / else: st.info(text)]. *)
Definition dataframe_or_info (df : DataFrame) (text : string) : Page unit :=
  if negb (df_empty df) then st_dataframe df else st_info text.

(** [['All'] + (df[col].tolist() if not df.empty else [])]. *)
Definition options_with_all (df : DataFrame) (col : string)
    : Page (list Value) :=
  if negb (df_empty df)
  then bind (pandas (Pandas.tolist df col))
         (fun values => ret (VStr "All" :: values))
  else ret [VStr "All"].

(** [st.dataframe(df)], then the bar chart keyed by [col] unless the frame
    is empty. *)
Definition dataframe_and_chart (df : DataFrame) (col : string) : Page unit :=
  bind (st_dataframe df)
    (fun _ =>
       if negb (df_empty df)
       then bind (pandas (Pandas.set_index df col))
              (fun indexed => draw (BarChart indexed col))
       else ret tt).

(** A screen with nothing on it yet. *)
Definition blank (s : Runtime.Proc D) : State :=
  {| elements := []; process := s |}.

End WithDriver.

Arguments elements {D} _.
Arguments process {D} _.

End Screen.

(** ** The script of the competitions page *)

Module CompetitionsScript.
Import Py.

(** The category names on offer. *)
Definition all_categories_query : string :=
  "SELECT DISTINCT category_name FROM categories ORDER BY category_name;".

(** The types on offer. *)
Definition all_types_query : string :=
  "SELECT DISTINCT type FROM competitions ORDER BY type;".

(** The genders on offer. *)
Definition all_genders_query : string :=
  "SELECT DISTINCT gender FROM competitions ORDER BY gender;".

(** The levels on offer. *)
Definition all_levels_query : string :=
  "SELECT DISTINCT level FROM competitions WHERE level IS NOT NULL ORDER BY level;".

(** The count of competitions per category. *)
Definition competitions_per_category_query : string :=
  nl ++
  "                                             SELECT cat.category_name," ++
  nl ++
  "                                                    COUNT(c.competition_id)" ++
  " AS number_of_competitions" ++
  nl ++
  "                                             FROM categories cat" ++
  nl ++
  "                                                      LEFT JOIN" ++
  nl ++
  "                                                  competitions c ON cat.category_id = c.ca" ++
  "tegory_id" ++
  nl ++
  "                                             GROUP BY cat.category_name" ++
  nl ++
  "                                             ORDER BY number_of_competitions DESC;" ++
  nl ++
  "                                             ".

(** The parent and sub-competition listing; a backslash at the end of a
    source line joins it to the next. *)
Definition hierarchy_query : string :=
  nl ++
  "                  SELECT COALESCE(p.competition_name, '--- Top Level ---')" ++
  " AS parent_competition, " ++
  "                         s.competition_name " ++
  "                               AS sub_competition, " ++
  "                         s.type, " ++
  "                         s.gender, " ++
  "                         s.level" ++
  nl ++
  "                  FROM competitions s " ++
  "                           LEFT JOIN " ++
  "                       competitions p ON s.parent_id = p.competition_id" ++
  nl ++
  "                  ORDER BY parent_competition, sub_competition;                   ".

(** Where the viewer left each select box. *)
Record Picks := {
  category_pick : nat;
  type_pick : nat;
  gender_pick : nat;
  level_pick : nat
}.

Definition no_competitions : string :=
  "No competitions found matching the selected filters.".

Section WithDriver.
Context (D : Driver).

Local Notation "x <- m ;; k" := (Screen.bind D m (fun x => k))
  (at level 61, m at next level, right associativity).
Local Notation "m ;;; k" := (Screen.bind D m (fun _ => k))
  (at level 61, right associativity).

(** The four option queries, then the four select boxes. *)
Definition select_filters (engine : option (Engine D)) (w : Picks)
    : Screen.Page D Competitions.Filters :=
  all_categories_df <- Screen.run_sql_query D all_categories_query engine ;;
  all_types_df <- Screen.run_sql_query D all_types_query engine ;;
  all_genders_df <- Screen.run_sql_query D all_genders_query engine ;;
  all_levels_df <- Screen.run_sql_query D all_levels_query engine ;;
  categories <- Screen.options_with_all D all_categories_df "category_name" ;;
  types <- Screen.options_with_all D all_types_df "type" ;;
  genders <- Screen.options_with_all D all_genders_df "gender" ;;
  levels <- Screen.options_with_all D all_levels_df "level" ;;
  Screen.ret D
    {| Competitions.selected_category :=
         Pandas.str_selected (Widgets.selectbox categories (category_pick w));
       Competitions.selected_type :=
         Pandas.str_selected (Widgets.selectbox types (type_pick w));
       Competitions.selected_gender :=
         Pandas.str_selected (Widgets.selectbox genders (gender_pick w));
       Competitions.selected_level :=
         Pandas.str_selected (Widgets.selectbox levels (level_pick w)) |}.

(** The page from top to bottom. *)
Definition page (w : Picks) : Screen.Page D unit :=
  engine <- Screen.call D (Runtime.get_db_connection D) ;;
  f <- select_filters engine w ;;
  filtered_competitions_df <-
    Screen.run_sql_query D (Competitions.filtered_competitions_query f)
      engine ;;
  Screen.dataframe_or_info D filtered_competitions_df no_competitions ;;;
  competitions_per_category_df <-
    Screen.run_sql_query D competitions_per_category_query engine ;;
  Screen.dataframe_and_chart D competitions_per_category_df
    "category_name" ;;;
  competition_hierarchy_df <-
    Screen.run_sql_query D hierarchy_query engine ;;
  Screen.st_dataframe D competition_hierarchy_df.

End WithDriver.
End CompetitionsScript.

(** ** The script of the complexes and venues page *)

Module VenuesScript.
Import Py.

(** The listing of venues with their complex. *)
Definition venues_complexes_query : string :=
  nl ++
  "                                    SELECT v.venue_name," ++
  nl ++
  "                                           c.complex_name," ++
  nl ++
  "                                           v.city_name," ++
  nl ++
  "                                           v.country_name," ++
  nl ++
  "                                           v.timezone" ++
  nl ++
  "                                    FROM venues v" ++
  nl ++
  "                                             JOIN" ++
  nl ++
  "                                         complexes c ON v.complex_id = c.complex_id" ++
  nl ++
  "                                    ORDER BY c.complex_name, v.venue_name;" ++
  nl ++
  "                                    ".

(** The count of venues per complex. *)
Definition venues_per_complex_query : string :=
  nl ++
  "                                      SELECT c.complex_name," ++
  nl ++
  "                                             COUNT(v.venue_id) AS number_of_venues" ++
  nl ++
  "                                      FROM complexes c" ++
  nl ++
  "                                               LEFT JOIN" ++
  nl ++
  "                                           venues v ON c.complex_id = v.complex_id" ++
  nl ++
  "                                      GROUP BY c.complex_name" ++
  nl ++
  "                                      ORDER BY number_of_venues DESC;" ++
  nl ++
  "                                      ".

(** The countries that have a venue. *)
Definition countries_venues_query : string :=
  "SELECT DISTINCT country_name FROM venues ORDER BY country_name;".

(** The f-string of the venues of a country up to its hole. *)
Definition venues_by_country_head : string :=
  nl ++
  "        SELECT" ++
  nl ++
  "            venue_name," ++
  nl ++
  "            city_name," ++
  nl ++
  "            country_name," ++
  nl ++
  "            timezone," ++
  nl ++
  "            c.complex_name" ++
  nl ++
  "        FROM" ++
  nl ++
  "            venues v" ++
  nl ++
  "        LEFT JOIN" ++
  nl ++
  "            complexes c ON v.complex_id = c.complex_id" ++
  nl ++
  "        WHERE" ++
  nl ++
  "            v.country_name = '".

(** What follows the hole. *)
Definition venues_by_country_tail : string :=
  "'" ++
  nl ++
  "        ORDER BY venue_name;" ++
  nl ++
  "    ".

(** The complexes with more than one venue. *)
Definition multi_venue_complexes_query : string :=
  nl ++
  "                                         SELECT c.complex_name," ++
  nl ++
  "                                                COUNT(v.venue_id) " ++
  "                                   AS number_of_venues," ++
  nl ++
  "                                                STRING_AGG(v.venue_name, ', ' ORDER BY v.venue_name)" ++
  " AS venue_list" ++
  nl ++
  "                                         FROM complexes c" ++
  nl ++
  "                                                  JOIN" ++
  nl ++
  "                                              venues v ON c.complex_id = v.complex_id" ++
  nl ++
  "                                         GROUP BY c.complex_name" ++
  nl ++
  "                                         HAVING COUNT(v.venue_id) > 1" ++
  nl ++
  "                                         ORDER BY number_of_venues DESC;" ++
  nl ++
  "                                         ".

Definition venues_by_country_query (selected_country_venue : string)
    : string :=
  venues_by_country_head ++ selected_country_venue ++ venues_by_country_tail.

Definition no_venue_countries : string :=
  "No venue countries available in the database.".

Section WithDriver.
Context (D : Driver).

Local Notation "x <- m ;; k" := (Screen.bind D m (fun x => k))
  (at level 61, m at next level, right associativity).
Local Notation "m ;;; k" := (Screen.bind D m (fun _ => k))
  (at level 61, right associativity).

(** Section 3: the venues of one country, asked for only when there is a
    country to pick. *)
Definition venues_in_country (engine : option (Engine D))
    (country_pick : nat) : Screen.Page D unit :=
  countries_venues <-
    Screen.run_sql_query D countries_venues_query engine ;;
  if negb (df_empty countries_venues)
  then
    options <- Screen.pandas D
                 (Pandas.tolist countries_venues "country_name") ;;
    venues_by_country_df <-
      Screen.run_sql_query D
        (venues_by_country_query
           (Pandas.str_selected (Widgets.selectbox options country_pick)))
        engine ;;
    Screen.st_dataframe D venues_by_country_df
  else Screen.st_info D no_venue_countries.

(** The page from top to bottom. *)
Definition page (country_pick : nat) : Screen.Page D unit :=
  engine <- Screen.call D (Runtime.get_db_connection D) ;;
  venues_complexes_df <-
    Screen.run_sql_query D venues_complexes_query engine ;;
  Screen.st_dataframe D venues_complexes_df ;;;
  venues_per_complex_df <-
    Screen.run_sql_query D venues_per_complex_query engine ;;
  Screen.dataframe_and_chart D venues_per_complex_df "complex_name" ;;;
  venues_in_country engine country_pick ;;;
  multi_venue_complexes_df <-
    Screen.run_sql_query D multi_venue_complexes_query engine ;;
  Screen.st_dataframe D multi_venue_complexes_df.

End WithDriver.
End VenuesScript.

(** ** The script of the rankings page *)

Module RankingsScript.
Import Py.

(** The f-string of the details viewer up to its hole. *)
Definition details_head : string :=
  nl ++
  "            SELECT" ++
  nl ++
  "                c.name AS competitor_name," ++
  nl ++
  "                cr.rank," ++
  nl ++
  "                cr.movement," ++
  nl ++
  "                cr.points," ++
  nl ++
  "                cr.competitions_played," ++
  nl ++
  "                c.country," ++
  nl ++
  "                c.country_code," ++
  nl ++
  "                c.abbreviation" ++
  nl ++
  "            FROM" ++
  nl ++
  "                competitor_rankings cr" ++
  nl ++
  "            JOIN" ++
  nl ++
  "                competitors c ON cr.competitor_id = c.competitor_id" ++
  nl ++
  "            WHERE" ++
  nl ++
  "                c.name = '".

(** What follows the hole. *)
Definition details_tail : string :=
  "';" ++
  nl ++
  "        ".

(** The statement of the country-wise analysis. *)
Definition country_analysis_query : string :=
  nl ++
  "                                    SELECT c.country," ++
  nl ++
  "                                           COUNT(c.competitor_id) AS number_of_competitors," ++
  nl ++
  "                                           AVG(cr.points)         AS average_points" ++
  nl ++
  "                                    FROM competitors c" ++
  nl ++
  "                                             JOIN" ++
  nl ++
  "                                         competitor_rankings cr ON c.competitor_id = cr.co" ++
  "mpetitor_id" ++
  nl ++
  "                                    GROUP BY c.country" ++
  nl ++
  "                                    ORDER BY number_of_competitors DESC;" ++
  nl ++
  "                                    ".

Definition competitor_details_query (selected_competitor_name : string)
    : string :=
  details_head ++ selected_competitor_name ++ details_tail.

(** What the viewer typed and picked. *)
Record Inputs := {
  name_text : string;
  min_rank_input : N;
  max_rank_input : N;
  min_points_input : N;
  max_points_input : N;
  country_pick : nat;
  competitor_pick : nat
}.

Definition no_competitors : string :=
  "No competitors found matching the selected filters.".

Definition no_details : string :=
  "No competitors to display details for based on current filters.".

Definition no_top_ranked : string := "No top-ranked competitors found.".

Definition no_highest_points : string :=
  "No competitors with highest points found.".

Definition no_country_analysis : string :=
  "No country-wise analysis data available.".

(** The filter state the widgets of section 1 come to, given the options
    of the country box. *)
Definition filters_of (w : Inputs) (country_options : list Value)
    : Rankings.Filters :=
  {| Rankings.competitor_name_search := name_text w;
     Rankings.min_rank := min_rank_input w;
     Rankings.max_rank := max_rank_input w;
     Rankings.min_points := min_points_input w;
     Rankings.max_points := max_points_input w;
     Rankings.selected_country_competitor :=
       Pandas.str_selected
         (Widgets.selectbox country_options (country_pick w)) |}.

Section WithDriver.
Context (D : Driver).

Local Notation "x <- m ;; k" := (Screen.bind D m (fun x => k))
  (at level 61, m at next level, right associativity).
Local Notation "m ;;; k" := (Screen.bind D m (fun _ => k))
  (at level 61, right associativity).

(** Section 1: the country options, the search, its table or its note. *)
Definition search_and_filter (engine : option (Engine D)) (w : Inputs)
    : Screen.Page D DataFrame :=
  competitor_countries_df <-
    Screen.run_sql_query D Rankings.countries_query engine ;;
  options <- Screen.options_with_all D competitor_countries_df "country" ;;
  filtered_competitors_df <-
    Screen.run_sql_query D
      (Rankings.search_query_base (filters_of w options)) engine ;;
  Screen.dataframe_or_info D filtered_competitors_df no_competitors ;;;
  Screen.ret D filtered_competitors_df.

(** Section 2: the details of one competitor of the filtered list. *)
Definition details_viewer (engine : option (Engine D)) (w : Inputs)
    (filtered_competitors_df : DataFrame) : Screen.Page D unit :=
  if negb (df_empty filtered_competitors_df)
  then
    competitor_names <-
      Screen.pandas D
        (Pandas.tolist filtered_competitors_df "competitor_name") ;;
    let selected_competitor_name :=
      Widgets.selectbox competitor_names (competitor_pick w) in
    if Pandas.truthy_selected selected_competitor_name
    then
      competitor_details_df <-
        Screen.run_sql_query D
          (competitor_details_query
             (Pandas.str_selected selected_competitor_name)) engine ;;
      if negb (df_empty competitor_details_df)
      then Screen.draw D (Screen.TransposedTable competitor_details_df)
      else Screen.ret D tt
    else Screen.ret D tt
  else Screen.st_info D no_details.

(** Section 3: the two leaderboards. *)
Definition leaderboards (engine : option (Engine D))
    : Screen.Page D unit :=
  top_ranked_df <-
    Screen.run_sql_query D Rankings.top_ranked_query engine ;;
  Screen.dataframe_or_info D top_ranked_df no_top_ranked ;;;
  highest_points_df <-
    Screen.run_sql_query D Rankings.highest_points_query engine ;;
  Screen.dataframe_or_info D highest_points_df no_highest_points.

(** Section 4: the analysis per country. *)
Definition country_analysis (engine : option (Engine D))
    : Screen.Page D unit :=
  country_analysis_df <-
    Screen.run_sql_query D country_analysis_query engine ;;
  Screen.dataframe_or_info D country_analysis_df no_country_analysis.

(** The page from top to bottom. *)
Definition page (w : Inputs) : Screen.Page D unit :=
  engine <- Screen.call D (Runtime.get_db_connection D) ;;
  filtered_competitors_df <- search_and_filter engine w ;;
  details_viewer engine w filtered_competitors_df ;;;
  leaderboards engine ;;;
  country_analysis engine.

End WithDriver.
End RankingsScript.

(** ** The rankings page against the store, continued *)

Module RankingsStore.
Import Rankings RankingsPage.

Definition pair : Type := (Pg.CompetitorRanking * Pg.Competitor)%type.

(** A statement over the rankings joined to their competitors. *)
Definition ranked_query (its : list Pg.item) (w : option Pg.condition)
    (o : option (string * bool)) (l : option N) : Pg.query :=
  {| Pg.distinct := false;
     Pg.items := its;
     Pg.from := Some {| Pg.table := "competitor_rankings";
                        Pg.alias := "cr" |};
     Pg.join := Some rankings_join;
     Pg.where_ := w;
     Pg.order_by := o;
     Pg.limit := l |}.

(** ORDER BY on a key of the pairs, when there is one. *)
Definition arrange (o : option (string * bool)) (key : pair -> Value)
    (l : list pair) : list pair :=
  match o with
  | Some (_, desc) => Pg.sort_by key (Pg.order_of desc) l
  | None => l
  end.

(** LIMIT, when there is one. *)
Definition cut {A} (l : option N) (rws : list A) : list A :=
  match l with
  | Some n => firstn (N.to_nat n) rws
  | None => rws
  end.

Definition rank_le (a b : pair) : Prop :=
  (Pg.rank (fst a) <= Pg.rank (fst b))%Z.

Definition points_ge (a b : pair) : Prop :=
  (Pg.points (fst b) <= Pg.points (fst a))%Z.

Definition points_key (p : pair) : Value := VInt (Pg.points (fst p)).





Definition details_head_tokens : list Pg.token :=
  [ Pg.KSelect; Pg.TId "c.name"; Pg.KAs; Pg.TId "competitor_name";
    Pg.TComma; Pg.TId "cr.rank"; Pg.TComma; Pg.TId "cr.movement";
    Pg.TComma; Pg.TId "cr.points"; Pg.TComma;
    Pg.TId "cr.competitions_played"; Pg.TComma; Pg.TId "c.country";
    Pg.TComma; Pg.TId "c.country_code"; Pg.TComma;
    Pg.TId "c.abbreviation"; Pg.KFrom;
    Pg.TId "competitor_rankings"; Pg.TId "cr"; Pg.KJoin;
    Pg.TId "competitors"; Pg.TId "c"; Pg.KOn; Pg.TId "cr.competitor_id";
    Pg.TEq; Pg.TId "c.competitor_id"; Pg.KWhere; Pg.TId "c.name";
    Pg.TEq ].


Definition competitor_details_df (db : Pg.Store) (selected : string) :=
  run db (RankingsScript.competitor_details_query selected).

(** The leaderboards. *)
Definition top_columns : list string :=
  ["competitor_name"; "rank"; "points"; "country"].

Definition top_items : list Pg.item :=
  [ {| Pg.expr := Pg.OCol "c.name"; Pg.out_name := "competitor_name" |};
    {| Pg.expr := Pg.OCol "cr.rank"; Pg.out_name := "rank" |};
    {| Pg.expr := Pg.OCol "cr.points"; Pg.out_name := "points" |};
    {| Pg.expr := Pg.OCol "c.country"; Pg.out_name := "country" |} ].

Definition top_row (p : pair) : list Value :=
  [VStr (Pg.name (snd p)); VInt (Pg.rank (fst p));
   VInt (Pg.points (fst p)); VStr (Pg.country (snd p))].

Definition highest_columns : list string :=
  ["competitor_name"; "points"; "rank"; "country"].

Definition highest_items : list Pg.item :=
  [ {| Pg.expr := Pg.OCol "c.name"; Pg.out_name := "competitor_name" |};
    {| Pg.expr := Pg.OCol "cr.points"; Pg.out_name := "points" |};
    {| Pg.expr := Pg.OCol "cr.rank"; Pg.out_name := "rank" |};
    {| Pg.expr := Pg.OCol "c.country"; Pg.out_name := "country" |} ].

Definition highest_row (p : pair) : list Value :=
  [VStr (Pg.name (snd p)); VInt (Pg.points (fst p));
   VInt (Pg.rank (fst p)); VStr (Pg.country (snd p))].




(** Only letters, digits and dots: what the scanner reads as one name. *)
Fixpoint all_word (s : string) : bool :=
  match s with
  | EmptyString => true
  | String c rest => Pg.is_word c && all_word rest
  end.

End RankingsStore.

(** A competitor whose name has an apostrophe, and the store's own. *)
Definition apostrophe_store : Pg.Store :=
  {| Pg.competitors :=
       [ {| Pg.competitor_id := 1; Pg.name := "Sean O'Hara";
            Pg.country := "IRL"; Pg.country_code := "IRL";
            Pg.abbreviation := "OHA" |} ];
     Pg.competitor_rankings :=
       [ {| Pg.ranking_competitor_id := 1; Pg.rank := 4; Pg.movement := 0;
            Pg.points := 610; Pg.competitions_played := 11 |} ] |}.

(** A driver whose configuration is missing: fetching the connection
    string raises. *)
Definition unconfigured_driver : Driver :=
  {| World := unit;
     Engine := unit;
     Connection := unit;
     get_connection_string := fun w => (Raise "DB_HOST is not set", w);
     create_engine := fun _ w => (Ok tt, w);
     connect := fun _ w => (Ok tt, w);
     execute := fun _ _ w => (Raise "closed", w);
     close := fun _ w => (Ok tt, w) |}.


(** The same widgets untouched. *)
Definition untouched_inputs : RankingsScript.Inputs :=
  {| RankingsScript.name_text := "";
     RankingsScript.min_rank_input := 1;
     RankingsScript.max_rank_input := 10000;
     RankingsScript.min_points_input := 0;
     RankingsScript.max_points_input := 1000000;
     RankingsScript.country_pick := 0;
     RankingsScript.competitor_pick := 0 |}.

(** ** The WHERE clause of the competitions page as the store reads it *)

Module CompetitionsStore.







End CompetitionsStore.


(** ** A database told what to answer *)

Module Scripted.

(** A database that answers each statement as [answer] says, whatever it
    was sent before, and keeps the statements it was sent, oldest first.
    Configuration, engine and connections do not fail. *)
Definition driver (answer : string -> Res ResultSet) : Driver :=
  {| World := list string;
     Engine := unit;
     Connection := unit;
     get_connection_string := fun w => (Ok "postgresql://"%string, w);
     create_engine := fun _ w => (Ok tt, w);
     connect := fun _ w => (Ok tt, w);
     execute := fun _ sql w => (answer sql, (w ++ [sql])%list);
     close := fun _ w => (Ok tt, w) |}.

(** The frame the page is left with for a statement. *)
Definition frame_of (answer : string -> Res ResultSet) (sql : string)
    : DataFrame :=
  match answer sql with
  | Ok rs => {| columns := keys rs; rows := fetchall rs |}
  | Raise _ => empty_frame
  end.

(** The banner shown for it, if any. *)
Definition banner_of (answer : string -> Res ResultSet) (sql : string)
    : list Banner :=
  match answer sql with
  | Ok _ => []
  | Raise e => [Error ("Error executing query: " ++ e)]
  end.

(** The cells the answer to a statement holds under a column. *)
Definition offered (answer : string -> Res ResultSet) (sql col : string)
    : list Value :=
  Pandas.cells (columns (frame_of answer sql)) col
    (rows (frame_of answer sql)).

(** The answer to a statement, when there is one, has the column. *)
Definition names_column (answer : string -> Res ResultSet)
    (sql col : string) : Prop :=
  forall rs, answer sql = Ok rs -> In col (keys rs).

(** A database with two categories and nothing else. *)
Definition two_categories (sql : string) : Res ResultSet :=
  if (sql =? CompetitionsScript.all_categories_query)%string
  then Ok {| keys := ["category_name"];
             fetchall := [[VStr "ATP"]; [VStr "WTA"]] |}
  else Raise "relation does not exist".

(** A database with venues in two countries and no answer to anything
    else. *)
Definition two_venue_countries (sql : string) : Res ResultSet :=
  if (sql =? VenuesScript.countries_venues_query)%string
  then Ok {| keys := ["country_name"];
             fetchall := [[VStr "Chile"]; [VStr "Spain"]] |}
  else Raise "relation does not exist".

(** The screen of a page that has sent nothing yet. *)
Definition nothing_sent (answer : string -> Res ResultSet)
    : Screen.State (driver answer) :=
  Screen.blank (driver answer) (Runtime.fresh (driver answer) []).

(** The category box moved to its second entry, the others left alone. *)
Definition second_category : CompetitionsScript.Picks :=
  {| CompetitionsScript.category_pick := 1;
     CompetitionsScript.type_pick := 0;
     CompetitionsScript.gender_pick := 0;
     CompetitionsScript.level_pick := 0 |}.

End Scripted.


(** ** What is asked of the connections *)

Module Traced.
Section WithDriver.
Context (D : Driver).

(** What a page asks of the connections of a driver. *)
Inductive Event :=
| Opened (c : Connection D)
| Executed (c : Connection D) (sql : string)
| CloseCalled (c : Connection D).

(** The driver [D] itself, with the events so far kept beside its world,
    oldest first.  A [connect] that raises opens nothing. *)
Definition driver : Driver :=
  {| World := World D * list Event;
     Engine := Engine D;
     Connection := Connection D;
     get_connection_string := fun w =>
       let (r, w') := get_connection_string D (fst w) in (r, (w', snd w));
     create_engine := fun conn_string w =>
       let (r, w') := create_engine D conn_string (fst w) in
       (r, (w', snd w));
     connect := fun engine w =>
       let (r, w') := connect D engine (fst w) in
       (r, (w', match r with
                | Ok c => (snd w ++ [Opened c])%list
                | Raise _ => snd w
                end));
     execute := fun c sql w =>
       let (r, w') := execute D c sql (fst w) in
       (r, (w', (snd w ++ [Executed c sql])%list));
     close := fun c w =>
       let (r, w') := close D c (fst w) in
       (r, (w', (snd w ++ [CloseCalled c])%list)) |}.

Definition events (s : Runtime.Proc driver) : list Event :=
  snd (Runtime.world s).

(** Events that are whole sessions one after the other: a connection
    opened, one statement on it, and its [close]. *)
Inductive sessions : list Event -> Prop :=
| sessions_nil : sessions []
| sessions_cons (c : Connection D) (sql : string) (l : list Event) :
    sessions l ->
    sessions (Opened c :: Executed c sql :: CloseCalled c :: l).

(** A step of a page adds whole sessions only, whether it returns or
    raises. *)
Definition whole_sessions {A} (m : Screen.Page driver A) : Prop :=
  forall sc,
  exists added,
    events (Screen.process (snd (m sc)))
    = (events (Screen.process sc) ++ added)%list
    /\ sessions added.

End WithDriver.

Arguments Opened {D} c.
Arguments Executed {D} c sql.
Arguments CloseCalled {D} c.

End Traced.

(** ** One process, three page files

    Streamlit runs every page file of the application in one process.
    [st.cache_resource] files what a function returned under a key made of
    the function's module, its qualified name and its source text; a page
    file runs as the module [__main__].  Each page file declares its own
    [get_db_connection]; the one of the competitions page has a blank line
    the other two lack. *)

Module Session.

Definition dq : string := String (ascii_of_nat 34) "".

Inductive PageFile :=
| CompetitionsFile
| VenuesFile
| RankingsFile.

(** The text of [get_db_connection], decorator included, in
    [1_Competitions.py]. *)
Definition competitions_source : string :=
  "@st.cache_resource" ++ Py.nl ++
  "def get_db_connection():" ++ Py.nl ++
  "    conn_string = DatabaseConfig.get_connection_string()" ++ Py.nl ++
  "    try:" ++ Py.nl ++
  "        engine = create_engine(conn_string)" ++ Py.nl ++
  "        with engine.connect() as connection:" ++ Py.nl ++
  "            connection.execute(text(" ++ dq ++ "SELECT 1" ++ dq ++ "))" ++
  Py.nl ++
  "        return engine" ++ Py.nl ++
  "    except Exception:" ++ Py.nl ++
  Py.nl ++
  "        return None" ++ Py.nl.

(** The same in [2_Complexes_Venues.py]. *)
Definition venues_source : string :=
  "@st.cache_resource" ++ Py.nl ++
  "def get_db_connection():" ++ Py.nl ++
  "    conn_string = DatabaseConfig.get_connection_string()" ++ Py.nl ++
  "    try:" ++ Py.nl ++
  "        engine = create_engine(conn_string)" ++ Py.nl ++
  "        with engine.connect() as connection:" ++ Py.nl ++
  "            connection.execute(text(" ++ dq ++ "SELECT 1" ++ dq ++ "))" ++
  Py.nl ++
  "        return engine" ++ Py.nl ++
  "    except Exception:" ++ Py.nl ++
  "        return None" ++ Py.nl.

(** The same in [3_Competitor_Rankings.py]. *)
Definition rankings_source : string :=
  "@st.cache_resource" ++ Py.nl ++
  "def get_db_connection():" ++ Py.nl ++
  "    conn_string = DatabaseConfig.get_connection_string()" ++ Py.nl ++
  "    try:" ++ Py.nl ++
  "        engine = create_engine(conn_string)" ++ Py.nl ++
  "        with engine.connect() as connection:" ++ Py.nl ++
  "            connection.execute(text(" ++ dq ++ "SELECT 1" ++ dq ++ "))" ++
  Py.nl ++
  "        return engine" ++ Py.nl ++
  "    except Exception:" ++ Py.nl ++
  "        return None" ++ Py.nl.

Definition source (p : PageFile) : string :=
  match p with
  | CompetitionsFile => competitions_source
  | VenuesFile => venues_source
  | RankingsFile => rankings_source
  end.

(** What an entry is filed under: module, qualified name, source text. *)
Definition FunctionKey : Type := string * string * string.

Definition function_key (p : PageFile) : FunctionKey :=
  ("__main__", "get_db_connection", source p).

Definition key_eqb (a b : FunctionKey) : bool :=
  (fst (fst a) =? fst (fst b)) && (snd (fst a) =? snd (fst b))
  && (snd a =? snd b).

(** One for an entry that is there, none for one that is not. *)
Definition made {A} (entry : option A) : nat :=
  match entry with
  | Some _ => 1
  | None => 0
  end.

Section WithDriver.
Context (D : Driver).

(** The process: the world outside, the banners shown so far, the entries
    of [st.cache_resource], and how many times [create_engine] has been
    called. *)
Record Process := {
  world : World D;
  banners : list Banner;
  entries : FunctionKey -> option (option (Engine D));
  engines_created : nat
}.

(** The process as the function filed under [k] sees it. *)
Definition view (k : FunctionKey) (s : Process) : Runtime.Proc D :=
  Runtime.Build_Proc D (world s) (banners s) (entries s k)
    (engines_created s).

(** The process after that function has run and left [s1]. *)
Definition after_call (k : FunctionKey) (s1 : Runtime.Proc D)
    (s : Process) : Process :=
  {| world := Runtime.world s1;
     banners := Runtime.banners s1;
     entries := fun k' => if key_eqb k' k then Runtime.cached s1
                          else entries s k';
     engines_created := Runtime.engines_created s1 |}.

(** The handles [get_db_connection] returned over a run of calls, each with
    the page file that called, oldest first, and the process after
    them. *)
Fixpoint run_calls (calls : list (PageFile * Runtime.Call D))
    (s : Process) : list (PageFile * option (Engine D)) * Process :=
  match calls with
  | [] => ([], s)
  | (p, Runtime.GetConnection _) :: rest =>
      let k := function_key p in
      match Runtime.get_db_connection D (view k s) with
      | (Ok v, s1) =>
          let (vs, s2) := run_calls rest (after_call k s1 s) in
          ((p, v) :: vs, s2)
      | (Raise _, s1) => run_calls rest (after_call k s1 s)
      end
  | (p, Runtime.RunQuery _ q e) :: rest =>
      let k := function_key p in
      run_calls rest
        (after_call k (snd (Runtime.run_sql_query D q e (view k s))) s)
  end.

(** A process that has just started. *)
Definition fresh (w : World D) : Process :=
  {| world := w; banners := []; entries := fun _ => None;
     engines_created := 0 |}.

(** What the handles returned so far and the entries have to do with each
    other. *)
Definition filed (hs : list (PageFile * option (Engine D)))
    (s : Process) : Prop :=
  (forall p v, In (p, v) hs -> entries s (function_key p) = Some v)
  /\ (forall k v, entries s k = Some v ->
        exists p, function_key p = k /\ In (p, v) hs)
  /\ engines_created s
     = made (entries s (function_key CompetitionsFile))
       + made (entries s (function_key RankingsFile)).

End WithDriver.

Arguments world {D} _.
Arguments banners {D} _.
Arguments entries {D} _ _.
Arguments engines_created {D} _.

(** A driver that numbers the engines it makes. *)
Definition numbering_driver : Driver :=
  {| World := nat;
     Engine := nat;
     Connection := unit;
     get_connection_string := fun w => (Ok "postgresql://"%string, w);
     create_engine := fun _ w => (Ok w, S w);
     connect := fun _ w => (Ok tt, w);
     execute := fun _ _ w => (Ok {| keys := []; fetchall := [] |}, w);
     close := fun _ w => (Ok tt, w) |}.

(** The competitions page shown, then the rankings page. *)
Definition two_pages : list (PageFile * Runtime.Call numbering_driver) :=
  [ (CompetitionsFile, Runtime.GetConnection numbering_driver);
    (RankingsFile, Runtime.GetConnection numbering_driver) ].

End Session.

(** * Properties *)

(** ** The query runner and the connection provider, for any driver *)

Section RuntimeFacts.
Context (D : Driver).
Import Runtime.

Lemma ext_keeps_process {A} (call : World D -> Res A * World D) (s : Proc D) :
  banners (snd (ext D call s)) = banners s
  /\ cached (snd (ext D call s)) = cached s
  /\ engines_created (snd (ext D call s)) = engines_created s.
Proof.
  unfold ext. destruct (call (world s)) as [r w]. simpl. auto.
Qed.

Lemma with_connect_keeps_cache {A} (engine : Engine D)
    (body : Connection D -> M D A) (s : Proc D) :
  (forall c s0, cached (snd (body c s0)) = cached s0
                /\ engines_created (snd (body c s0)) = engines_created s0) ->
  cached (snd (with_connect D engine body s)) = cached s
  /\ engines_created (snd (with_connect D engine body s))
     = engines_created s.
Proof.
  intros Hbody. unfold with_connect, bind.
  destruct (ext_keeps_process (connect D engine) s) as (_ & Hc & He).
  destruct (ext D (connect D engine) s) as [[c | e] s1]; simpl in *;
    [ | auto ].
  destruct (Hbody c s1) as [Hb1 Hb2].
  destruct (body c s1) as [[a | e] s2]; simpl in *;
    destruct (ext_keeps_process (close D c) s2) as (_ & Hc2 & He2);
    destruct (ext D (close D c) s2) as [[u | e'] s3]; simpl in *;
    split; congruence.
Qed.

Lemma query_block_keeps_cache (query : string) (c : Connection D)
    (s0 : Proc D) :
  let body := bind D (ext D (execute D c query))
                (fun result =>
                   ret D {| columns := keys result;
                            rows := fetchall result |}) in
  cached (snd (body s0)) = cached s0
  /\ engines_created (snd (body s0)) = engines_created s0.
Proof.
  simpl. unfold bind, ret.
  destruct (ext_keeps_process (execute D c query) s0) as (_ & Hc & He).
  destruct (ext D (execute D c query) s0) as [[r | e] s1]; simpl in *; auto.
Qed.

Lemma run_sql_query_keeps_cache (query : string)
    (engine_obj : option (Engine D)) (s : Proc D) :
  cached (snd (run_sql_query D query engine_obj s)) = cached s
  /\ engines_created (snd (run_sql_query D query engine_obj s))
     = engines_created s.
Proof.
  destruct engine_obj as [engine | ]; simpl.
  - unfold try_except.
    pose proof (with_connect_keeps_cache engine _ s
                  (query_block_keeps_cache query)) as [Hc He].
    simpl in Hc, He.
    match goal with
    | |- context [with_connect D engine ?b s] =>
        destruct (with_connect D engine b s) as [[df | e] s1]
    end; simpl in *; auto.
  - auto.
Qed.

Lemma run_sql_query_returns (query : string)
    (engine_obj : option (Engine D)) (s : Proc D) :
  exists df s', run_sql_query D query engine_obj s = (Ok df, s').
Proof.
  destruct engine_obj as [engine | ]; simpl.
  - unfold try_except.
    match goal with
    | |- context [with_connect D engine ?b s] =>
        destruct (with_connect D engine b s) as [[df | e] s1]
    end; unfold bind, st_error, show, ret; simpl; eauto.
  - unfold bind, st_warning, show, ret. simpl. eauto.
Qed.

Lemma get_db_connection_cached (v : option (Engine D)) (s : Proc D) :
  cached s = Some v -> get_db_connection D s = (Ok v, s).
Proof.
  intros H. unfold get_db_connection, cache_resource. now rewrite H.
Qed.

End RuntimeFacts.

Section ConnectionFacts.
Context (D : Driver).
Import Runtime.

(** A first call either raises before any engine is made and leaves the
    entry empty, or returns and leaves what it returned in the entry,
    having made one engine at most. *)
Lemma first_get_db_connection (s : Proc D) :
  cached s = None ->
  match get_db_connection D s with
  | (Ok v, s1) =>
      cached s1 = Some v /\ engines_created s1 = S (engines_created s)
  | (Raise _, s1) =>
      cached s1 = None /\ engines_created s1 = engines_created s
  end.
Proof.
  intros Hnone.
  unfold get_db_connection, cache_resource. rewrite Hnone.
  unfold get_db_connection_body, bind, try_except, with_connect, bind,
    ext, count_engine, set_cached, ret.
  simpl.
  destruct (get_connection_string D (world s)) as [[cs | e] w0]; simpl;
    [ | auto ].
  destruct (create_engine D cs w0) as [[engine | e] w1]; simpl; [ | auto ].
  destruct (connect D engine w1) as [[c | e] w2]; simpl; [ | auto ].
  destruct (execute D c "SELECT 1" w2) as [[r | e] w3]; simpl;
    destruct (close D c w3) as [[u | e'] w4]; simpl; auto.
Qed.

Lemma later_calls_answer_from_cache (calls : list (Call D))
    (v : option (Engine D)) (s : Proc D) :
  cached s = Some v ->
  Forall (eq v) (fst (run_calls D calls s))
  /\ cached (snd (run_calls D calls s)) = Some v
  /\ engines_created (snd (run_calls D calls s)) = engines_created s.
Proof.
  revert s. induction calls as [ | call rest IH]; intros s Hc; simpl.
  - auto.
  - destruct call as [ | q e].
    + rewrite (get_db_connection_cached D v s Hc).
      destruct (IH s Hc) as (Hall & Hc' & He').
      destruct (run_calls D rest s) as [vs s2]; simpl in *. auto.
    + destruct (run_sql_query_keeps_cache D q e s) as [Hk He].
      destruct (IH (snd (run_sql_query D q e s))) as (Hall & Hc' & He').
      * congruence.
      * repeat split; auto. congruence.
Qed.

Lemma calls_from_empty_cache (calls : list (Call D)) (s : Proc D) :
  cached s = None ->
  match fst (run_calls D calls s) with
  | [] => engines_created (snd (run_calls D calls s)) = engines_created s
  | v :: later =>
      Forall (eq v) later
      /\ cached (snd (run_calls D calls s)) = Some v
      /\ engines_created (snd (run_calls D calls s))
         = S (engines_created s)
  end.
Proof.
  revert s. induction calls as [ | call rest IH]; intros s Hc; simpl.
  - reflexivity.
  - destruct call as [ | q e].
    + pose proof (first_get_db_connection s Hc) as Hfirst.
      destruct (get_db_connection D s) as [[v | msg] s1].
      * destruct Hfirst as [Hc1 He1].
        destruct (later_calls_answer_from_cache rest v s1 Hc1)
          as (Hall & Hc' & He').
        destruct (run_calls D rest s1) as [vs s2]; simpl in *.
        repeat split; auto. congruence.
      * destruct Hfirst as [Hc1 He1].
        specialize (IH s1 Hc1). rewrite He1 in IH. exact IH.
    + destruct (run_sql_query_keeps_cache D q e s) as [Hk He].
      specialize (IH (snd (run_sql_query D q e s))).
      rewrite He in IH. apply IH. congruence.
Qed.

End ConnectionFacts.

(** C5.  Whatever the SQL, [run_sql_query] with no engine returns the empty
    frame (no column, no row), shows exactly one banner, the connection
    warning, and returns rather than raises; it does not touch the store. *)
Theorem run_sql_query_without_engine :
  forall (D : Driver) (query : string) (s : Runtime.Proc D),
  exists s',
    Runtime.run_sql_query D query None s = (Ok empty_frame, s')
    /\ columns empty_frame = [] /\ rows empty_frame = []
    /\ Runtime.banners s'
       = (Runtime.banners s ++ [Warning Runtime.connection_warning])%list
    /\ Runtime.world s' = Runtime.world s.
Proof.
  intros D query s. eexists. repeat split.
Qed.

(** C6.  [run_sql_query] with an engine always returns a frame and never
    raises.  When the statement fails with message [msg] (or the store
    cannot even be connected to), the frame is empty and the one banner
    added is the error ["Error executing query: " ++ msg]. *)
Theorem run_sql_query_swallows_failure :
  forall (D : Driver) (query : string) (engine : Engine D)
         (s : Runtime.Proc D),
    (exists df s', Runtime.run_sql_query D query (Some engine) s = (Ok df, s'))
    /\ (forall c w1 msg w2 w3,
          connect D engine (Runtime.world s) = (Ok c, w1) ->
          execute D c query w1 = (Raise msg, w2) ->
          close D c w2 = (Ok tt, w3) ->
          exists s',
            Runtime.run_sql_query D query (Some engine) s
            = (Ok empty_frame, s')
            /\ Runtime.banners s'
               = (Runtime.banners s
                  ++ [Error ("Error executing query: " ++ msg)])%list)
    /\ (forall msg w1,
          connect D engine (Runtime.world s) = (Raise msg, w1) ->
          exists s',
            Runtime.run_sql_query D query (Some engine) s
            = (Ok empty_frame, s')
            /\ Runtime.banners s'
               = (Runtime.banners s
                  ++ [Error ("Error executing query: " ++ msg)])%list).
Proof.
  intros D query engine s. split; [ | split ].
  - apply run_sql_query_returns.
  - intros c w1 msg w2 w3 Hconn Hexec Hclose.
    unfold Runtime.run_sql_query, Runtime.try_except, Runtime.with_connect,
      Runtime.bind, Runtime.ext, Runtime.st_error, Runtime.show, Runtime.ret.
    rewrite Hconn. simpl. rewrite Hexec. simpl. rewrite Hclose. simpl.
    eexists. split; reflexivity.
  - intros msg w1 Hconn.
    unfold Runtime.run_sql_query, Runtime.try_except, Runtime.with_connect,
      Runtime.bind, Runtime.ext, Runtime.st_error, Runtime.show, Runtime.ret.
    rewrite Hconn. simpl. eexists. split; reflexivity.
Qed.

(** ** One entry for each function text *)

Section SessionFacts.
Import Session.
Context (D : Driver).

Lemma key_eqb_eq (a b : FunctionKey) : key_eqb a b = true <-> a = b.
Proof.
  destruct a as [[a1 a2] a3], b as [[b1 b2] b3]. unfold key_eqb. simpl.
  rewrite !andb_true_iff, !String.eqb_eq. split.
  - intros [[-> ->] ->]. reflexivity.
  - intros [= -> -> ->]. auto.
Qed.

Lemma key_eqb_refl (a : FunctionKey) : key_eqb a a = true.
Proof.
  now apply key_eqb_eq.
Qed.

(** The venues page and the rankings page file under one key, the
    competitions page under another. *)
Lemma two_keys (p : PageFile) :
  function_key p = function_key CompetitionsFile
  \/ function_key p = function_key RankingsFile.
Proof.
  destruct p; [ left | right | right ]; reflexivity.
Qed.

Lemma keys_differ :
  function_key CompetitionsFile <> function_key RankingsFile.
Proof.
  intros H. apply key_eqb_eq in H. vm_compute in H. discriminate H.
Qed.

Lemma made_after (k : FunctionKey) (s1 : Runtime.Proc D) (s : Process D)
    (v : option (Engine D)) :
  k = function_key CompetitionsFile \/ k = function_key RankingsFile ->
  entries s k = None -> Runtime.cached s1 = Some v ->
  made (entries (after_call D k s1 s) (function_key CompetitionsFile))
  + made (entries (after_call D k s1 s) (function_key RankingsFile))
  = S (made (entries s (function_key CompetitionsFile))
       + made (entries s (function_key RankingsFile))).
Proof.
  intros Hk Hnone Hc. unfold after_call. cbn [entries].
  assert (Hab : key_eqb (function_key CompetitionsFile)
                  (function_key RankingsFile) = false)
    by (vm_compute; reflexivity).
  assert (Hba : key_eqb (function_key RankingsFile)
                  (function_key CompetitionsFile) = false)
    by (vm_compute; reflexivity).
  destruct Hk as [-> | ->].
  - rewrite key_eqb_refl, Hba, Hc, Hnone. simpl. reflexivity.
  - rewrite key_eqb_refl, Hab, Hc, Hnone. simpl. lia.
Qed.

Lemma after_call_same (k : FunctionKey) (s1 : Runtime.Proc D)
    (s : Process D) :
  Runtime.cached s1 = entries s k ->
  forall k', entries (after_call D k s1 s) k' = entries s k'.
Proof.
  intros Hc k'. unfold after_call. cbn [entries].
  destruct (key_eqb k' k) eqn:E; [ | reflexivity ].
  apply key_eqb_eq in E. now subst.
Qed.

Lemma filed_same (hs : list (PageFile * option (Engine D)))
    (k : FunctionKey) (s1 : Runtime.Proc D) (s : Process D) :
  Runtime.cached s1 = entries s k ->
  Runtime.engines_created s1 = engines_created s ->
  filed D hs s -> filed D hs (after_call D k s1 s).
Proof.
  intros Hc He (H1 & H2 & H3).
  pose proof (after_call_same k s1 s Hc) as Hsame.
  split; [ | split ].
  - intros p v Hin. rewrite Hsame. now apply H1.
  - intros k' v Hk'. rewrite Hsame in Hk'. now apply H2.
  - rewrite !Hsame. cbn [after_call engines_created]. congruence.
Qed.

Lemma run_calls_filed (calls : list (PageFile * Runtime.Call D))
    (hs : list (PageFile * option (Engine D))) (s : Process D) :
  filed D hs s ->
  filed D (hs ++ fst (run_calls D calls s)) (snd (run_calls D calls s)).
Proof.
  revert hs s. induction calls as [ | [p call] rest IH]; intros hs s Hf.
  - simpl. now rewrite List.app_nil_r.
  - destruct call as [ | q e]; cbn [run_calls].
    + set (k := function_key p).
      destruct (entries s k) as [v | ] eqn:Ek.
      * assert (Hv : Runtime.cached (view D k s) = Some v) by exact Ek.
        rewrite (get_db_connection_cached D v _ Hv).
        assert (Hf' : filed D (hs ++ [(p, v)])
                        (after_call D k (view D k s) s)).
        { apply filed_same; [ reflexivity | reflexivity | ].
          destruct Hf as (H1 & H2 & H3). split; [ | split ].
          - intros p' v' Hin. apply in_app_or in Hin as [Hin | [Hin | []]].
            + now apply H1.
            + injection Hin as <- <-. exact Ek.
          - intros k' v' Hk'. destruct (H2 k' v' Hk') as (p' & Hp' & Hin).
            exists p'. split; [ exact Hp' | ].
            apply in_or_app. now left.
          - exact H3. }
        specialize (IH _ _ Hf').
        destruct (run_calls D rest (after_call D k (view D k s) s))
          as [vs s2].
        cbn [fst snd] in *. now rewrite <- List.app_assoc in IH.
      * assert (Hv : Runtime.cached (view D k s) = None) by exact Ek.
        pose proof (first_get_db_connection D _ Hv) as Hfirst.
        destruct (Runtime.get_db_connection D (view D k s))
          as [[v | msg] s1].
        -- destruct Hfirst as [Hc1 He1].
           assert (Hf' : filed D (hs ++ [(p, v)]) (after_call D k s1 s)).
           { destruct Hf as (H1 & H2 & H3). split; [ | split ].
             - intros p' v' Hin. unfold after_call. cbn [entries].
               destruct (key_eqb (function_key p') k) eqn:E.
               + apply in_app_or in Hin as [Hin | [Hin | []]].
                 * apply key_eqb_eq in E. apply H1 in Hin.
                   rewrite E in Hin. congruence.
                 * injection Hin as <- <-. exact Hc1.
               + apply in_app_or in Hin as [Hin | [Hin | []]].
                 * now apply H1.
                 * injection Hin as <- <-. fold k in E.
                   now rewrite key_eqb_refl in E.
             - intros k' v'. unfold after_call. cbn [entries].
               destruct (key_eqb k' k) eqn:E.
               + apply key_eqb_eq in E. subst k'. rewrite Hc1.
                 intros [= <-]. exists p.
                 split; [ reflexivity | ].
                 apply in_or_app. right. now left.
               + intros Hk'. destruct (H2 k' v' Hk') as (p' & Hp' & Hin).
                 exists p'. split; [ exact Hp' | ].
                 apply in_or_app. now left.
             - rewrite (made_after k s1 s v (two_keys p) Ek Hc1).
               cbn [after_call engines_created]. rewrite He1.
               cbn [view Runtime.engines_created]. now rewrite H3. }
           specialize (IH _ _ Hf').
           destruct (run_calls D rest (after_call D k s1 s)) as [vs s2].
           cbn [fst snd] in *. now rewrite <- List.app_assoc in IH.
        -- destruct Hfirst as [Hc1 He1]. apply IH.
           apply filed_same; [ congruence | exact He1 | exact Hf ].
    + set (k := function_key p).
      destruct (run_sql_query_keeps_cache D q e (view D k s)) as [Hc He].
      apply IH. apply filed_same; [ exact Hc | exact He | exact Hf ].
Qed.

End SessionFacts.

(** C9, as amended.  Over any run of calls in a process that has just
    started, by whichever page files: two handles returned to functions of
    the same text are the same handle, and the entry of that text keeps
    holding it; an entry is there only for a text whose function has
    returned; and [create_engine] has been called once for each of the two
    texts that has an entry, so once on the first use of a text and never
    again for it. *)
Theorem get_db_connection_is_memoized_per_function :
  forall (D : Driver) (calls : list (Session.PageFile * Runtime.Call D))
         (w : World D),
    let r := Session.run_calls D calls (Session.fresh D w) in
    (forall p q v v',
       In (p, v) (fst r) -> In (q, v') (fst r) ->
       Session.function_key p = Session.function_key q -> v = v')
    /\ (forall p v,
          In (p, v) (fst r) ->
          Session.entries (snd r) (Session.function_key p) = Some v)
    /\ (forall k v,
          Session.entries (snd r) k = Some v ->
          exists p, Session.function_key p = k /\ In (p, v) (fst r))
    /\ Session.engines_created (snd r)
       = Session.made
           (Session.entries (snd r)
              (Session.function_key Session.CompetitionsFile))
         + Session.made
             (Session.entries (snd r)
                (Session.function_key Session.RankingsFile))
    /\ Session.function_key Session.VenuesFile
       = Session.function_key Session.RankingsFile
    /\ Session.function_key Session.CompetitionsFile
       <> Session.function_key Session.RankingsFile.
Proof.
  intros D calls w r.
  assert (Hstart : Session.filed D [] (Session.fresh D w)).
  { split; [ intros p v [] | split; [ discriminate | reflexivity ] ]. }
  pose proof (run_calls_filed D calls [] _ Hstart) as (H1 & H2 & H3).
  fold r in H1, H2, H3. cbn [app] in H1, H2.
  split; [ | split; [ exact H1 | split; [ exact H2 | split ] ] ].
  - intros p q v v' Hp Hq Hk. apply H1 in Hp, Hq. rewrite Hk in Hp.
    congruence.
  - exact H3.
  - split; [ reflexivity | apply keys_differ ].
Qed.

(** C9 as stated fails: the handle is not one for the process.  When the
    competitions page and then the rankings page are shown, the second
    call of [get_db_connection] does not return the handle of the first,
    and [create_engine] has been called twice. *)
Lemma two_pages_two_engines :
  let r := Session.run_calls Session.numbering_driver Session.two_pages
             (Session.fresh Session.numbering_driver 0) in
  fst r = [(Session.CompetitionsFile, Some 0);
           (Session.RankingsFile, Some 1)]
  /\ Session.engines_created (snd r) = 2.
Proof.
  vm_compute. split; reflexivity.
Qed.

(** C7.  Once the connection string is at hand, a first call of
    [get_db_connection] returns and does not raise; and it returns [None]
    when [create_engine] raises, when [connect] raises (host unreachable,
    credentials refused) and when the probe [SELECT 1] raises. *)
Theorem get_db_connection_none_on_failure :
  forall (D : Driver) (s : Runtime.Proc D) (conn_string : string)
         (w0 : World D),
    Runtime.cached s = None ->
    get_connection_string D (Runtime.world s) = (Ok conn_string, w0) ->
    (exists v s', Runtime.get_db_connection D s = (Ok v, s'))
    /\ (forall msg w1,
          create_engine D conn_string w0 = (Raise msg, w1) ->
          fst (Runtime.get_db_connection D s) = Ok None)
    /\ (forall engine w1 msg w2,
          create_engine D conn_string w0 = (Ok engine, w1) ->
          connect D engine w1 = (Raise msg, w2) ->
          fst (Runtime.get_db_connection D s) = Ok None)
    /\ (forall engine w1 c w2 msg w3,
          create_engine D conn_string w0 = (Ok engine, w1) ->
          connect D engine w1 = (Ok c, w2) ->
          execute D c "SELECT 1" w2 = (Raise msg, w3) ->
          fst (Runtime.get_db_connection D s) = Ok None).
Proof.
  intros D s cs w0 Hnone Hcfg.
  unfold Runtime.get_db_connection, Runtime.cache_resource.
  rewrite Hnone.
  unfold Runtime.get_db_connection_body, Runtime.bind, Runtime.try_except,
    Runtime.with_connect, Runtime.bind, Runtime.ext, Runtime.count_engine,
    Runtime.set_cached, Runtime.ret.
  simpl. rewrite Hcfg. simpl.
  repeat split.
  - destruct (create_engine D cs w0) as [[engine | e] w1]; simpl; eauto.
    destruct (connect D engine w1) as [[c | e] w2]; simpl; eauto.
    destruct (execute D c "SELECT 1" w2) as [[r | e] w3]; simpl;
      destruct (close D c w3) as [[u | e'] w4]; simpl; eauto.
  - intros msg w1 H. rewrite H. reflexivity.
  - intros engine w1 msg w2 H1 H2. rewrite H1. simpl. rewrite H2.
    reflexivity.
  - intros engine w1 c w2 msg w3 H1 H2 H3. rewrite H1. simpl. rewrite H2.
    simpl. rewrite H3. simpl.
    destruct (close D c w3) as [[u | e'] w4]; reflexivity.
Qed.

Lemma get_db_connection_none_on_failure_witness :
  Runtime.cached (Runtime.fresh unreachable_driver tt) = None
  /\ get_connection_string unreachable_driver tt = (Ok "postgresql://", tt)
  /\ connect unreachable_driver tt tt = (Raise "connection refused", tt)
  /\ fst (Runtime.get_db_connection unreachable_driver
            (Runtime.fresh unreachable_driver tt)) = Ok None.
Proof.
  split; [ reflexivity | split; [ reflexivity | split; [ reflexivity | ] ] ].
  destruct (get_db_connection_none_on_failure unreachable_driver
              (Runtime.fresh unreachable_driver tt) "postgresql://" tt
              eq_refl eq_refl) as (_ & _ & H & _).
  apply (H tt tt "connection refused" tt); reflexivity.
Defined.

Lemma run_sql_query_swallows_failure_witness :
  execute (Pg.driver scenario_store) scenario_store "SELEC 1" tt
  = (Raise "syntax error", tt)
  /\ exists s',
       Runtime.run_sql_query (Pg.driver scenario_store) "SELEC 1"
         (Some scenario_store) (Runtime.fresh (Pg.driver scenario_store) tt)
       = (Ok empty_frame, s')
       /\ Runtime.banners s'
          = [Error "Error executing query: syntax error"].
Proof.
  split; [ reflexivity | ].
  destruct (run_sql_query_swallows_failure (Pg.driver scenario_store)
              "SELEC 1" scenario_store
              (Runtime.fresh (Pg.driver scenario_store) tt)) as (_ & H & _).
  apply (H scenario_store tt "syntax error" tt tt); reflexivity.
Defined.

(** ** Reading the search text *)

Section ScanFacts.
Import Pg.

Lemma string_app_assoc (a b c : string) :
  ((a ++ b) ++ c)%string = (a ++ (b ++ c))%string.
Proof.
  induction a as [ | x a IH]; simpl; [ reflexivity | now rewrite IH ].
Qed.

Lemma string_app_empty (a : string) : (a ++ "")%string = a.
Proof.
  induction a as [ | x a IH]; simpl; [ reflexivity | now rewrite IH ].
Qed.

Lemma scan_app (st : lstate) (a b : string) :
  scan st (a ++ b)
  = (let (st1, out1) := scan st a in
     let (st2, out2) := scan st1 b in
     (st2, (out1 ++ out2)%list)).
Proof.
  revert st. induction a as [ | c a IH]; intros st; simpl.
  - destruct (scan st b); reflexivity.
  - destruct (step st c) as [st1 out1]. rewrite IH.
    destruct (scan st1 a) as [st2 out2].
    destruct (scan st2 b) as [st3 out3].
    now rewrite List.app_assoc.
Qed.

Lemma scan_then (st st1 st2 : lstate) (a b : string)
    (out1 out2 : list token) :
  scan st a = (st1, out1) ->
  scan st1 b = (st2, out2) ->
  scan st (a ++ b) = (st2, (out1 ++ out2)%list).
Proof.
  intros Ha Hb. rewrite scan_app, Ha, Hb. reflexivity.
Qed.

Lemma scan_then_eq (st st1 st2 : lstate) (a b : string)
    (out out1 out2 : list token) :
  scan st a = (st1, out1) ->
  scan st1 b = (st2, out2) ->
  out = (out1 ++ out2)%list ->
  scan st (a ++ b) = (st2, out).
Proof.
  intros Ha Hb ->. now apply scan_then with st1.
Qed.

(** A space ends whatever token was being read. *)
Lemma space_closes (st : lstate) (toks : list token) :
  finish st = Some toks -> st <> LComment ->
  step st " " = (LNormal, toks).
Proof.
  destruct st; simpl; intros H Hc; try discriminate;
    try (injection H as <-; reflexivity).
  congruence.
Qed.

Lemma scan_after_space (st st2 : lstate) (toks out : list token)
    (rest : string) :
  finish st = Some toks -> st <> LComment ->
  scan LNormal rest = (st2, out) ->
  scan st (String " " rest) = (st2, (toks ++ out)%list).
Proof.
  intros Hf Hc Hrest.
  change (scan st (String " " rest))
    with (let (st1, out1) := step st " " in
          let (st2, out2) := scan st1 rest in (st2, (out1 ++ out2)%list)).
  rewrite (space_closes st toks Hf Hc), Hrest. reflexivity.
Qed.

(** Inside a literal everything but a quote is content. *)
Lemma scan_inside_literal (acc s : string) :
  RankingsPage.no_quote s = true ->
  scan (LString acc) s = (LString (acc ++ s), []).
Proof.
  revert acc. induction s as [ | c s IH]; intros acc H; simpl in *.
  - now rewrite string_app_empty.
  - apply andb_prop in H as [Hc Hs].
    apply negb_true_iff in Hc. rewrite Hc, (IH _ Hs).
    unfold snoc. now rewrite string_app_assoc.
Qed.

Lemma scan_digits (d : Decimal.uint) (acc : string) :
  scan (LNumber acc) (NilEmpty.string_of_uint d)
  = (LNumber (acc ++ NilEmpty.string_of_uint d), []).
Proof.
  revert acc. induction d; intros acc; simpl;
    try (rewrite IHd; unfold snoc; now rewrite string_app_assoc).
  now rewrite string_app_empty.
Qed.

Lemma scan_number (n : N) :
  scan LNormal (Py.str_of_int n) = (LNumber (Py.str_of_int n), []).
Proof.
  unfold Py.str_of_int, NilZero.string_of_uint.
  destruct (N.to_uint n) as [ | d | d | d | d | d | d | d | d | d | d ];
    try reflexivity;
    cbn [NilEmpty.string_of_uint];
    match goal with
    | |- scan LNormal (String ?c ?rest) = _ =>
        change (scan LNormal (String c rest))
          with (let (st2, out2) := scan (LNumber (String c "")) rest in
                (st2, ([] ++ out2)%list))
    end;
    rewrite scan_digits; reflexivity.
Qed.

Lemma number_token_str_of_int (n : N) :
  number_token (Py.str_of_int n) = TNum n.
Proof.
  unfold number_token, Py.str_of_int.
  destruct (NilZero.usu_gen (N.to_uint n)) as [H | H]; rewrite H.
  - now rewrite DecimalN.Unsigned.of_to.
  - f_equal. rewrite <- (DecimalN.Unsigned.of_to n).
    destruct (N.to_uint n) eqn:E; [ reflexivity | .. ];
      rewrite NilZero.usu in H by discriminate;
      injection H as H; now rewrite H.
Qed.

End ScanFacts.

Section SearchTextFacts.
Import Pg Rankings RankingsPage.

Lemma reads_as_lex (s : string) (toks : list token) :
  reads_as s toks -> lex s = Some toks.
Proof.
  intros (st & out & last & Hs & Hf & _ & ->).
  unfold lex. now rewrite Hs, Hf.
Qed.

(** Appending a fragment that opens with a space. *)
Lemma reads_as_fragment (s rest : string) (toks more last : list token)
    (st2 : lstate) :
  reads_as s toks ->
  scan LNormal rest = (st2, more) ->
  finish st2 = Some last -> st2 <> LComment ->
  reads_as (s ++ String " " rest) (toks ++ more ++ last).
Proof.
  intros (st & out & p & Hs & Hf & Hc & ->) Hrest Hf2 Hc2.
  exists st2, (out ++ p ++ more)%list, last. repeat split; auto.
  - rewrite (scan_then _ _ _ _ _ _ _ Hs
               (scan_after_space _ _ _ _ _ Hf Hc Hrest)).
    reflexivity.
  - now rewrite <- !List.app_assoc.
Qed.

Lemma scan_bound (kw : string) (kw_toks : list token) (n : N) :
  scan LNormal kw = (LNormal, kw_toks) ->
  scan LNormal (kw ++ Py.str_of_int n)
  = (LNumber (Py.str_of_int n), kw_toks).
Proof.
  intros H. rewrite (scan_then _ _ _ _ _ _ _ H (scan_number n)).
  now rewrite List.app_nil_r.
Qed.

Lemma reads_as_bound (s kw : string) (toks kw_toks : list token) (n : N) :
  reads_as s toks ->
  scan LNormal kw = (LNormal, kw_toks) ->
  reads_as (s ++ String " " (kw ++ Py.str_of_int n))
           (toks ++ kw_toks ++ [TNum n]).
Proof.
  intros Hs Hkw.
  rewrite <- (number_token_str_of_int n).
  eapply reads_as_fragment; eauto using scan_bound; discriminate.
Qed.

Lemma reads_as_head : reads_as search_query_head head_tokens.
Proof.
  exists LNormal, head_tokens, [].
  split; [ vm_compute; reflexivity | ].
  repeat split; discriminate.
Qed.

Lemma reads_as_name_clause (f : Filters) (s : string) (toks : list token) :
  no_quote (competitor_name_search f) = true ->
  reads_as s toks ->
  reads_as (s ++ name_clause f) (toks ++ name_tokens f).
Proof.
  intros Hq Hs. unfold name_clause, name_tokens.
  destruct (Py.truthy (competitor_name_search f)).
  - change (" AND c.name ILIKE '%" ++ competitor_name_search f ++ "%'")%string
      with (String " " ("AND c.name ILIKE '%"
                        ++ (competitor_name_search f ++ "%'")))%string.
    change [KAnd; TId "c.name"; KIlike;
            TStr ("%" ++ competitor_name_search f ++ "%")]
      with ([KAnd; TId "c.name"; KIlike]
            ++ [TStr ("%" ++ competitor_name_search f ++ "%")])%list.
    eapply reads_as_fragment; [ exact Hs | | | ].
    + eapply scan_then_eq; [ vm_compute; reflexivity | | reflexivity ].
      eapply scan_then_eq;
        [ apply scan_inside_literal, Hq | simpl; reflexivity
        | reflexivity ].
    + reflexivity.
    + discriminate.
  - now rewrite string_app_empty, List.app_nil_r.
Qed.

Lemma reads_as_country_clause (f : Filters) (s : string)
    (toks : list token) :
  no_quote (selected_country_competitor f) = true ->
  reads_as s toks ->
  reads_as (s ++ country_clause f) (toks ++ country_tokens f).
Proof.
  intros Hq Hs. unfold country_clause, country_tokens.
  destruct (Py.neq (selected_country_competitor f) "All").
  - change (" AND c.country = '" ++ selected_country_competitor f ++ "'")%string
      with (String " " ("AND c.country = '"
                        ++ (selected_country_competitor f ++ "'")))%string.
    change [KAnd; TId "c.country"; TEq;
            TStr (selected_country_competitor f)]
      with ([KAnd; TId "c.country"; TEq]
            ++ [TStr (selected_country_competitor f)])%list.
    eapply reads_as_fragment; [ exact Hs | | | ].
    + eapply scan_then_eq; [ vm_compute; reflexivity | | reflexivity ].
      eapply scan_then_eq;
        [ apply scan_inside_literal, Hq | simpl; reflexivity
        | reflexivity ].
    + reflexivity.
    + discriminate.
  - now rewrite string_app_empty, List.app_nil_r.
Qed.

Lemma reads_as_rank_clause (f : Filters) (s : string) (toks : list token) :
  reads_as s toks ->
  reads_as (s ++ rank_clause f) (toks ++ rank_tokens f).
Proof.
  intros Hs. unfold rank_clause, rank_tokens.
  change (" AND cr.rank >= " ++ Py.str_of_int (min_rank f)
          ++ " AND cr.rank <= " ++ Py.str_of_int (max_rank f))%string
    with ((String " " ("AND cr.rank >= " ++ Py.str_of_int (min_rank f)))
          ++ String " " ("AND cr.rank <= "
                         ++ Py.str_of_int (max_rank f)))%string.
  rewrite <- string_app_assoc.
  change [KAnd; TId "cr.rank"; TGe; TNum (min_rank f);
          KAnd; TId "cr.rank"; TLe; TNum (max_rank f)]
    with (([KAnd; TId "cr.rank"; TGe] ++ [TNum (min_rank f)])
          ++ [KAnd; TId "cr.rank"; TLe] ++ [TNum (max_rank f)])%list.
  rewrite List.app_assoc.
  apply reads_as_bound; [ apply reads_as_bound; [ exact Hs | ] | ];
    vm_compute; reflexivity.
Qed.

Lemma reads_as_points_clause (f : Filters) (s : string)
    (toks : list token) :
  reads_as s toks ->
  reads_as (s ++ points_clause f) (toks ++ points_tokens f).
Proof.
  intros Hs. unfold points_clause, points_tokens.
  change (" AND cr.points >= " ++ Py.str_of_int (min_points f)
          ++ " AND cr.points <= " ++ Py.str_of_int (max_points f))%string
    with ((String " " ("AND cr.points >= "
                       ++ Py.str_of_int (min_points f)))
          ++ String " " ("AND cr.points <= "
                         ++ Py.str_of_int (max_points f)))%string.
  rewrite <- string_app_assoc.
  change [KAnd; TId "cr.points"; TGe; TNum (min_points f);
          KAnd; TId "cr.points"; TLe; TNum (max_points f)]
    with (([KAnd; TId "cr.points"; TGe] ++ [TNum (min_points f)])
          ++ [KAnd; TId "cr.points"; TLe] ++ [TNum (max_points f)])%list.
  rewrite List.app_assoc.
  apply reads_as_bound; [ apply reads_as_bound; [ exact Hs | ] | ];
    vm_compute; reflexivity.
Qed.

(** The tokens of the search text, when neither interpolated text holds a
    quote. *)
Lemma lex_search_query_base (f : Filters) :
  no_quote (competitor_name_search f) = true ->
  no_quote (selected_country_competitor f) = true ->
  lex (search_query_base f) = Some (search_tokens f).
Proof.
  intros Hn Hc. apply reads_as_lex.
  unfold search_query_base, search_tokens, order_clause.
  pose proof (reads_as_country_clause f _ _ Hc
                (reads_as_points_clause f _ _
                   (reads_as_rank_clause f _ _
                      (reads_as_name_clause f _ _ Hn reads_as_head))))
    as H.
  pose proof (reads_as_fragment _ "ORDER BY cr.rank;" _ order_tokens []
                LNormal H eq_refl eq_refl) as H'.
  rewrite List.app_nil_r, <- !List.app_assoc in H'.
  apply H'. discriminate.
Qed.

End SearchTextFacts.

(** ** What the search text asks of the store *)

Section SearchQueryFacts.
Import Pg Rankings RankingsPage.

Lemma parse_search_tokens (f : Filters) :
  parse (search_tokens f) = Some (search_query f).
Proof.
  unfold search_tokens, search_query, listing_query, search_atoms,
    name_tokens, country_tokens.
  destruct (Py.truthy (competitor_name_search f));
    destruct (Py.neq (selected_country_competitor f) "All");
    reflexivity.
Qed.

Lemma keep_map {A} (g : A -> Row) (p : Row -> option bool)
    (q : A -> bool) (l : list A) :
  (forall x, In x l -> p (g x) = Some (q x)) ->
  keep p (map g l) = Some (map g (filter q l)).
Proof.
  induction l as [ | x l IH]; intros H; simpl.
  - reflexivity.
  - rewrite (H x (or_introl eq_refl)), IH
      by (intros y Hy; apply H; now right).
    destruct (q x); reflexivity.
Qed.

Lemma each_map {A B C} (g : A -> B) (p : B -> option C) (h : A -> C)
    (l : list A) :
  (forall x, p (g x) = Some (h x)) ->
  each p (map g l) = Some (map h l).
Proof.
  intros H. induction l as [ | x l IH]; simpl.
  - reflexivity.
  - now rewrite H, IH.
Qed.

Lemma pairs_map {A B} (g : A -> Row) (h : B -> Row) (ls : list A)
    (rs : list B) :
  pairs (map g ls) (map h rs)
  = map (fun p => (g (fst p) ++ h (snd p))%list) (list_prod ls rs).
Proof.
  unfold pairs. induction ls as [ | x ls IH]; simpl.
  - reflexivity.
  - rewrite IH, map_app, !map_map. reflexivity.
Qed.

Lemma insert_by_map {A B} (g : A -> B) (key : B -> Value)
    (le : Value -> Value -> bool) (x : A) (l : list A) :
  insert_by key le (g x) (map g l)
  = map g (insert_by (fun y => key (g y)) le x l).
Proof.
  induction l as [ | y l IH]; simpl.
  - reflexivity.
  - destruct (le (key (g x)) (key (g y))); simpl; [ | rewrite IH ];
      reflexivity.
Qed.

Lemma sort_by_map {A B} (g : A -> B) (key : B -> Value)
    (le : Value -> Value -> bool) (l : list A) :
  sort_by key le (map g l) = map g (sort_by (fun y => key (g y)) le l).
Proof.
  induction l as [ | x l IH]; simpl.
  - reflexivity.
  - now rewrite IH, insert_by_map.
Qed.

Lemma in_insert_by {A} (key : A -> Value) (le : Value -> Value -> bool)
    (x y : A) (l : list A) :
  In y (insert_by key le x l) <-> y = x \/ In y l.
Proof.
  induction l as [ | z l IH]; simpl.
  - intuition.
  - destruct (le (key x) (key z)); simpl; [ intuition | ].
    rewrite IH. intuition.
Qed.

Lemma in_sort_by {A} (key : A -> Value) (le : Value -> Value -> bool)
    (y : A) (l : list A) :
  In y (sort_by key le l) <-> In y l.
Proof.
  induction l as [ | x l IH]; simpl.
  - reflexivity.
  - rewrite in_insert_by, IH. intuition.
Qed.

Lemma length_insert_by {A} (key : A -> Value)
    (le : Value -> Value -> bool) (x : A) (l : list A) :
  List.length (insert_by key le x l) = S (List.length l).
Proof.
  induction l as [ | z l IH]; simpl.
  - reflexivity.
  - destruct (le (key x) (key z)); simpl; [ | rewrite IH ]; reflexivity.
Qed.

Lemma length_sort_by {A} (key : A -> Value) (le : Value -> Value -> bool)
    (l : list A) :
  List.length (sort_by key le l) = List.length l.
Proof.
  induction l as [ | x l IH]; simpl.
  - reflexivity.
  - now rewrite length_insert_by, IH.
Qed.

End SearchQueryFacts.

Section ListingFacts.
Import Pg Rankings RankingsPage.

Lemma pattern_ok_before_percent (s : string) :
  pattern_ok (s ++ "%") = true
  /\ match s with
     | EmptyString => True
     | String _ s' => pattern_ok (s' ++ "%") = true
     end.
Proof.
  induction s as [ | c s [IH1 IH2]].
  - split; [ reflexivity | exact I ].
  - split; [ | exact IH1 ].
    cbn [append pattern_ok].
    destruct (Ascii.eqb c "\"); [ | exact IH1 ].
    destruct s as [ | d s']; [ reflexivity | exact IH2 ].
Qed.

Lemma ilike_search_pattern (search name : string) :
  ilike name ("%" ++ search ++ "%") = Some (name_matches search name).
Proof.
  unfold ilike, name_matches.
  change (pattern_ok ("%" ++ search ++ "%"))
    with (pattern_ok (search ++ "%")).
  now rewrite (proj1 (pattern_ok_before_percent search)).
Qed.

Lemma eval_placeholder (r : Row) :
  eval_atom (compare_atom (ONum 1) CEq (ONum 1)) r = Some true.
Proof. reflexivity. Qed.

Lemma eval_name_atom (pattern : string)
    (p : CompetitorRanking * Competitor) :
  eval_atom (compare_atom (OCol "c.name") CIlike (OStr pattern))
    (joined_row p)
  = ilike (name (snd p)) pattern.
Proof. reflexivity. Qed.

Lemma eval_rank_lower (n : N) (p : CompetitorRanking * Competitor) :
  eval_atom (compare_atom (OCol "cr.rank") CGe (ONum n)) (joined_row p)
  = Some (Z.leb (Z.of_N n) (rank (fst p))).
Proof. reflexivity. Qed.

Lemma eval_rank_upper (n : N) (p : CompetitorRanking * Competitor) :
  eval_atom (compare_atom (OCol "cr.rank") CLe (ONum n)) (joined_row p)
  = Some (Z.leb (rank (fst p)) (Z.of_N n)).
Proof. reflexivity. Qed.

Lemma eval_points_lower (n : N) (p : CompetitorRanking * Competitor) :
  eval_atom (compare_atom (OCol "cr.points") CGe (ONum n)) (joined_row p)
  = Some (Z.leb (Z.of_N n) (points (fst p))).
Proof. reflexivity. Qed.

Lemma eval_points_upper (n : N) (p : CompetitorRanking * Competitor) :
  eval_atom (compare_atom (OCol "cr.points") CLe (ONum n)) (joined_row p)
  = Some (Z.leb (points (fst p)) (Z.of_N n)).
Proof. reflexivity. Qed.

Lemma eval_country_atom (c : string)
    (p : CompetitorRanking * Competitor) :
  eval_atom (compare_atom (OCol "c.country") CEq (OStr c)) (joined_row p)
  = Some (country (snd p) =? c).
Proof. reflexivity. Qed.

Lemma eval_search_atoms (f : Filters)
    (p : CompetitorRanking * Competitor) :
  eval_all (search_atoms f) (joined_row p) = Some (accepts f p).
Proof.
  unfold search_atoms, accepts, within.
  destruct (Py.truthy (competitor_name_search f));
    destruct (Py.neq (selected_country_competitor f) "All");
    cbn [app eval_all];
    rewrite eval_placeholder, ?eval_name_atom, ?ilike_search_pattern,
      eval_rank_lower, eval_rank_upper, eval_points_lower,
      eval_points_upper, ?eval_country_atom;
    cbv beta iota;
    rewrite ?andb_true_r, ?andb_true_l, ?andb_assoc; reflexivity.
Qed.

(** The steps of a listing, from the tables to the rows shown. *)
Lemma eval_listing_query (db : Store) (atoms : list atom)
    (q : CompetitorRanking * Competitor -> bool) :
  (forall p, eval_all atoms (joined_row p) = Some (q p)) ->
  eval db (listing_query atoms)
  = Some {| keys := search_columns; fetchall := listing db q |}.
Proof.
  intros Hq. unfold eval, listing_query.
  cbn [from join where_ order_by items distinct limit rankings_join
       joined on].
  change (scan_table db {| table := "competitor_rankings"; alias := "cr" |})
    with (Some (map (ranking_row "cr") (competitor_rankings db))).
  change (scan_table db {| table := "competitors"; alias := "c" |})
    with (Some (map (competitor_row "c") (competitors db))).
  cbv beta iota.
  rewrite pairs_map.
  change (fun p : CompetitorRanking * Competitor =>
            (ranking_row "cr" (fst p) ++ competitor_row "c" (snd p))%list)
    with joined_row.
  rewrite (keep_map joined_row _
             (fun p => Z.eqb (ranking_competitor_id (fst p))
                             (competitor_id (snd p))))
    by (intros; reflexivity).
  fold (ranked db).
  rewrite (keep_map joined_row _ q)
    by (intros p _; cbn [eval_condition]; rewrite Hq;
        now rewrite orb_false_r).
  unfold sort_rows.
  rewrite (each_map joined_row (with_key "cr.rank")
             (fun p => (rank_key p, joined_row p)))
    by (intros; reflexivity).
  rewrite (sort_by_map (fun p => (rank_key p, joined_row p)) fst).
  rewrite map_map. cbn [snd fst order_of].
  rewrite (each_map joined_row (project search_items) search_row)
    by (intros; reflexivity).
  reflexivity.
Qed.

End ListingFacts.

(** ** ILIKE on a pattern without wildcards *)

Section PatternFacts.
Import Pg RankingsPage.











End PatternFacts.

(** ** Ordering and filtering commute *)

Section SortFilterFacts.
Import Pg.
Context {A : Type} (key : A -> Value) (le : Value -> Value -> bool).
Hypothesis le_trans : forall a b c : A,
  le (key a) (key b) = true -> le (key b) (key c) = true ->
  le (key a) (key c) = true.
Hypothesis le_total : forall a b : A,
  le (key a) (key b) = false -> le (key b) (key a) = true.

Lemma insert_by_ascending (x : A) (l : list A) :
  ascending key le l -> ascending key le (insert_by key le x l).
Proof.
  induction l as [ | y l IH]; simpl.
  - intros _. split; [ intros y [] | exact I ].
  - intros [Hy Hl].
    destruct (le (key x) (key y)) eqn:E; simpl.
    + split; [ | split; assumption ].
      intros z [<- | Hz]; [ exact E | ].
      apply le_trans with y; auto.
    + split; [ | apply IH, Hl ].
      intros z Hz. apply in_insert_by in Hz as [-> | Hz]; auto.
Qed.

Lemma sort_by_ascending (l : list A) :
  ascending key le (sort_by key le l).
Proof.
  induction l as [ | x l IH]; simpl; [ exact I | ].
  now apply insert_by_ascending.
Qed.

Lemma insert_by_front (x : A) (l : list A) :
  (forall y, In y l -> le (key x) (key y) = true) ->
  insert_by key le x l = x :: l.
Proof.
  destruct l as [ | y l]; simpl; [ reflexivity | ].
  intros H. now rewrite (H y (or_introl eq_refl)).
Qed.

Lemma filter_insert_by_kept (q : A -> bool) (x : A) (l : list A) :
  ascending key le l -> q x = true ->
  filter q (insert_by key le x l) = insert_by key le x (filter q l).
Proof.
  intros Hl Hx. induction l as [ | y l IH]; simpl.
  - now rewrite Hx.
  - destruct Hl as [Hy Hl].
    destruct (le (key x) (key y)) eqn:E; simpl.
    + rewrite Hx. destruct (q y) eqn:Ey; simpl.
      * now rewrite E.
      * symmetry. apply insert_by_front.
        intros z Hz. apply filter_In in Hz as [Hz _].
        apply le_trans with y; auto.
    + destruct (q y) eqn:Ey; simpl.
      * now rewrite E, IH.
      * now apply IH.
Qed.

Lemma filter_insert_by_dropped (q : A -> bool) (x : A) (l : list A) :
  q x = false ->
  filter q (insert_by key le x l) = filter q l.
Proof.
  intros Hx. induction l as [ | y l IH]; simpl.
  - now rewrite Hx.
  - destruct (le (key x) (key y)); simpl.
    + now rewrite Hx.
    + now rewrite IH.
Qed.

Lemma filter_sort_by (q : A -> bool) (l : list A) :
  filter q (sort_by key le l) = sort_by key le (filter q l).
Proof.
  induction l as [ | x l IH]; simpl; [ reflexivity | ].
  destruct (q x) eqn:E.
  - rewrite filter_insert_by_kept by auto using sort_by_ascending.
    simpl. now rewrite IH.
  - now rewrite filter_insert_by_dropped.
Qed.

End SortFilterFacts.

(** ** The frames of the rankings page *)

Section PageFacts.
Import Pg Rankings RankingsPage.

Lemma run_sql_query_execute (db engine : Store) (sql : string)
    (s : Runtime.Proc (driver db)) :
  frame (Runtime.run_sql_query (driver db) sql (Some engine) s)
  = match execute_sql engine sql with
    | Ok rs => {| columns := keys rs; rows := fetchall rs |}
    | Raise _ => empty_frame
    end.
Proof.
  unfold frame, Runtime.run_sql_query, Runtime.try_except,
    Runtime.with_connect, Runtime.bind, Runtime.ext, Runtime.ret.
  simpl. destruct (execute_sql engine sql); reflexivity.
Qed.

Lemma run_execute (db : Store) (sql : string)
    (s : Runtime.Proc (driver db)) :
  run db sql s
  = match execute_sql db sql with
    | Ok rs => {| columns := keys rs; rows := fetchall rs |}
    | Raise _ => empty_frame
    end.
Proof.
  apply run_sql_query_execute.
Qed.

(** LIMIT caps the rows whatever the rest of the statement. *)
Lemma eval_limit (db : Store) (q : query) (rs : ResultSet) (n : N) :
  eval db q = Some rs -> limit q = Some n ->
  (List.length (fetchall rs) <= N.to_nat n)%nat.
Proof.
  unfold eval. intros H Hl. rewrite Hl in H.
  repeat match type of H with
         | match ?x with _ => _ end = _ =>
             destruct x; try discriminate H
         end.
  injection H as <-. simpl. apply firstn_le_length.
Qed.

(** The result names its columns after the select list, in its order. *)
Lemma eval_keys (db : Store) (q : query) (rs : ResultSet) :
  eval db q = Some rs -> keys rs = map out_name (items q).
Proof.
  unfold eval. intros H.
  repeat match type of H with
         | match ?x with _ => _ end = _ =>
             destruct x; try discriminate H
         end;
    injection H as <-; reflexivity.
Qed.

Lemma execute_sql_limit (db : Store) (sql : string) (toks : list token)
    (q : query) (n : N) :
  lex sql = Some toks -> parse toks = Some q -> limit q = Some n ->
  (List.length
     (rows match execute_sql db sql with
           | Ok rs => {| columns := keys rs; rows := fetchall rs |}
           | Raise _ => empty_frame
           end) <= N.to_nat n)%nat.
Proof.
  intros Hlex Hparse Hlimit. unfold execute_sql.
  rewrite Hlex, Hparse.
  destruct (eval db q) as [rs | ] eqn:E; simpl; [ | lia ].
  now apply eval_limit with db q.
Qed.

Lemma filtered_competitors_frame (db : Store) (f : Filters)
    (s : Runtime.Proc (driver db)) :
  no_quote (competitor_name_search f) = true ->
  no_quote (selected_country_competitor f) = true ->
  filtered_competitors_df db f s
  = {| columns := search_columns; rows := search_result db f |}.
Proof.
  intros Hn Hc. unfold filtered_competitors_df.
  rewrite run_execute. unfold execute_sql.
  rewrite (lex_search_query_base f Hn Hc), parse_search_tokens.
  unfold search_query.
  now rewrite (eval_listing_query db _ _ (eval_search_atoms f)).
Qed.

Lemma filter_all {A} (l : list A) : filter (fun _ => true) l = l.
Proof.
  induction l as [ | x l IH]; simpl; [ reflexivity | now rewrite IH ].
Qed.

Lemma unfiltered_competitors_frame (db : Store)
    (s : Runtime.Proc (driver db)) :
  unfiltered_competitors_df db s
  = {| columns := search_columns;
       rows := map search_row (sort_by rank_key value_leb (ranked db)) |}.
Proof.
  unfold unfiltered_competitors_df. rewrite run_execute.
  unfold execute_sql.
  replace (lex unfiltered_search_query)
    with (Some (head_tokens ++ order_tokens)%list)
    by (vm_compute; reflexivity).
  cbv beta iota.
  change (parse (head_tokens ++ order_tokens))
    with (Some (listing_query
                  [compare_atom (ONum 1) CEq (ONum 1)])).
  cbv beta iota.
  rewrite (eval_listing_query db _ (fun _ => true))
    by (intros; reflexivity).
  unfold listing. now rewrite filter_all.
Qed.

Lemma in_search_result (db : Store) (f : Filters) (row : list Value) :
  In row (search_result db f) ->
  exists p, In p (ranked db) /\ accepts f p = true /\ row = search_row p.
Proof.
  unfold search_result, listing. intros H.
  apply in_map_iff in H as (p & <- & Hp).
  apply in_sort_by, filter_In in Hp as [Hp Hacc].
  eauto.
Qed.

Lemma in_ranked (db : Store) (p : CompetitorRanking * Competitor) :
  In p (ranked db) ->
  In (fst p) (competitor_rankings db) /\ In (snd p) (competitors db).
Proof.
  unfold ranked. intros H. apply filter_In in H as [H _].
  destruct p as [cr c]. now apply in_prod_iff in H.
Qed.

Lemma accepts_inv (f : Filters) (p : CompetitorRanking * Competitor) :
  accepts f p = true ->
  (if Py.truthy (competitor_name_search f)
   then name_matches (competitor_name_search f) (name (snd p))
   else true) = true
  /\ within (min_rank f) (max_rank f) (rank (fst p)) = true
  /\ within (min_points f) (max_points f) (points (fst p)) = true.
Proof.
  unfold accepts. intros H.
  apply andb_prop in H as [H _].
  apply andb_prop in H as [H Hp].
  apply andb_prop in H as [Hn Hr].
  auto.
Qed.

Lemma within_inv (lo hi : N) (v : Z) :
  within lo hi v = true -> (Z.of_N lo <= v <= Z.of_N hi)%Z.
Proof.
  unfold within. intros H. apply andb_prop in H as [H1 H2].
  apply Z.leb_le in H1, H2. lia.
Qed.

End PageFacts.

(** ** The search filters *)

(** C2, as amended.  When neither the name text nor the selected country
    holds a single quote, every row of the filtered competitors carries a
    rank between the minimum and the maximum rank entered, and when the
    maximum is below the minimum there is no row.  On the ranks 1, 3, 6 and
    10, the bounds 1 and 5 leave the ranks 1 and 3, in that order. *)
Theorem rank_filter_bounds_rows :
  forall (db : Pg.Store) (f : Rankings.Filters)
         (s : Runtime.Proc (Pg.driver db)),
    RankingsPage.no_quote (Rankings.competitor_name_search f) = true ->
    RankingsPage.no_quote (Rankings.selected_country_competitor f) = true ->
    let df := RankingsPage.filtered_competitors_df db f s in
    (forall row, In row (rows df) ->
       exists r, RankingsPage.field (columns df) "rank" row = Some (VInt r)
                 /\ (Z.of_N (Rankings.min_rank f) <= r
                     <= Z.of_N (Rankings.max_rank f))%Z)
    /\ ((Rankings.max_rank f < Rankings.min_rank f)%N -> rows df = [])
    /\ map (RankingsPage.field RankingsPage.search_columns "rank")
         (rows (RankingsPage.filtered_competitors_df scenario_store top_five
                  (RankingsPage.started scenario_store)))
       = [Some (VInt 1); Some (VInt 3)].
Proof.
  intros db f s Hn Hc df. subst df.
  rewrite (filtered_competitors_frame db f s Hn Hc). simpl.
  assert (Hrows : forall row, In row (RankingsPage.search_result db f) ->
            exists r,
              RankingsPage.field RankingsPage.search_columns "rank" row
              = Some (VInt r)
              /\ (Z.of_N (Rankings.min_rank f) <= r
                  <= Z.of_N (Rankings.max_rank f))%Z).
  { intros row Hrow.
    apply in_search_result in Hrow as (p & _ & Hacc & ->).
    exists (Pg.rank (fst p)). split; [ reflexivity | ].
    apply accepts_inv in Hacc as (_ & Hr & _).
    now apply within_inv. }
  split; [ exact Hrows | split ].
  - intros Hlt.
    destruct (RankingsPage.search_result db f) as [ | row rest];
      [ reflexivity | ].
    destruct (Hrows row (or_introl eq_refl)) as (r & _ & Hr). lia.
  - vm_compute. reflexivity.
Qed.

Lemma rank_filter_bounds_rows_witness :
  RankingsPage.no_quote (Rankings.competitor_name_search top_five) = true
  /\ RankingsPage.no_quote (Rankings.selected_country_competitor top_five)
     = true
  /\ forall row,
       In row (rows (RankingsPage.filtered_competitors_df scenario_store
                       top_five (RankingsPage.started scenario_store))) ->
       exists r,
         RankingsPage.field
           (columns (RankingsPage.filtered_competitors_df scenario_store
                       top_five (RankingsPage.started scenario_store)))
           "rank" row = Some (VInt r)
         /\ (Z.of_N 1 <= r <= Z.of_N 5)%Z.
Proof.
  split; [ reflexivity | split; [ reflexivity | ] ].
  exact (proj1 (rank_filter_bounds_rows scenario_store top_five
                  (RankingsPage.started scenario_store) eq_refl eq_refl)).
Defined.

(** C2 as stated fails: with the name text [' OR 1 = 1 --] the bounds 1 and
    5 let the rank 6 through, and the bounds 5 and 1 do not empty the
    result. *)
Lemma rank_filter_escaped_by_quote :
  (Rankings.min_rank escaping_search <= Rankings.max_rank escaping_search)%N
  /\ ~ (forall row,
          In row (rows (RankingsPage.filtered_competitors_df scenario_store
                          escaping_search
                          (RankingsPage.started scenario_store))) ->
          exists r,
            RankingsPage.field RankingsPage.search_columns "rank" row
            = Some (VInt r)
            /\ (Z.of_N (Rankings.min_rank escaping_search) <= r
                <= Z.of_N (Rankings.max_rank escaping_search))%Z)
  /\ (Rankings.max_rank escaping_empty_range
      < Rankings.min_rank escaping_empty_range)%N
  /\ rows (RankingsPage.filtered_competitors_df scenario_store
             escaping_empty_range (RankingsPage.started scenario_store))
     <> [].
Proof.
  split; [ vm_compute; discriminate | split; [ | split ] ].
  - intros H.
    destruct (H [VStr "Luc Petit"; VInt 6; VInt 2; VInt 400; VInt 9;
                 VStr "FRA"; VStr "FRA"]) as (r & Hf & Hr).
    + vm_compute. tauto.
    + injection Hf as <-. simpl in Hr. lia.
  - reflexivity.
  - vm_compute. discriminate.
Qed.




(** ** The leaderboards *)

(** C10.  Whatever the store holds, and whichever engine the page has or
    lacks, the frame of the top-ranked competitors and the frame of the
    competitors with the highest points have ten rows at most. *)
Theorem leaderboards_have_at_most_ten_rows :
  forall (db : Pg.Store) (engine_obj : option Pg.Store)
         (s : Runtime.Proc (Pg.driver db)),
    (List.length
       (rows (RankingsPage.frame
                (Runtime.run_sql_query (Pg.driver db)
                   Rankings.top_ranked_query engine_obj s))) <= 10)%nat
    /\ (List.length
          (rows (RankingsPage.frame
                   (Runtime.run_sql_query (Pg.driver db)
                      Rankings.highest_points_query engine_obj s)))
        <= 10)%nat.
Proof.
  intros db [engine | ] s.
  - rewrite !run_sql_query_execute. split.
    + eapply (execute_sql_limit engine Rankings.top_ranked_query _ _ 10);
        vm_compute; reflexivity.
    + eapply (execute_sql_limit engine Rankings.highest_points_query _ _ 10);
        vm_compute; reflexivity.
  - split; simpl; lia.
Qed.

(** ** The order of columns and rows *)

(** C8.  When the statement runs, the frame has the keys of the result as
    its columns and the fetched rows as its rows, both in the order the
    store gave them, and no banner is shown; the store names the keys after
    the select list in its order; and the country list of USA, ESP, USA and
    FRA comes back as the one column [country] with ESP, FRA and USA. *)
Theorem run_sql_query_keeps_order :
  (forall (D : Driver) (query : string) (engine : Engine D)
          (s : Runtime.Proc D) c w1 rs w2 w3,
      connect D engine (Runtime.world s) = (Ok c, w1) ->
      execute D c query w1 = (Ok rs, w2) ->
      close D c w2 = (Ok tt, w3) ->
      exists s',
        Runtime.run_sql_query D query (Some engine) s
        = (Ok {| columns := keys rs; rows := fetchall rs |}, s')
        /\ Runtime.banners s' = Runtime.banners s)
  /\ (forall (db : Pg.Store) (q : Pg.query) (rs : ResultSet),
        Pg.eval db q = Some rs ->
        keys rs = map Pg.out_name (Pg.items q))
  /\ (forall s,
        RankingsPage.competitor_countries_df scenario_store s
        = {| columns := ["country"];
             rows := [[VStr "ESP"]; [VStr "FRA"]; [VStr "USA"]] |}).
Proof.
  split; [ | split ].
  - intros D query engine s c w1 rs w2 w3 Hconn Hexec Hclose.
    unfold Runtime.run_sql_query, Runtime.try_except, Runtime.with_connect,
      Runtime.bind, Runtime.ext, Runtime.ret.
    rewrite Hconn. simpl. rewrite Hexec. simpl. rewrite Hclose. simpl.
    eexists. split; reflexivity.
  - apply eval_keys.
  - intros s. unfold RankingsPage.competitor_countries_df.
    rewrite run_execute. vm_compute. reflexivity.
Qed.

Lemma run_sql_query_keeps_order_witness :
  exists s',
    Runtime.run_sql_query (Pg.driver scenario_store)
      Rankings.countries_query (Some scenario_store)
      (RankingsPage.started scenario_store)
    = (Ok {| columns := ["country"];
             rows := [[VStr "ESP"]; [VStr "FRA"]; [VStr "USA"]] |}, s')
    /\ Runtime.banners s' = [].
Proof.
  exact (proj1 run_sql_query_keeps_order (Pg.driver scenario_store)
           Rankings.countries_query scenario_store
           (RankingsPage.started scenario_store) scenario_store tt
           {| keys := ["country"];
              fetchall := [[VStr "ESP"]; [VStr "FRA"]; [VStr "USA"]] |}
           tt tt eq_refl eq_refl eq_refl).
Defined.

(** ** Filters left alone *)

Section DefaultFacts.
Import Pg Rankings RankingsPage.

Lemma filter_map {A B} (f : A -> B) (q : B -> bool) (l : list A) :
  filter q (map f l) = map f (filter (fun x => q (f x)) l).
Proof.
  induction l as [ | x l IH]; simpl; [ reflexivity | ].
  rewrite IH. destruct (q (f x)); reflexivity.
Qed.

Lemma filter_ext_in {A} (q q' : A -> bool) (l : list A) :
  (forall x, In x l -> q x = q' x) -> filter q l = filter q' l.
Proof.
  induction l as [ | x l IH]; intros H; simpl; [ reflexivity | ].
  rewrite (H x (or_introl eq_refl)), IH by (intros y Hy; apply H; now right).
  reflexivity.
Qed.

Lemma accepts_default (p : CompetitorRanking * Competitor) :
  accepts default_filters p
  = row_within 1 10000 0 1000000 (search_row p).
Proof.
  unfold accepts, row_within. simpl.
  now rewrite andb_true_r.
Qed.

Lemma filter_sort_by_rank
    (q : CompetitorRanking * Competitor -> bool)
    (l : list (CompetitorRanking * Competitor)) :
  filter q (sort_by rank_key value_leb l)
  = sort_by rank_key value_leb (filter q l).
Proof.
  apply filter_sort_by; unfold rank_key; simpl.
  - intros a b c Hab Hbc. apply Z.leb_le in Hab, Hbc. apply Z.leb_le. lia.
  - intros a b Hab. apply Z.leb_gt in Hab. apply Z.leb_le. lia.
Qed.

Lemma where_condition_empty (cf : Competitions.Filters) :
  Competitions.where_condition cf = ""
  <-> Competitions.selected_category cf = "All"
      /\ Competitions.selected_type cf = "All"
      /\ Competitions.selected_gender cf = "All"
      /\ Competitions.selected_level cf = "All".
Proof.
  unfold Competitions.where_condition, Competitions.where_clauses, Py.neq.
  destruct (String.eqb_spec (Competitions.selected_category cf) "All");
    destruct (String.eqb_spec (Competitions.selected_type cf) "All");
    destruct (String.eqb_spec (Competitions.selected_gender cf) "All");
    destruct (String.eqb_spec (Competitions.selected_level cf) "All");
    simpl; split; intros H; try discriminate H; try tauto.
Qed.

End DefaultFacts.

(** C1, as amended.  On the competitions page the WHERE clause is empty
    exactly when the four select boxes are at ['All'], and the text sent is
    then the listing without a clause, so every driver answers both alike.
    On the rankings page the search left alone still carries, after the
    placeholder [1 = 1], the bounds 1 to 10000 on rank and 0 to 1000000 on
    points: its rows are those of the listing without them that lie within
    these bounds, and the two frames agree when every ranking of the store
    does. *)
Theorem filters_left_alone :
  (forall cf : Competitions.Filters,
     Competitions.where_condition cf = ""
     <-> Competitions.selected_category cf = "All"
         /\ Competitions.selected_type cf = "All"
         /\ Competitions.selected_gender cf = "All"
         /\ Competitions.selected_level cf = "All")
  /\ (forall (cf : Competitions.Filters) (D : Driver)
             (engine_obj : option (Engine D)) (s : Runtime.Proc D),
        Competitions.where_condition cf = "" ->
        Competitions.filtered_competitions_query cf
        = Competitions.unfiltered_competitions_query
        /\ Runtime.run_sql_query D
             (Competitions.filtered_competitions_query cf) engine_obj s
           = Runtime.run_sql_query D
               Competitions.unfiltered_competitions_query engine_obj s)
  /\ (forall f : Rankings.Filters,
        Rankings.search_query_base f
        = (Rankings.search_select_from ++ "WHERE "
           ++ Rankings.where_text f ++ Rankings.order_clause)%string)
  /\ Rankings.where_text Rankings.default_filters
     = (Rankings.where_placeholder
        ++ " AND cr.rank >= 1 AND cr.rank <= 10000"
        ++ " AND cr.points >= 0 AND cr.points <= 1000000")%string
  /\ (forall (db : Pg.Store) (s : Runtime.Proc (Pg.driver db)),
        rows (RankingsPage.filtered_competitors_df db
                Rankings.default_filters s)
        = filter (RankingsPage.row_within 1 10000 0 1000000)
            (rows (RankingsPage.unfiltered_competitors_df db s)))
  /\ (forall (db : Pg.Store) (s : Runtime.Proc (Pg.driver db)),
        (forall r, In r (Pg.competitor_rankings db) ->
           RankingsPage.within 1 10000 (Pg.rank r) = true
           /\ RankingsPage.within 0 1000000 (Pg.points r) = true) ->
        RankingsPage.filtered_competitors_df db Rankings.default_filters s
        = RankingsPage.unfiltered_competitors_df db s).
Proof.
  split; [ exact where_condition_empty | ].
  split.
  { intros cf D engine_obj s H.
    unfold Competitions.filtered_competitions_query,
      Competitions.unfiltered_competitions_query.
    rewrite H. split; reflexivity. }
  split.
  { intros f. unfold Rankings.search_query_base, Rankings.where_text.
    rewrite !string_app_assoc. reflexivity. }
  split; [ reflexivity | ].
  assert (Hrows : forall (db : Pg.Store) (s : Runtime.Proc (Pg.driver db)),
            rows (RankingsPage.filtered_competitors_df db
                    Rankings.default_filters s)
            = filter (RankingsPage.row_within 1 10000 0 1000000)
                (rows (RankingsPage.unfiltered_competitors_df db s))).
  { intros db s.
    rewrite (filtered_competitors_frame db Rankings.default_filters s
               eq_refl eq_refl), unfiltered_competitors_frame.
    simpl. unfold RankingsPage.search_result, RankingsPage.listing.
    rewrite filter_map, filter_sort_by_rank.
    do 2 f_equal. apply filter_ext_in. intros p _. apply accepts_default. }
  split; [ exact Hrows | ].
  intros db s Hall.
  pose proof (Hrows db s) as H.
  rewrite (filtered_competitors_frame db Rankings.default_filters s
             eq_refl eq_refl) in *.
  rewrite unfiltered_competitors_frame in *. simpl in H.
  f_equal. rewrite H, filter_map.
  f_equal. rewrite <- (filter_all (Pg.sort_by _ _ _)) at 2.
  apply filter_ext_in. intros p Hp.
  apply in_sort_by, in_ranked in Hp as [Hp _].
  destruct (Hall _ Hp) as [Hr Hpt].
  unfold RankingsPage.row_within. simpl. now rewrite Hr, Hpt.
Qed.

Lemma filters_left_alone_witness :
  Competitions.where_condition Competitions.default_filters = ""
  /\ Competitions.filtered_competitions_query Competitions.default_filters
     = Competitions.unfiltered_competitions_query
  /\ RankingsPage.filtered_competitors_df scenario_store
       Rankings.default_filters (RankingsPage.started scenario_store)
     = RankingsPage.unfiltered_competitors_df scenario_store
         (RankingsPage.started scenario_store).
Proof.
  pose proof filters_left_alone as (Hiff & Hsame & _ & _ & _ & Hagree).
  assert (Hempty :
            Competitions.where_condition Competitions.default_filters = "")
    by (apply Hiff; repeat split).
  split; [ exact Hempty | split ].
  - exact (proj1 (Hsame Competitions.default_filters unreachable_driver None
                    (Runtime.fresh unreachable_driver tt) Hempty)).
  - apply Hagree. intros r Hr. simpl in Hr.
    destruct Hr as [<- | [<- | [<- | [<- | []]]]]; split; reflexivity.
Defined.

(** C1 as stated fails on the rankings page: the search left alone has a
    WHERE clause that is neither empty nor the placeholder alone, and on a
    store with a ranking of 10001 its frame is not the one of the listing
    without filters. *)
Lemma default_search_is_bounded :
  Rankings.where_text Rankings.default_filters <> ""
  /\ Pg.lex (Rankings.where_text Rankings.default_filters)
     <> Pg.lex "1 = 1"
  /\ RankingsPage.filtered_competitors_df long_tail_store
       Rankings.default_filters (RankingsPage.started long_tail_store)
     <> RankingsPage.unfiltered_competitors_df long_tail_store
          (RankingsPage.started long_tail_store).
Proof.
  repeat split; vm_compute; discriminate.
Qed.

(** ** The numeric bounds *)

(** C3, as amended.  Whatever the filters, the search text carries the
    lower and the upper bound on rank and on points, one after the other;
    when no interpolated text holds a quote the store reads all four as
    conditions of the one AND-group.  Left alone the bounds are 1 and 10000
    for rank, 0 and 1000000 for points: the lower ones are the least value
    the inputs and the columns allow, the upper ones are fixed numbers. *)
Theorem rank_and_points_bounds_always_sent :
  (forall f : Rankings.Filters,
     exists before after,
       Rankings.search_query_base f
       = (before
          ++ (" AND cr.rank >= " ++ Py.str_of_int (Rankings.min_rank f)
              ++ " AND cr.rank <= " ++ Py.str_of_int (Rankings.max_rank f))
          ++ (" AND cr.points >= " ++ Py.str_of_int (Rankings.min_points f)
              ++ " AND cr.points <= "
              ++ Py.str_of_int (Rankings.max_points f))
          ++ after)%string)
  /\ (forall f : Rankings.Filters,
        RankingsPage.no_quote (Rankings.competitor_name_search f) = true ->
        RankingsPage.no_quote (Rankings.selected_country_competitor f)
        = true ->
        exists toks atoms,
          Pg.lex (Rankings.search_query_base f) = Some toks
          /\ Pg.parse toks = Some (RankingsPage.listing_query atoms)
          /\ In (RankingsPage.compare_atom (Pg.OCol "cr.rank") Pg.CGe
                   (Pg.ONum (Rankings.min_rank f))) atoms
          /\ In (RankingsPage.compare_atom (Pg.OCol "cr.rank") Pg.CLe
                   (Pg.ONum (Rankings.max_rank f))) atoms
          /\ In (RankingsPage.compare_atom (Pg.OCol "cr.points") Pg.CGe
                   (Pg.ONum (Rankings.min_points f))) atoms
          /\ In (RankingsPage.compare_atom (Pg.OCol "cr.points") Pg.CLe
                   (Pg.ONum (Rankings.max_points f))) atoms)
  /\ (Rankings.min_rank Rankings.default_filters = 1%N
      /\ Rankings.max_rank Rankings.default_filters = 10000%N
      /\ Rankings.min_points Rankings.default_filters = 0%N
      /\ Rankings.max_points Rankings.default_filters = 1000000%N)
  /\ (Z.of_N (Rankings.min_rank Rankings.default_filters)
      = RankingsPage.rank_min_value
      /\ Z.of_N (Rankings.min_points Rankings.default_filters)
         = RankingsPage.points_min_value)
  /\ (forall r, RankingsPage.permitted_rank r = true ->
        (Z.of_N (Rankings.min_rank Rankings.default_filters) <= r)%Z)
  /\ (forall p, RankingsPage.permitted_points p = true ->
        (Z.of_N (Rankings.min_points Rankings.default_filters) <= p)%Z).
Proof.
  split.
  { intros f.
    exists (Rankings.search_query_head ++ Rankings.name_clause f)%string,
           (Rankings.country_clause f ++ Rankings.order_clause)%string.
    unfold Rankings.search_query_base, Rankings.rank_clause,
      Rankings.points_clause.
    rewrite !string_app_assoc. reflexivity. }
  split.
  { intros f Hn Hc.
    exists (RankingsPage.search_tokens f), (RankingsPage.search_atoms f).
    split; [ now apply lex_search_query_base | ].
    split; [ apply parse_search_tokens | ].
    unfold RankingsPage.search_atoms.
    repeat split; apply in_or_app; right; apply in_or_app; right;
      apply in_or_app; left; simpl; tauto. }
  split; [ repeat split | ].
  split; [ split; reflexivity | ].
  split; intros v Hv; apply Z.leb_le in Hv; exact Hv.
Qed.

Lemma rank_and_points_bounds_always_sent_witness :
  RankingsPage.no_quote (Rankings.competitor_name_search ana_search) = true
  /\ RankingsPage.no_quote (Rankings.selected_country_competitor ana_search)
     = true
  /\ RankingsPage.permitted_rank 1 = true
  /\ (exists toks atoms,
        Pg.lex (Rankings.search_query_base ana_search) = Some toks
        /\ Pg.parse toks = Some (RankingsPage.listing_query atoms)
        /\ In (RankingsPage.compare_atom (Pg.OCol "cr.rank") Pg.CGe
                 (Pg.ONum 1)) atoms
        /\ In (RankingsPage.compare_atom (Pg.OCol "cr.rank") Pg.CLe
                 (Pg.ONum 10000)) atoms
        /\ In (RankingsPage.compare_atom (Pg.OCol "cr.points") Pg.CGe
                 (Pg.ONum 0)) atoms
        /\ In (RankingsPage.compare_atom (Pg.OCol "cr.points") Pg.CLe
                 (Pg.ONum 1000000)) atoms)
  /\ (Z.of_N (Rankings.min_rank Rankings.default_filters) <= 1)%Z.
Proof.
  pose proof rank_and_points_bounds_always_sent
    as (_ & Hread & _ & _ & Hrank & _).
  split; [ reflexivity | split; [ reflexivity | split; [ reflexivity | ] ] ].
  split.
  - exact (Hread ana_search eq_refl eq_refl).
  - exact (Hrank 1%Z eq_refl).
Defined.

(** C3 as stated fails in its last part: a rank of 10001 and 1000001
    points are values the columns and the inputs allow, yet both lie outside
    the bounds of the search left alone, which drops the ranking of 10001
    from the store that holds one. *)
Lemma default_bounds_stop_short :
  RankingsPage.permitted_rank 10001 = true
  /\ (RankingsPage.rank_min_value <= 10001)%Z
  /\ RankingsPage.within (Rankings.min_rank Rankings.default_filters)
       (Rankings.max_rank Rankings.default_filters) 10001 = false
  /\ RankingsPage.permitted_points 1000001 = true
  /\ (RankingsPage.points_min_value <= 1000001)%Z
  /\ RankingsPage.within (Rankings.min_points Rankings.default_filters)
       (Rankings.max_points Rankings.default_filters) 1000001 = false
  /\ map (RankingsPage.field RankingsPage.search_columns "rank")
       (rows (RankingsPage.unfiltered_competitors_df long_tail_store
                (RankingsPage.started long_tail_store)))
     = [Some (VInt 1); Some (VInt 10001)]
  /\ map (RankingsPage.field RankingsPage.search_columns "rank")
       (rows (RankingsPage.filtered_competitors_df long_tail_store
                Rankings.default_filters
                (RankingsPage.started long_tail_store)))
     = [Some (VInt 1)].
Proof.
  repeat split; vm_compute; try reflexivity; discriminate.
Qed.

(** * Further properties *)

(** ** The connection provider on its other paths *)

(** X1.  When the connection string is at hand and [create_engine],
    [connect], the probe and the closing of the probe's connection all
    succeed, a first call of [get_db_connection] returns the engine, shows
    no banner and leaves the engine in the cache entry. *)
Theorem get_db_connection_returns_engine :
  forall (D : Driver) (s : Runtime.Proc D) conn_string w0 engine w1 c w2
         probe w3 w4,
    Runtime.cached s = None ->
    get_connection_string D (Runtime.world s) = (Ok conn_string, w0) ->
    create_engine D conn_string w0 = (Ok engine, w1) ->
    connect D engine w1 = (Ok c, w2) ->
    execute D c "SELECT 1" w2 = (Ok probe, w3) ->
    close D c w3 = (Ok tt, w4) ->
    exists s',
      Runtime.get_db_connection D s = (Ok (Some engine), s')
      /\ Runtime.cached s' = Some (Some engine)
      /\ Runtime.banners s' = Runtime.banners s
      /\ Runtime.world s' = w4.
Proof.
  intros D s cs w0 engine w1 c w2 probe w3 w4 Hnone Hcfg Hmk Hconn Hprobe
    Hclose.
  unfold Runtime.get_db_connection, Runtime.cache_resource.
  rewrite Hnone.
  unfold Runtime.get_db_connection_body, Runtime.bind, Runtime.try_except,
    Runtime.with_connect, Runtime.bind, Runtime.ext, Runtime.count_engine,
    Runtime.set_cached, Runtime.ret.
  simpl. rewrite Hcfg. simpl. rewrite Hmk. simpl. rewrite Hconn. simpl.
  rewrite Hprobe. simpl. rewrite Hclose. simpl.
  eexists. repeat split.
Qed.

Lemma get_db_connection_returns_engine_witness :
  exists s',
    Runtime.get_db_connection (Pg.driver scenario_store)
      (RankingsPage.started scenario_store)
    = (Ok (Some scenario_store), s')
    /\ Runtime.cached s' = Some (Some scenario_store)
    /\ Runtime.banners s' = []
    /\ Runtime.world s' = tt.
Proof.
  exact (get_db_connection_returns_engine (Pg.driver scenario_store)
           (RankingsPage.started scenario_store) "postgresql://" tt
           scenario_store tt scenario_store tt
           {| keys := ["?column?"]; fetchall := [[VInt 1]] |} tt tt
           eq_refl eq_refl eq_refl eq_refl eq_refl eq_refl).
Defined.

(** X2.  A first call that came back with [None] is remembered: whatever
    the pages call afterwards, and whatever becomes of the store,
    [get_db_connection] keeps returning [None] and [create_engine] is not
    called again. *)
Theorem failed_connection_is_not_retried :
  forall (D : Driver) (s s1 : Runtime.Proc D)
         (calls : list (Runtime.Call D)),
    Runtime.cached s = None ->
    Runtime.get_db_connection D s = (Ok None, s1) ->
    Forall (eq None) (fst (Runtime.run_calls D calls s1))
    /\ Runtime.engines_created (snd (Runtime.run_calls D calls s1))
       = Runtime.engines_created s1.
Proof.
  intros D s s1 calls Hnone Hfirst.
  pose proof (first_get_db_connection D s Hnone) as H.
  rewrite Hfirst in H. destruct H as [Hc _].
  destruct (later_calls_answer_from_cache D calls None s1 Hc)
    as (Hall & _ & He).
  split; assumption.
Qed.

Lemma failed_connection_is_not_retried_witness :
  Forall (eq None)
    (fst (Runtime.run_calls unreachable_driver
            [Runtime.GetConnection unreachable_driver;
             Runtime.RunQuery unreachable_driver "SELECT 1" None;
             Runtime.GetConnection unreachable_driver]
            (snd (Runtime.get_db_connection unreachable_driver
                    (Runtime.fresh unreachable_driver tt)))))
  /\ Runtime.engines_created
       (snd (Runtime.run_calls unreachable_driver
               [Runtime.GetConnection unreachable_driver;
                Runtime.RunQuery unreachable_driver "SELECT 1" None;
                Runtime.GetConnection unreachable_driver]
               (snd (Runtime.get_db_connection unreachable_driver
                       (Runtime.fresh unreachable_driver tt)))))
     = 1%nat.
Proof.
  exact (failed_connection_is_not_retried unreachable_driver
           (Runtime.fresh unreachable_driver tt) _
           [Runtime.GetConnection unreachable_driver;
            Runtime.RunQuery unreachable_driver "SELECT 1" None;
            Runtime.GetConnection unreachable_driver]
           eq_refl eq_refl).
Defined.

(** X3.  The connection string is fetched outside the [try]: when
    fetching it raises, [get_db_connection] raises the same exception,
    makes no engine, shows no banner and caches nothing, so the next call
    starts over; and each of the three pages stops there, with that
    exception and nothing drawn. *)
Theorem configuration_failure_is_not_caught :
  forall (D : Driver) (s : Runtime.Proc D) (msg : string) (w0 : World D),
    Runtime.cached s = None ->
    get_connection_string D (Runtime.world s) = (Raise msg, w0) ->
    (exists s',
       Runtime.get_db_connection D s = (Raise msg, s')
       /\ Runtime.cached s' = None
       /\ Runtime.engines_created s' = Runtime.engines_created s
       /\ Runtime.banners s' = Runtime.banners s)
    /\ (forall w,
          exists sc,
            CompetitionsScript.page D w (Screen.blank D s) = (Raise msg, sc)
            /\ Screen.elements sc = []
            /\ Runtime.banners (Screen.process sc) = Runtime.banners s)
    /\ (forall w,
          exists sc,
            VenuesScript.page D w (Screen.blank D s) = (Raise msg, sc)
            /\ Screen.elements sc = []
            /\ Runtime.banners (Screen.process sc) = Runtime.banners s)
    /\ (forall w,
          exists sc,
            RankingsScript.page D w (Screen.blank D s) = (Raise msg, sc)
            /\ Screen.elements sc = []
            /\ Runtime.banners (Screen.process sc) = Runtime.banners s).
Proof.
  intros D s msg w0 Hnone Hcfg.
  assert (Hget : Runtime.get_db_connection D s
                 = (Raise msg,
                    {| Runtime.world := w0;
                       Runtime.banners := Runtime.banners s;
                       Runtime.cached := None;
                       Runtime.engines_created :=
                         Runtime.engines_created s |})).
  { unfold Runtime.get_db_connection, Runtime.cache_resource.
    rewrite Hnone.
    unfold Runtime.get_db_connection_body, Runtime.bind, Runtime.ext.
    rewrite Hcfg. simpl. rewrite Hnone. reflexivity. }
  split; [ | repeat split ].
  - rewrite Hget. eexists. repeat split.
  - intros w. unfold CompetitionsScript.page, Screen.bind, Screen.call.
    simpl. rewrite Hget. eexists. repeat split.
  - intros w. unfold VenuesScript.page, Screen.bind, Screen.call.
    simpl. rewrite Hget. eexists. repeat split.
  - intros w. unfold RankingsScript.page, Screen.bind, Screen.call.
    simpl. rewrite Hget. eexists. repeat split.
Qed.

Lemma configuration_failure_is_not_caught_witness :
  exists s',
    Runtime.get_db_connection unconfigured_driver
      (Runtime.fresh unconfigured_driver tt)
    = (Raise "DB_HOST is not set", s')
    /\ Runtime.cached s' = None
    /\ Runtime.engines_created s' = 0%nat
    /\ Runtime.banners s' = [].
Proof.
  exact (proj1 (configuration_failure_is_not_caught unconfigured_driver
                  (Runtime.fresh unconfigured_driver tt)
                  "DB_HOST is not set" tt eq_refl eq_refl)).
Defined.

(** ** The pages without a connection *)

Lemma selectbox_single (v : Value) (pick : nat) :
  Widgets.selectbox [v] pick = Some v.
Proof.
  unfold Widgets.selectbox. destruct pick as [ | [ | n]]; reflexivity.
Qed.

(** A pick is always one of the options. *)
Lemma selectbox_in (options : list Value) (pick : nat) (v : Value) :
  Widgets.selectbox options pick = Some v -> In v options.
Proof.
  unfold Widgets.selectbox.
  destruct (nth_error options pick) as [x | ] eqn:E.
  - intros [= <-]. now apply nth_error_In with pick.
  - intros H. now apply nth_error_In with 0%nat.
Qed.

Lemma select_filters_without_engine (D : Driver)
    (w : CompetitionsScript.Picks) (sc : Screen.State D) :
  exists sc',
    CompetitionsScript.select_filters D None w sc
    = (Ok Competitions.default_filters, sc')
    /\ Screen.elements sc' = Screen.elements sc
    /\ Runtime.banners (Screen.process sc')
       = (Runtime.banners (Screen.process sc)
          ++ [Warning Runtime.connection_warning;
              Warning Runtime.connection_warning;
              Warning Runtime.connection_warning;
              Warning Runtime.connection_warning])%list
    /\ Runtime.world (Screen.process sc')
       = Runtime.world (Screen.process sc).
Proof.
  unfold CompetitionsScript.select_filters, Screen.bind,
    Screen.run_sql_query, Screen.call, Screen.options_with_all, Screen.ret.
  simpl. rewrite !selectbox_single. simpl.
  eexists. split; [ reflexivity | ]. simpl.
  rewrite <- !List.app_assoc. repeat split.
Qed.

(** X4.  The competitions page with no engine: it returns without raising;
    whatever the viewer picked, the four select boxes offer ['All'] alone,
    so the listing is asked for without a WHERE clause; seven connection
    warnings and the note that no competition was found are shown; the two
    tables drawn unconditionally are drawn empty, and no chart is drawn. *)
Theorem competitions_page_without_connection :
  forall (D : Driver) (w : CompetitionsScript.Picks) (sc : Screen.State D)
         (s1 : Runtime.Proc D),
    Runtime.get_db_connection D (Screen.process sc) = (Ok None, s1) ->
    (forall sc0, fst (CompetitionsScript.select_filters D None w sc0)
                 = Ok Competitions.default_filters)
    /\ exists sc',
         CompetitionsScript.page D w sc = (Ok tt, sc')
         /\ Screen.elements sc'
            = (Screen.elements sc
               ++ [Screen.Dataframe empty_frame;
                   Screen.Dataframe empty_frame])%list
         /\ Runtime.banners (Screen.process sc')
            = (Runtime.banners s1
               ++ [Warning Runtime.connection_warning;
                   Warning Runtime.connection_warning;
                   Warning Runtime.connection_warning;
                   Warning Runtime.connection_warning;
                   Warning Runtime.connection_warning;
                   Info CompetitionsScript.no_competitions;
                   Warning Runtime.connection_warning;
                   Warning Runtime.connection_warning])%list
         /\ Runtime.world (Screen.process sc') = Runtime.world s1.
Proof.
  intros D w sc s1 Hget. split.
  - intros sc0.
    destruct (select_filters_without_engine D w sc0) as (sc' & H & _).
    now rewrite H.
  - unfold CompetitionsScript.page.
    unfold Screen.bind at 1. unfold Screen.call at 1. rewrite Hget.
    unfold Screen.bind at 1.
    destruct (select_filters_without_engine D w
                {| Screen.elements := Screen.elements sc;
                   Screen.process := s1 |})
      as (sc1 & Hsel & Hel & Hban & Hw).
    rewrite Hsel.
    unfold Screen.bind, Screen.run_sql_query, Screen.call,
      Screen.dataframe_or_info, Screen.dataframe_and_chart,
      Screen.st_dataframe, Screen.st_info, Screen.draw, Screen.ret.
    simpl. eexists. split; [ reflexivity | ]. simpl.
    rewrite Hel, Hban, Hw. simpl.
    rewrite <- !List.app_assoc. repeat split.
Qed.

Lemma competitions_page_without_connection_witness :
  exists sc',
    CompetitionsScript.page unreachable_driver
      {| CompetitionsScript.category_pick := 2;
         CompetitionsScript.type_pick := 0;
         CompetitionsScript.gender_pick := 1;
         CompetitionsScript.level_pick := 0 |}
      (Screen.blank unreachable_driver
         (Runtime.fresh unreachable_driver tt))
    = (Ok tt, sc')
    /\ Screen.elements sc'
       = [Screen.Dataframe empty_frame; Screen.Dataframe empty_frame]
    /\ List.length (Runtime.banners (Screen.process sc')) = 8%nat.
Proof.
  destruct (competitions_page_without_connection unreachable_driver
              {| CompetitionsScript.category_pick := 2;
                 CompetitionsScript.type_pick := 0;
                 CompetitionsScript.gender_pick := 1;
                 CompetitionsScript.level_pick := 0 |}
              (Screen.blank unreachable_driver
                 (Runtime.fresh unreachable_driver tt))
              _ eq_refl) as (_ & sc' & Hrun & Hel & Hban & _).
  exists sc'. split; [ exact Hrun | split; [ exact Hel | ] ].
  rewrite Hban. reflexivity.
Defined.

(** X5.  The complexes and venues page with no engine: it returns without
    raising; the venues of a country are not asked for at all, so four
    connection warnings are shown, the third followed by the note that no
    venue country is available; the three tables drawn unconditionally are
    drawn empty, and no chart is drawn. *)
Theorem venues_page_without_connection :
  forall (D : Driver) (country_pick : nat) (sc : Screen.State D)
         (s1 : Runtime.Proc D),
    Runtime.get_db_connection D (Screen.process sc) = (Ok None, s1) ->
    exists sc',
      VenuesScript.page D country_pick sc = (Ok tt, sc')
      /\ Screen.elements sc'
         = (Screen.elements sc
            ++ [Screen.Dataframe empty_frame; Screen.Dataframe empty_frame;
                Screen.Dataframe empty_frame])%list
      /\ Runtime.banners (Screen.process sc')
         = (Runtime.banners s1
            ++ [Warning Runtime.connection_warning;
                Warning Runtime.connection_warning;
                Warning Runtime.connection_warning;
                Info VenuesScript.no_venue_countries;
                Warning Runtime.connection_warning])%list
      /\ Runtime.world (Screen.process sc') = Runtime.world s1.
Proof.
  intros D pick sc s1 Hget.
  unfold VenuesScript.page.
  unfold Screen.bind at 1. unfold Screen.call at 1. rewrite Hget.
  unfold VenuesScript.venues_in_country, Screen.bind,
    Screen.run_sql_query, Screen.call, Screen.dataframe_and_chart,
    Screen.st_dataframe, Screen.st_info, Screen.draw, Screen.ret.
  simpl. eexists. split; [ reflexivity | ]. simpl.
  rewrite <- !List.app_assoc. repeat split.
Qed.

Lemma venues_page_without_connection_witness :
  exists sc',
    VenuesScript.page unreachable_driver 3
      (Screen.blank unreachable_driver
         (Runtime.fresh unreachable_driver tt))
    = (Ok tt, sc')
    /\ Screen.elements sc'
       = [Screen.Dataframe empty_frame; Screen.Dataframe empty_frame;
          Screen.Dataframe empty_frame]
    /\ List.length (Runtime.banners (Screen.process sc')) = 5%nat.
Proof.
  destruct (venues_page_without_connection unreachable_driver 3
              (Screen.blank unreachable_driver
                 (Runtime.fresh unreachable_driver tt))
              _ eq_refl) as (sc' & Hrun & Hel & Hban & _).
  exists sc'. split; [ exact Hrun | split; [ exact Hel | ] ].
  rewrite Hban. reflexivity.
Defined.

(** X6.  The rankings page with no engine: it returns without raising and
    draws nothing; each of its five statements gives one connection
    warning, and each section adds its note that nothing was found, the
    details viewer included. *)
Theorem rankings_page_without_connection :
  forall (D : Driver) (w : RankingsScript.Inputs) (sc : Screen.State D)
         (s1 : Runtime.Proc D),
    Runtime.get_db_connection D (Screen.process sc) = (Ok None, s1) ->
    exists sc',
      RankingsScript.page D w sc = (Ok tt, sc')
      /\ Screen.elements sc' = Screen.elements sc
      /\ Runtime.banners (Screen.process sc')
         = (Runtime.banners s1
            ++ [Warning Runtime.connection_warning;
                Warning Runtime.connection_warning;
                Info RankingsScript.no_competitors;
                Info RankingsScript.no_details;
                Warning Runtime.connection_warning;
                Info RankingsScript.no_top_ranked;
                Warning Runtime.connection_warning;
                Info RankingsScript.no_highest_points;
                Warning Runtime.connection_warning;
                Info RankingsScript.no_country_analysis])%list
      /\ Runtime.world (Screen.process sc') = Runtime.world s1.
Proof.
  intros D w sc s1 Hget.
  unfold RankingsScript.page.
  unfold Screen.bind at 1. unfold Screen.call at 1. rewrite Hget.
  unfold RankingsScript.search_and_filter, RankingsScript.details_viewer,
    RankingsScript.leaderboards, RankingsScript.country_analysis,
    Screen.bind, Screen.run_sql_query, Screen.call,
    Screen.options_with_all, Screen.dataframe_or_info,
    Screen.st_dataframe, Screen.st_info, Screen.draw, Screen.ret.
  simpl. eexists. split; [ reflexivity | ]. simpl.
  rewrite <- !List.app_assoc. repeat split.
Qed.

Lemma rankings_page_without_connection_witness :
  exists sc',
    RankingsScript.page unreachable_driver
      {| RankingsScript.name_text := "ana";
         RankingsScript.min_rank_input := 1;
         RankingsScript.max_rank_input := 10000;
         RankingsScript.min_points_input := 0;
         RankingsScript.max_points_input := 1000000;
         RankingsScript.country_pick := 0;
         RankingsScript.competitor_pick := 0 |}
      (Screen.blank unreachable_driver
         (Runtime.fresh unreachable_driver tt))
    = (Ok tt, sc')
    /\ Screen.elements sc' = []
    /\ List.length (Runtime.banners (Screen.process sc')) = 10%nat.
Proof.
  destruct (rankings_page_without_connection unreachable_driver
              {| RankingsScript.name_text := "ana";
                 RankingsScript.min_rank_input := 1;
                 RankingsScript.max_rank_input := 10000;
                 RankingsScript.min_points_input := 0;
                 RankingsScript.max_points_input := 1000000;
                 RankingsScript.country_pick := 0;
                 RankingsScript.competitor_pick := 0 |}
              (Screen.blank unreachable_driver
                 (Runtime.fresh unreachable_driver tt))
              _ eq_refl) as (sc' & Hrun & Hel & Hban & _).
  exists sc'. split; [ exact Hrun | split; [ exact Hel | ] ].
  rewrite Hban. reflexivity.
Defined.

(** ** Statements over the joined rankings *)

Section RankedQueryFacts.
Import Pg Rankings RankingsPage RankingsStore.

Lemma sort_by_permutation {A} (key : A -> Value)
    (le : Value -> Value -> bool) (l : list A) :
  Permutation (sort_by key le l) l.
Proof.
  induction l as [ | x l IH]; simpl; [ constructor | ].
  transitivity (x :: sort_by key le l); [ | now constructor ].
  clear IH. induction (sort_by key le l) as [ | y m IHm]; simpl.
  - reflexivity.
  - destruct (le (key x) (key y)); [ reflexivity | ].
    transitivity (y :: x :: m); [ now constructor | apply perm_swap ].
Qed.

Lemma ascending_sorted {A} (key : A -> Value) (le : Value -> Value -> bool)
    (R : A -> A -> Prop) (l : list A) :
  (forall a b, le (key a) (key b) = true -> R a b) ->
  ascending key le l -> StronglySorted R l.
Proof.
  intros HR. induction l as [ | x l IH]; simpl; intros H.
  - constructor.
  - destruct H as [Hx Hl]. constructor; [ now apply IH | ].
    apply Forall_forall. intros y Hy. now apply HR, Hx.
Qed.

Lemma by_rank_sorted (l : list pair) :
  StronglySorted rank_le (sort_by rank_key value_leb l).
Proof.
  apply ascending_sorted with rank_key value_leb.
  - intros a b H. now apply Z.leb_le in H.
  - apply sort_by_ascending; unfold rank_key; simpl.
    + intros a b c Hab Hbc. apply Z.leb_le in Hab, Hbc. apply Z.leb_le. lia.
    + intros a b Hab. apply Z.leb_gt in Hab. apply Z.leb_le. lia.
Qed.

Lemma by_points_sorted (l : list pair) :
  StronglySorted points_ge (sort_by points_key (order_of true) l).
Proof.
  apply ascending_sorted with points_key (order_of true).
  - intros a b H. now apply Z.leb_le in H.
  - apply sort_by_ascending; unfold points_key; simpl.
    + intros a b c Hab Hbc. apply Z.leb_le in Hab, Hbc. apply Z.leb_le. lia.
    + intros a b Hab. apply Z.leb_gt in Hab. apply Z.leb_le. lia.
Qed.

(** The steps of any statement of that shape. *)
Lemma eval_ranked_query (db : Store) (its : list item)
    (proj : pair -> list Value) (w : option condition) (q : pair -> bool)
    (o : option (string * bool)) (key : pair -> Value) (l : option N) :
  (forall p, project its (joined_row p) = Some (proj p)) ->
  (forall p, match w with
             | Some c => eval_condition c (joined_row p)
             | None => Some true
             end = Some (q p)) ->
  (forall p, match o with
             | Some (col, _) => resolve col (joined_row p)
             | None => Some (key p)
             end = Some (key p)) ->
  eval db (ranked_query its w o l)
  = Some {| keys := map out_name its;
            fetchall :=
              cut l (map proj (arrange o key (filter q (ranked db)))) |}.
Proof.
  intros Hproj Hq Hkey. unfold eval, ranked_query.
  cbn [from join where_ order_by items distinct limit rankings_join
       joined on].
  change (scan_table db {| table := "competitor_rankings"; alias := "cr" |})
    with (Some (map (ranking_row "cr") (competitor_rankings db))).
  change (scan_table db {| table := "competitors"; alias := "c" |})
    with (Some (map (competitor_row "c") (competitors db))).
  cbv beta iota.
  rewrite pairs_map.
  change (fun p : CompetitorRanking * Competitor =>
            (ranking_row "cr" (fst p) ++ competitor_row "c" (snd p))%list)
    with joined_row.
  rewrite (keep_map joined_row _
             (fun p => Z.eqb (ranking_competitor_id (fst p))
                             (competitor_id (snd p))))
    by (intros; reflexivity).
  fold (ranked db).
  assert (Hkept :
            match w with
            | Some c => keep (eval_condition c) (map joined_row (ranked db))
            | None => Some (map joined_row (ranked db))
            end = Some (map joined_row (filter q (ranked db)))).
  { destruct w as [c | ].
    - apply keep_map. intros p _. apply Hq.
    - f_equal. f_equal.
      transitivity (filter (fun _ : pair => true) (ranked db));
        [ symmetry; apply filter_all | ].
      apply filter_ext_in. intros p _.
      specialize (Hq p). now injection Hq. }
  rewrite Hkept.
  assert (Hsorted :
            match o with
            | Some (col, desc) =>
                sort_rows col desc (map joined_row (filter q (ranked db)))
            | None => Some (map joined_row (filter q (ranked db)))
            end
            = Some (map joined_row (arrange o key (filter q (ranked db))))).
  { destruct o as [[col desc] | ]; [ | reflexivity ].
    unfold sort_rows, arrange.
    rewrite (each_map joined_row (with_key col)
               (fun p => (key p, joined_row p)))
      by (intros p; unfold with_key; now rewrite (Hkey p)).
    rewrite (sort_by_map (fun p => (key p, joined_row p)) fst).
    now rewrite map_map. }
  rewrite Hsorted.
  rewrite (each_map joined_row (project its) proj) by exact Hproj.
  destruct l; reflexivity.
Qed.

End RankedQueryFacts.

Section LeaderboardFacts.
Import Pg Rankings RankingsPage RankingsStore.

Lemma execute_sql_parsed (db : Store) (sql : string) (q : query) :
  match lex sql with
  | Some toks => parse toks
  | None => None
  end = Some q ->
  execute_sql db sql
  = match eval db q with
    | Some rs => Ok rs
    | None => Raise "undefined column or operator"
    end.
Proof.
  unfold execute_sql. destruct (lex sql) as [toks | ]; [ | discriminate ].
  now intros ->.
Qed.

Lemma top_ranked_frame (db : Store) (s : Runtime.Proc (driver db)) :
  top_ranked_df db s
  = {| columns := top_columns;
       rows := map top_row
                 (firstn 10 (sort_by rank_key value_leb (ranked db))) |}.
Proof.
  unfold top_ranked_df. rewrite run_execute.
  rewrite (execute_sql_parsed db top_ranked_query
             (ranked_query top_items None (Some ("cr.rank", false))
                (Some 10%N)))
    by (vm_compute; reflexivity).
  rewrite (eval_ranked_query db top_items top_row None (fun _ => true)
             (Some ("cr.rank", false)) rank_key (Some 10%N))
    by (intros; reflexivity).
  unfold cut, arrange. rewrite filter_all, <- firstn_map. reflexivity.
Qed.

Lemma highest_points_frame (db : Store) (s : Runtime.Proc (driver db)) :
  highest_points_df db s
  = {| columns := highest_columns;
       rows := map highest_row
                 (firstn 10
                    (sort_by points_key (order_of true) (ranked db))) |}.
Proof.
  unfold highest_points_df. rewrite run_execute.
  rewrite (execute_sql_parsed db highest_points_query
             (ranked_query highest_items None (Some ("cr.points", true))
                (Some 10%N)))
    by (vm_compute; reflexivity).
  rewrite (eval_ranked_query db highest_items highest_row None
             (fun _ => true) (Some ("cr.points", true)) points_key
             (Some 10%N))
    by (intros; reflexivity).
  unfold cut, arrange. rewrite filter_all, <- firstn_map. reflexivity.
Qed.

(** In a sorted list whatever comes first is in order before whatever
    comes after. *)
Lemma sorted_app_order {A} (R : A -> A -> Prop) (front back : list A) :
  StronglySorted R (front ++ back) ->
  forall x y, In x front -> In y back -> R x y.
Proof.
  induction front as [ | a front IH]; simpl; intros H x y Hx Hy.
  - destruct Hx.
  - inversion H as [ | a' l' Hs Hall]; subst.
    destruct Hx as [<- | Hx].
    + rewrite Forall_forall in Hall. apply Hall, in_or_app. now right.
    + now apply IH.
Qed.

Lemma in_firstn {A} (n : nat) (l : list A) (x : A) :
  In x (firstn n l) -> In x l.
Proof.
  intros H. rewrite <- (firstn_skipn n l). apply in_or_app. now left.
Qed.

Lemma sorted_firstn {A} (R : A -> A -> Prop) (n : nat) (l : list A) :
  StronglySorted R l -> StronglySorted R (firstn n l).
Proof.
  revert n. induction l as [ | a l IH]; intros n H.
  - now rewrite firstn_nil.
  - destruct n as [ | n]; simpl; [ constructor | ].
    inversion H as [ | a' l' Hs Hall]; subst.
    constructor; [ now apply IH | ].
    rewrite Forall_forall in *. intros x Hx.
    apply Hall. now apply in_firstn with n.
Qed.

(** The first [n] of a sorted list: each element left out comes after
    every one kept. *)
Lemma firstn_are_first {A} (R : A -> A -> Prop) (n : nat) (l : list A) :
  StronglySorted R l ->
  forall x y, In x (firstn n l) -> In y (skipn n l) -> R x y.
Proof.
  intros H. apply sorted_app_order. now rewrite firstn_skipn.
Qed.

End LeaderboardFacts.

(** ** The leaderboards, row by row *)

(** X7.  The top-ranked frame has the columns competitor_name, rank,
    points and country, and its rows are those of ten of the rankings
    joined to their competitor, or of all when there are fewer: they come
    in ascending rank, and every ranking left out has a rank at least as
    high as each one shown. *)
Theorem top_ranked_are_the_lowest_ranks :
  forall (db : Pg.Store) (s : Runtime.Proc (Pg.driver db)),
  exists shown others : list RankingsStore.pair,
    RankingsPage.top_ranked_df db s
    = {| columns := RankingsStore.top_columns;
         rows := map RankingsStore.top_row shown |}
    /\ Permutation (shown ++ others) (RankingsPage.ranked db)
    /\ StronglySorted RankingsStore.rank_le shown
    /\ (forall x y, In x shown -> In y others -> RankingsStore.rank_le x y)
    /\ List.length shown
       = Nat.min 10 (List.length (RankingsPage.ranked db)).
Proof.
  intros db s.
  set (best := Pg.sort_by RankingsPage.rank_key Pg.value_leb
                 (RankingsPage.ranked db)).
  exists (firstn 10 best), (skipn 10 best).
  split; [ apply top_ranked_frame | ].
  split; [ rewrite firstn_skipn; apply sort_by_permutation | ].
  split; [ apply sorted_firstn, by_rank_sorted | ].
  split; [ apply firstn_are_first, by_rank_sorted | ].
  rewrite length_firstn. unfold best. now rewrite length_sort_by.
Qed.

(** X8.  The highest-points frame has the columns competitor_name, points,
    rank and country, and its rows are those of ten of the rankings joined
    to their competitor, or of all when there are fewer: they come in
    descending points, and every ranking left out has at most the points
    of each one shown. *)
Theorem highest_points_are_the_most_points :
  forall (db : Pg.Store) (s : Runtime.Proc (Pg.driver db)),
  exists shown others : list RankingsStore.pair,
    RankingsPage.highest_points_df db s
    = {| columns := RankingsStore.highest_columns;
         rows := map RankingsStore.highest_row shown |}
    /\ Permutation (shown ++ others) (RankingsPage.ranked db)
    /\ StronglySorted RankingsStore.points_ge shown
    /\ (forall x y, In x shown -> In y others ->
          RankingsStore.points_ge x y)
    /\ List.length shown
       = Nat.min 10 (List.length (RankingsPage.ranked db)).
Proof.
  intros db s.
  set (best := Pg.sort_by RankingsStore.points_key (Pg.order_of true)
                 (RankingsPage.ranked db)).
  exists (firstn 10 best), (skipn 10 best).
  split; [ apply highest_points_frame | ].
  split; [ rewrite firstn_skipn; apply sort_by_permutation | ].
  split; [ apply sorted_firstn, by_points_sorted | ].
  split; [ apply firstn_are_first, by_points_sorted | ].
  rewrite length_firstn. unfold best. now rewrite length_sort_by.
Qed.

(** ** The search, row by row *)

Section SearchRowFacts.
Import Pg Rankings RankingsPage RankingsStore.



End SearchRowFacts.



(** ** The details viewer *)

Section DetailsFacts.
Import Pg Rankings RankingsPage RankingsStore.




(** What the runner leaves behind on this store. *)
Lemma run_sql_query_on_store (db engine : Store) (sql : string)
    (s : Runtime.Proc (driver db)) :
  Runtime.run_sql_query (driver db) sql (Some engine) s
  = match execute_sql engine sql with
    | Ok rs =>
        (Ok {| columns := keys rs; rows := fetchall rs |},
         {| Runtime.world := Runtime.world s;
            Runtime.banners := Runtime.banners s;
            Runtime.cached := Runtime.cached s;
            Runtime.engines_created := Runtime.engines_created s |})
    | Raise msg =>
        (Ok empty_frame,
         {| Runtime.world := Runtime.world s;
            Runtime.banners :=
              (Runtime.banners s
               ++ [Error ("Error executing query: " ++ msg)])%list;
            Runtime.cached := Runtime.cached s;
            Runtime.engines_created := Runtime.engines_created s |})
    end.
Proof.
  unfold Runtime.run_sql_query, Runtime.try_except, Runtime.with_connect,
    Runtime.bind, Runtime.ext, Runtime.st_error, Runtime.show, Runtime.ret.
  simpl. destruct (execute_sql engine sql); reflexivity.
Qed.

(** After an apostrophe and letters the closing quote of the f-string
    opens a literal that never ends. *)
Lemma letter_starts_word (c : ascii) :
  is_letter c = true ->
  start c = (LWord (String c ""), []) /\ Ascii.eqb c quote = false.
Proof.
  destruct c as [[] [] [] [] [] [] [] []]; cbv; intros H;
    try discriminate H; split; reflexivity.
Qed.

Lemma word_not_quote (c : ascii) :
  is_word c = true -> Ascii.eqb c quote = false.
Proof.
  destruct c as [[] [] [] [] [] [] [] []]; cbv; intros H;
    try discriminate H; reflexivity.
Qed.

Lemma scan_word (acc s : string) :
  all_word s = true -> scan (LWord acc) s = (LWord (acc ++ s), []).
Proof.
  revert acc. induction s as [ | c s IH]; intros acc H; simpl in *.
  - now rewrite string_app_empty.
  - apply andb_prop in H as [Hc Hs]. rewrite Hc, (IH _ Hs).
    unfold snoc. now rewrite string_app_assoc.
Qed.

Lemma lex_details_apostrophe (front back : string) (c : ascii) :
  no_quote front = true -> is_letter c = true -> all_word back = true ->
  lex (RankingsScript.competitor_details_query
         (front ++ String quote (String c back)))
  = None.
Proof.
  intros Hb Hc Ha.
  destruct (letter_starts_word c Hc) as [Hstart Hnq].
  unfold lex, RankingsScript.competitor_details_query.
  rewrite !string_app_assoc.
  rewrite (scan_then LNormal (LString "") (LString (";" ++ Py.nl ++ "        "))
             RankingsScript.details_head _ details_head_tokens
             [TStr front; word_token (String c back)]).
  - reflexivity.
  - vm_compute. reflexivity.
  - eapply scan_then_eq; [ apply scan_inside_literal, Hb | | reflexivity ].
    cbn [append scan step]. rewrite Ascii.eqb_refl.
    cbn [scan step]. rewrite Hnq. unfold after. rewrite Hstart.
    rewrite (scan_then_eq (LWord (String c "")) (LWord (String c back))
               (LString (";" ++ Py.nl ++ "        "))
               back RankingsScript.details_tail
               [word_token (String c back)] []
               [word_token (String c back)]).
    + reflexivity.
    + now rewrite scan_word.
    + reflexivity.
    + reflexivity.
Qed.

End DetailsFacts.

Section DetailsViewerFacts.
Import Pg Rankings RankingsPage RankingsStore.



Lemma df_empty_rows (cols : list string) (rws : list (list Value)) :
  cols <> [] -> rws <> [] ->
  df_empty {| columns := cols; rows := rws |} = false.
Proof.
  destruct cols, rws; intros; try congruence; reflexivity.
Qed.

End DetailsViewerFacts.





(** X12.  Section 2 of the rankings page when the competitor picked has a
    name with an apostrophe followed by letters, as in O'Hara: the
    statement sent cannot be read, so the viewer shows the error banner of
    the query runner, draws nothing and does not raise. *)
Theorem details_viewer_fails_on_apostrophe :
  forall (db : Pg.Store) (w : RankingsScript.Inputs) (filtered : DataFrame)
         (sc : Screen.State (Pg.driver db)) (front back : string)
         (c : ascii),
    df_empty filtered = false ->
    In "competitor_name" (columns filtered) ->
    Widgets.selectbox
      (Pandas.cells (columns filtered) "competitor_name" (rows filtered))
      (RankingsScript.competitor_pick w)
    = Some (VStr (front ++ String Pg.quote (String c back))) ->
    RankingsPage.no_quote front = true ->
    Pg.is_letter c = true ->
    RankingsStore.all_word back = true ->
    exists sc' msg,
      RankingsScript.details_viewer (Pg.driver db) (Some db) w filtered sc
      = (Ok tt, sc')
      /\ Screen.elements sc' = Screen.elements sc
      /\ Runtime.banners (Screen.process sc')
         = (Runtime.banners (Screen.process sc)
            ++ [Error ("Error executing query: " ++ msg)])%list.
Proof.
  intros db w filtered sc front back c Hne Hcol Hpick Hf Hc Hb.
  unfold RankingsScript.details_viewer. rewrite Hne. cbn [negb].
  unfold Screen.bind at 1, Screen.pandas at 1, Pandas.tolist.
  assert (Hex : existsb (String.eqb "competitor_name") (columns filtered)
                = true).
  { apply existsb_exists. exists "competitor_name".
    split; [ exact Hcol | apply String.eqb_refl ]. }
  rewrite Hex, Hpick.
  cbn [Pandas.truthy_selected Pandas.str_selected Pandas.str_value].
  assert (Htruthy :
            Py.truthy (front ++ String Pg.quote (String c back)) = true)
    by (destruct front; reflexivity).
  rewrite Htruthy.
  unfold Screen.bind, Screen.run_sql_query, Screen.call.
  rewrite run_sql_query_on_store. unfold Pg.execute_sql.
  rewrite (lex_details_apostrophe front back c Hf Hc Hb).
  cbn [df_empty empty_frame columns rows negb]. unfold Screen.ret.
  eexists. eexists. split; [ reflexivity | ]. split; reflexivity.
Qed.

Lemma details_viewer_fails_on_apostrophe_witness :
  exists sc' msg,
    RankingsScript.details_viewer (Pg.driver apostrophe_store)
      (Some apostrophe_store) untouched_inputs
      (RankingsPage.filtered_competitors_df apostrophe_store
         Rankings.default_filters (RankingsPage.started apostrophe_store))
      (Screen.blank (Pg.driver apostrophe_store)
         (RankingsPage.started apostrophe_store))
    = (Ok tt, sc')
    /\ Screen.elements sc' = []
    /\ Runtime.banners (Screen.process sc')
       = [Error ("Error executing query: " ++ msg)].
Proof.
  exact (details_viewer_fails_on_apostrophe apostrophe_store
           untouched_inputs
           (RankingsPage.filtered_competitors_df apostrophe_store
              Rankings.default_filters
              (RankingsPage.started apostrophe_store))
           (Screen.blank (Pg.driver apostrophe_store)
              (RankingsPage.started apostrophe_store))
           "Sean O" "ara" "H"%char
           eq_refl (or_introl eq_refl) eq_refl eq_refl eq_refl eq_refl).
Defined.

(** ** The options of the country box *)

Section CountryOptionFacts.
Import Pg Rankings RankingsPage RankingsStore.












End CountryOptionFacts.


(** ** The WHERE clause of the competitions page, read *)

Section CompetitionsClauseFacts.
Import Pg RankingsPage RankingsStore CompetitionsStore.






End CompetitionsClauseFacts.




(** ** Sections of the rankings page against the store *)

Section SectionFacts.
Import Pg Rankings RankingsPage RankingsStore.

(** A frame with columns tells what the statement returned. *)
Lemma run_frame_execute (db : Store) (sql : string)
    (s : Runtime.Proc (driver db)) (cols : list string)
    (rws : list (list Value)) :
  cols <> [] ->
  run db sql s = {| columns := cols; rows := rws |} ->
  execute_sql db sql = Ok {| keys := cols; fetchall := rws |}.
Proof.
  intros Hne. rewrite run_execute.
  destruct (execute_sql db sql) as [[ks rs] | msg]; simpl.
  - now intros [= -> ->].
  - intros [= H _]. congruence.
Qed.

Lemma sort_by_empty {A} (key : A -> Value) (le : Value -> Value -> bool)
    (l : list A) :
  sort_by key le l = [] <-> l = [].
Proof.
  split; intros H.
  - apply length_zero_iff_nil. rewrite <- (length_sort_by key le), H.
    reflexivity.
  - now subst.
Qed.

Lemma first_ten_empty {A B} (f : A -> B) (l : list A) :
  map f (firstn 10 l) = [] <-> l = [].
Proof.
  destruct l; simpl; split; intros H; try reflexivity; discriminate H.
Qed.

Lemma df_empty_no_rows (cols : list string) :
  df_empty {| columns := cols; rows := [] |} = true.
Proof.
  destruct cols; reflexivity.
Qed.

End SectionFacts.

(** X15.  Section 3 of the rankings page on a store: when some ranking has
    its competitor, both leaderboards are drawn, top-ranked first, neither
    empty, and no banner is shown; when none has, nothing is drawn and the
    two notes are shown, in that order. *)
Theorem leaderboards_draw_both_or_neither :
  forall (db : Pg.Store) (sc : Screen.State (Pg.driver db)),
  exists sc',
    RankingsScript.leaderboards (Pg.driver db) (Some db) sc = (Ok tt, sc')
    /\ (RankingsPage.ranked db <> [] ->
        Screen.elements sc'
        = (Screen.elements sc
           ++ [Screen.Dataframe
                 (RankingsPage.top_ranked_df db (Screen.process sc));
               Screen.Dataframe
                 (RankingsPage.highest_points_df db (Screen.process sc))])%list
        /\ rows (RankingsPage.top_ranked_df db (Screen.process sc)) <> []
        /\ rows (RankingsPage.highest_points_df db (Screen.process sc))
           <> []
        /\ Runtime.banners (Screen.process sc')
           = Runtime.banners (Screen.process sc))
    /\ (RankingsPage.ranked db = [] ->
        Screen.elements sc' = Screen.elements sc
        /\ Runtime.banners (Screen.process sc')
           = (Runtime.banners (Screen.process sc)
              ++ [Info RankingsScript.no_top_ranked;
                  Info RankingsScript.no_highest_points])%list).
Proof.
  intros db sc.
  pose proof (top_ranked_frame db (Screen.process sc)) as Htop.
  pose proof (highest_points_frame db (Screen.process sc)) as Hhigh.
  pose proof (run_frame_execute db _ _ RankingsStore.top_columns _
                ltac:(discriminate) Htop) as Etop.
  pose proof (run_frame_execute db _ _ RankingsStore.highest_columns _
                ltac:(discriminate) Hhigh) as Ehigh.
  rewrite Htop, Hhigh.
  unfold RankingsScript.leaderboards, Screen.bind, Screen.run_sql_query,
    Screen.dataframe_or_info, Screen.st_dataframe, Screen.st_info,
    Screen.draw, Screen.call, Runtime.show.
  rewrite run_sql_query_on_store, Etop. cbn [keys fetchall].
  set (best := Pg.sort_by RankingsPage.rank_key Pg.value_leb
                 (RankingsPage.ranked db)) in *.
  set (most := Pg.sort_by RankingsStore.points_key (Pg.order_of true)
                 (RankingsPage.ranked db)) in *.
  assert (Hcase : RankingsPage.ranked db = []
                  \/ RankingsPage.ranked db <> [])
    by (destruct (RankingsPage.ranked db); [ left | right ]; congruence).
  destruct Hcase as [Hnone | Hsome].
  - assert (Hbest : best = []) by (now apply sort_by_empty).
    assert (Hmost : most = []) by (now apply sort_by_empty).
    rewrite Hbest.
    change (map RankingsStore.top_row (firstn 10 [])) with (@nil (list Value)).
    rewrite df_empty_no_rows.
    cbn [negb Screen.process Screen.elements].
    rewrite run_sql_query_on_store, Ehigh, Hmost.
    change (map RankingsStore.highest_row (firstn 10 []))
      with (@nil (list Value)).
    cbn [keys fetchall]. rewrite df_empty_no_rows.
    cbn [negb Screen.process Screen.elements].
    eexists. split; [ reflexivity | ]. cbn.
    split; [ intros H; contradiction | ]. intros _.
    rewrite <- List.app_assoc. split; reflexivity.
  - assert (Hbest : map RankingsStore.top_row (firstn 10 best) <> []).
    { intros H. apply first_ten_empty in H. unfold best in H.
      apply sort_by_empty in H. contradiction. }
    assert (Hmost : map RankingsStore.highest_row (firstn 10 most) <> []).
    { intros H. apply first_ten_empty in H. unfold most in H.
      apply sort_by_empty in H. contradiction. }
    rewrite (df_empty_rows RankingsStore.top_columns _
               ltac:(discriminate) Hbest).
    cbn [negb]. rewrite run_sql_query_on_store, Ehigh.
    cbn [keys fetchall Screen.process Screen.elements].
    rewrite (df_empty_rows RankingsStore.highest_columns _
               ltac:(discriminate) Hmost).
    cbn [negb].
    eexists. split; [ reflexivity | ]. cbn.
    split; [ | intros H; contradiction ]. intros _.
    rewrite <- List.app_assoc.
    split; [ reflexivity | ]. split; [ exact Hbest | ].
    split; [ exact Hmost | reflexivity ].
Qed.

Lemma leaderboards_draw_both_or_neither_witness :
  exists sc',
    RankingsScript.leaderboards (Pg.driver scenario_store)
      (Some scenario_store)
      (Screen.blank _ (RankingsPage.started scenario_store))
    = (Ok tt, sc')
    /\ List.length (Screen.elements sc') = 2.
Proof.
  destruct (leaderboards_draw_both_or_neither scenario_store
              (Screen.blank _ (RankingsPage.started scenario_store)))
    as (sc' & Hrun & Hsome & _).
  exists sc'. split; [ exact Hrun | ].
  destruct (Hsome ltac:(discriminate)) as (Hdrawn & _).
  rewrite Hdrawn. reflexivity.
Defined.

(** ** Section 1 of the rankings page against the store *)

Section SearchSectionFacts.
Import Pg Rankings RankingsPage RankingsStore.


End SearchSectionFacts.



(** ** The pages when the database cannot be reached *)

Section UnreachableFacts.
Context (D : Driver).



End UnreachableFacts.



(** ** The select boxes against a database told what to answer *)

Section ScriptedFacts.
Import Scripted.
Context (answer : string -> Res ResultSet).

(** What the runner does on such a database. *)
Lemma run_sql_query_scripted (sql : string)
    (sc : Screen.State (driver answer)) :
  Screen.run_sql_query (driver answer) sql (Some tt) sc
  = (Ok (frame_of answer sql),
     Screen.Build_State (driver answer) (Screen.elements sc)
       (Runtime.Build_Proc (driver answer)
          ((Runtime.world (Screen.process sc) : list string) ++ [sql])%list
          (Runtime.banners (Screen.process sc) ++ banner_of answer sql)%list
          (Runtime.cached (Screen.process sc))
          (Runtime.engines_created (Screen.process sc)))).
Proof.
  unfold Screen.run_sql_query, Screen.call, Runtime.run_sql_query,
    Runtime.try_except, Runtime.with_connect, Runtime.bind, Runtime.ext,
    Runtime.st_error, Runtime.show, Runtime.ret, frame_of, banner_of.
  simpl. destruct (answer sql) as [rs | e]; simpl.
  - now rewrite List.app_nil_r.
  - reflexivity.
Qed.

(** The options of a box built from an answer that has the column. *)
Lemma options_scripted (sql col : string)
    (sc : Screen.State (driver answer)) :
  names_column answer sql col ->
  exists vs,
    Screen.options_with_all (driver answer) (frame_of answer sql) col sc
    = (Ok (VStr "All" :: vs), sc)
    /\ incl vs (offered answer sql col).
Proof.
  intros Hcol. unfold Screen.options_with_all, offered.
  destruct (df_empty (frame_of answer sql)) eqn:E; cbn [negb].
  - exists []. split; [ reflexivity | intros v [] ].
  - exists (Pandas.cells (columns (frame_of answer sql)) col
              (rows (frame_of answer sql))).
    split; [ | apply incl_refl ].
    unfold Screen.bind, Screen.pandas, Pandas.tolist, Screen.ret.
    assert (Hin : existsb (String.eqb col) (columns (frame_of answer sql))
                  = true).
    { unfold frame_of in *. destruct (answer sql) as [rs | e] eqn:Ea.
      - apply existsb_exists. exists col.
        split; [ now apply Hcol | apply String.eqb_refl ].
      - discriminate E. }
    now rewrite Hin.
Qed.

(** What a box with 'All' on top hands back. *)
Lemma box_pick (vs offer : list Value) (pick : nat) :
  incl vs offer ->
  In (Pandas.str_selected (Widgets.selectbox (VStr "All" :: vs) pick))
    ("All" :: map Pandas.str_value offer)
  /\ (pick = 0%nat ->
      Pandas.str_selected (Widgets.selectbox (VStr "All" :: vs) pick)
      = "All").
Proof.
  intros Hincl. split.
  - destruct (Widgets.selectbox (VStr "All" :: vs) pick) as [v | ] eqn:E.
    + apply selectbox_in in E as [<- | Hv]; [ now left | right ].
      cbn [Pandas.str_selected]. apply in_map. now apply Hincl.
    + unfold Widgets.selectbox in E.
      destruct (nth_error (VStr "All" :: vs) pick); discriminate E.
  - intros ->. reflexivity.
Qed.

End ScriptedFacts.

(** X18.  The four select boxes of the competitions page, on a database
    that answers each statement the same way every time and whose answers
    to the four option statements carry their column: the page asks the
    four statements in order, shows an error for each that failed, and
    each box hands back 'All' or a value the database returned under its
    column; a box left alone hands back 'All'. *)
Theorem competition_boxes_offer_what_the_database_holds :
  forall (answer : string -> Res ResultSet)
         (w : CompetitionsScript.Picks)
         (sc : Screen.State (Scripted.driver answer)),
    Scripted.names_column answer CompetitionsScript.all_categories_query
      "category_name" ->
    Scripted.names_column answer CompetitionsScript.all_types_query
      "type" ->
    Scripted.names_column answer CompetitionsScript.all_genders_query
      "gender" ->
    Scripted.names_column answer CompetitionsScript.all_levels_query
      "level" ->
    exists f sc',
      CompetitionsScript.select_filters (Scripted.driver answer) (Some tt)
        w sc
      = (Ok f, sc')
      /\ In (Competitions.selected_category f)
           ("All" :: map Pandas.str_value
                       (Scripted.offered answer
                          CompetitionsScript.all_categories_query
                          "category_name"))
      /\ In (Competitions.selected_type f)
           ("All" :: map Pandas.str_value
                       (Scripted.offered answer
                          CompetitionsScript.all_types_query "type"))
      /\ In (Competitions.selected_gender f)
           ("All" :: map Pandas.str_value
                       (Scripted.offered answer
                          CompetitionsScript.all_genders_query "gender"))
      /\ In (Competitions.selected_level f)
           ("All" :: map Pandas.str_value
                       (Scripted.offered answer
                          CompetitionsScript.all_levels_query "level"))
      /\ (CompetitionsScript.category_pick w = 0%nat ->
          Competitions.selected_category f = "All")
      /\ (CompetitionsScript.type_pick w = 0%nat ->
          Competitions.selected_type f = "All")
      /\ (CompetitionsScript.gender_pick w = 0%nat ->
          Competitions.selected_gender f = "All")
      /\ (CompetitionsScript.level_pick w = 0%nat ->
          Competitions.selected_level f = "All")
      /\ Runtime.world (Screen.process sc')
         = ((Runtime.world (Screen.process sc) : list string)
            ++ [CompetitionsScript.all_categories_query;
                CompetitionsScript.all_types_query;
                CompetitionsScript.all_genders_query;
                CompetitionsScript.all_levels_query])%list
      /\ Runtime.banners (Screen.process sc')
         = (Runtime.banners (Screen.process sc)
            ++ Scripted.banner_of answer
                 CompetitionsScript.all_categories_query
            ++ Scripted.banner_of answer CompetitionsScript.all_types_query
            ++ Scripted.banner_of answer
                 CompetitionsScript.all_genders_query
            ++ Scripted.banner_of answer
                 CompetitionsScript.all_levels_query)%list
      /\ Screen.elements sc' = Screen.elements sc.
Proof.
  intros answer w sc Hc Ht Hg Hl.
  unfold CompetitionsScript.select_filters.
  unfold Screen.bind at 1. rewrite run_sql_query_scripted.
  unfold Screen.bind at 1. rewrite run_sql_query_scripted.
  unfold Screen.bind at 1. rewrite run_sql_query_scripted.
  unfold Screen.bind at 1. rewrite run_sql_query_scripted.
  cbn [Screen.elements Screen.process Runtime.world Runtime.banners
       Runtime.cached Runtime.engines_created].
  unfold Screen.bind at 1.
  match goal with
  | |- context [Screen.options_with_all _ _ "category_name" ?st] =>
      set (sc4 := st)
  end.
  destruct (options_scripted answer _ _ sc4 Hc) as (cs & Oc & Ic).
  destruct (options_scripted answer _ _ sc4 Ht) as (ts & Ot & It).
  destruct (options_scripted answer _ _ sc4 Hg) as (gs & Og & Ig).
  destruct (options_scripted answer _ _ sc4 Hl) as (ls & Ol & Il).
  rewrite Oc.
  unfold Screen.bind at 1. rewrite Ot.
  unfold Screen.bind at 1. rewrite Og.
  unfold Screen.bind at 1. rewrite Ol.
  unfold Screen.ret.
  eexists. exists sc4. split; [ reflexivity | ].
  cbn [Competitions.selected_category Competitions.selected_type
       Competitions.selected_gender Competitions.selected_level].
  destruct (box_pick cs _ (CompetitionsScript.category_pick w) Ic)
    as [M1 Z1].
  destruct (box_pick ts _ (CompetitionsScript.type_pick w) It)
    as [M2 Z2].
  destruct (box_pick gs _ (CompetitionsScript.gender_pick w) Ig)
    as [M3 Z3].
  destruct (box_pick ls _ (CompetitionsScript.level_pick w) Il)
    as [M4 Z4].
  split; [ exact M1 | ]. split; [ exact M2 | ].
  split; [ exact M3 | ]. split; [ exact M4 | ].
  split; [ exact Z1 | ]. split; [ exact Z2 | ].
  split; [ exact Z3 | ]. split; [ exact Z4 | ].
  unfold sc4.
  cbn [Screen.elements Screen.process Runtime.world Runtime.banners].
  rewrite <- !List.app_assoc.
  split; [ reflexivity | split; reflexivity ].
Qed.

Lemma competition_boxes_offer_what_the_database_holds_witness :
  exists f sc',
    CompetitionsScript.select_filters
      (Scripted.driver Scripted.two_categories) (Some tt)
      Scripted.second_category
      (Scripted.nothing_sent Scripted.two_categories)
    = (Ok f, sc')
    /\ In (Competitions.selected_category f) ["All"; "ATP"; "WTA"]
    /\ Competitions.selected_type f = "All".
Proof.
  destruct (competition_boxes_offer_what_the_database_holds
              Scripted.two_categories Scripted.second_category
              (Scripted.nothing_sent Scripted.two_categories))
    as (f & sc' & Hrun & Hcat & _ & _ & _ & _ & Htype & _).
  - intros rs H. vm_compute in H. injection H as <-. now left.
  - intros rs H. vm_compute in H. discriminate H.
  - intros rs H. vm_compute in H. discriminate H.
  - intros rs H. vm_compute in H. discriminate H.
  - exists f, sc'. split; [ exact Hrun | ].
    split; [ exact Hcat | now apply Htype ].
Defined.

(** ** The venues of one country *)

Section VenueCountryFacts.

Lemma cells_country_name (names : list string) :
  Pandas.cells ["country_name"] "country_name"
    (map (fun c => [VStr c]) names)
  = map VStr names.
Proof.
  induction names as [ | c names IH]; simpl; [ reflexivity | ].
  now rewrite <- IH.
Qed.

(** A box without 'All': the pick, or the first name when the pick is
    past the end. *)
Lemma name_box_pick (c0 : string) (cs : list string) (pick : nat) :
  exists c,
    Widgets.selectbox (map VStr (c0 :: cs)) pick = Some (VStr c)
    /\ In c (c0 :: cs)
    /\ (nth_error (c0 :: cs) pick = Some c
        \/ (nth_error (c0 :: cs) pick = None /\ c = c0)).
Proof.
  unfold Widgets.selectbox. rewrite nth_error_map.
  destruct (nth_error (c0 :: cs) pick) as [c | ] eqn:E.
  - exists c. split; [ reflexivity | ].
    split; [ now apply nth_error_In with pick | now left ].
  - exists c0. split; [ reflexivity | ].
    split; [ now left | right; now split ].
Qed.

End VenueCountryFacts.

(** X19.  Section 3 of the venues page, on a database that answers each
    statement the same way every time and lists at least one venue
    country: the country asked about is the one picked from that list, or
    the first one when the pick is past its end; the page sends the list
    statement and then the statement for that country, and draws the
    answer as a table also when it has no rows or the statement failed, in
    which case the error banner is shown and the table is empty. *)
Theorem venue_country_is_one_the_database_listed :
  forall (answer : string -> Res ResultSet) (cs : list string)
         (country_pick : nat)
         (sc : Screen.State (Scripted.driver answer)),
    answer VenuesScript.countries_venues_query
    = Ok {| keys := ["country_name"];
            fetchall := map (fun c => [VStr c]) cs |} ->
    cs <> [] ->
    exists c sc',
      VenuesScript.venues_in_country (Scripted.driver answer) (Some tt)
        country_pick sc
      = (Ok tt, sc')
      /\ In c cs
      /\ (nth_error cs country_pick = Some c
          \/ (nth_error cs country_pick = None /\ hd_error cs = Some c))
      /\ Runtime.world (Screen.process sc')
         = ((Runtime.world (Screen.process sc) : list string)
            ++ [VenuesScript.countries_venues_query;
                VenuesScript.venues_by_country_query c])%list
      /\ Screen.elements sc'
         = (Screen.elements sc
            ++ [Screen.Dataframe
                  (Scripted.frame_of answer
                     (VenuesScript.venues_by_country_query c))])%list
      /\ Runtime.banners (Screen.process sc')
         = (Runtime.banners (Screen.process sc)
            ++ Scripted.banner_of answer
                 (VenuesScript.venues_by_country_query c))%list.
Proof.
  intros answer cs country_pick sc Hanswer Hne.
  destruct cs as [ | c0 cs]; [ congruence | ].
  destruct (name_box_pick c0 cs country_pick) as (c & Hpick & Hin & Hnth).
  exists c.
  unfold VenuesScript.venues_in_country.
  unfold Screen.bind at 1. rewrite run_sql_query_scripted.
  assert (Hframe : Scripted.frame_of answer
                     VenuesScript.countries_venues_query
                   = {| columns := ["country_name"];
                        rows := map (fun c => [VStr c]) (c0 :: cs) |}).
  { unfold Scripted.frame_of. now rewrite Hanswer. }
  assert (Hbanner : Scripted.banner_of answer
                      VenuesScript.countries_venues_query = []).
  { unfold Scripted.banner_of. now rewrite Hanswer. }
  rewrite Hframe, Hbanner.
  rewrite df_empty_rows by discriminate.
  cbn [negb].
  unfold Screen.bind at 1, Screen.pandas at 1, Pandas.tolist.
  cbn [columns rows].
  change (existsb (String.eqb "country_name") ["country_name"]) with true.
  cbv beta iota.
  rewrite cells_country_name, Hpick.
  cbn [Pandas.str_selected Pandas.str_value].
  unfold Screen.bind at 1. rewrite run_sql_query_scripted.
  unfold Screen.st_dataframe, Screen.draw.
  cbn [Screen.elements Screen.process Runtime.world Runtime.banners].
  eexists. split; [ reflexivity | ].
  cbn [Screen.elements Screen.process Runtime.world Runtime.banners].
  split; [ exact Hin | ].
  split.
  { destruct Hnth as [H | [H ->]]; [ now left | right; now split ]. }
  rewrite List.app_nil_r, <- List.app_assoc.
  split; [ reflexivity | split; reflexivity ].
Qed.

Lemma venue_country_is_one_the_database_listed_witness :
  exists c sc',
    VenuesScript.venues_in_country
      (Scripted.driver Scripted.two_venue_countries) (Some tt) 7
      (Scripted.nothing_sent Scripted.two_venue_countries)
    = (Ok tt, sc')
    /\ hd_error ["Chile"; "Spain"] = Some c
    /\ List.length (Screen.elements sc') = 1%nat.
Proof.
  destruct (venue_country_is_one_the_database_listed
              Scripted.two_venue_countries ["Chile"; "Spain"] 7
              (Scripted.nothing_sent Scripted.two_venue_countries)
              eq_refl ltac:(discriminate))
    as (c & sc' & Hrun & _ & Hnth & _ & Hel & _).
  exists c, sc'. split; [ exact Hrun | ].
  split.
  - destruct Hnth as [H | [_ H]]; [ discriminate H | exact H ].
  - rewrite Hel. reflexivity.
Defined.

(** ** Connections are closed *)

Section TracedFacts.
Import Traced.
Context (D : Driver).

Lemma sessions_app (l1 l2 : list (Event D)) :
  sessions D l1 -> sessions D l2 -> sessions D (l1 ++ l2).
Proof.
  induction 1; intros H2; simpl; [ exact H2 | ].
  constructor. now apply IHsessions.
Qed.

Lemma whole_sessions_keeps {A} (m : Screen.Page (driver D) A) :
  (forall sc, events D (Screen.process (snd (m sc)))
              = events D (Screen.process sc)) ->
  whole_sessions D m.
Proof.
  intros H sc. exists []. rewrite H, List.app_nil_r.
  split; [ reflexivity | constructor ].
Qed.

Lemma whole_sessions_bind {A B} (m : Screen.Page (driver D) A)
    (k : A -> Screen.Page (driver D) B) :
  whole_sessions D m -> (forall a, whole_sessions D (k a)) ->
  whole_sessions D (Screen.bind (driver D) m k).
Proof.
  intros Hm Hk sc. unfold Screen.bind.
  destruct (Hm sc) as (l1 & E1 & S1).
  destruct (m sc) as [[a | e] sc1]; simpl in E1.
  - destruct (Hk a sc1) as (l2 & E2 & S2).
    exists (l1 ++ l2)%list. rewrite E2, E1, List.app_assoc.
    split; [ reflexivity | now apply sessions_app ].
  - exists l1. split; [ exact E1 | exact S1 ].
Qed.

(** The runner: no connection, or one session with the statement given. *)
Lemma run_sql_query_whole_session (query : string)
    (engine_obj : option (Engine D)) (s : Runtime.Proc (driver D)) :
  events D (snd (Runtime.run_sql_query (driver D) query engine_obj s))
  = events D s
  \/ exists c,
       events D (snd (Runtime.run_sql_query (driver D) query engine_obj s))
       = (events D s ++ [Opened c; Executed c query; CloseCalled c])%list.
Proof.
  destruct engine_obj as [engine | ]; [ | left; reflexivity ].
  unfold Runtime.run_sql_query, Runtime.try_except, Runtime.with_connect,
    Runtime.bind, Runtime.ext, Runtime.st_error, Runtime.show, Runtime.ret,
    events.
  destruct s as [[w log] bs cache n]. simpl.
  destruct (connect D engine w) as [[c | e] w1]; simpl;
    [ | left; reflexivity ].
  right. exists c.
  destruct (execute D c query w1) as [[rs | e] w2]; simpl;
    destruct (close D c w2) as [[u | e'] w3]; simpl;
    now rewrite <- !List.app_assoc.
Qed.

Lemma whole_sessions_run_sql_query (query : string)
    (engine_obj : option (Engine D)) :
  whole_sessions D (Screen.run_sql_query (driver D) query engine_obj).
Proof.
  intros sc. unfold Screen.run_sql_query, Screen.call.
  destruct (run_sql_query_whole_session query engine_obj
              (Screen.process sc)) as [H | (c & H)];
    destruct (Runtime.run_sql_query (driver D) query engine_obj
                (Screen.process sc)) as [r s1]; simpl in *.
  - exists []. rewrite H, List.app_nil_r.
    split; [ reflexivity | constructor ].
  - eexists. split; [ exact H | repeat constructor ].
Qed.

(** The connection function: nothing, or the session of its probe. *)
Lemma get_db_connection_whole_session (s : Runtime.Proc (driver D)) :
  events D (snd (Runtime.get_db_connection (driver D) s)) = events D s
  \/ exists c,
       events D (snd (Runtime.get_db_connection (driver D) s))
       = (events D s
          ++ [Opened c; Executed c "SELECT 1"; CloseCalled c])%list.
Proof.
  unfold Runtime.get_db_connection, Runtime.cache_resource.
  destruct (Runtime.cached s) as [v | ] eqn:Ec; [ left; reflexivity | ].
  unfold Runtime.get_db_connection_body, Runtime.try_except,
    Runtime.with_connect, Runtime.bind, Runtime.ext, Runtime.count_engine,
    Runtime.set_cached, Runtime.ret, events.
  destruct s as [[w log] bs cache n]. simpl.
  destruct (get_connection_string D w) as [[cs | e] w0]; simpl;
    [ | left; reflexivity ].
  destruct (create_engine D cs w0) as [[engine | e] w1]; simpl;
    [ | left; reflexivity ].
  destruct (connect D engine w1) as [[c | e] w2]; simpl;
    [ | left; reflexivity ].
  right. exists c.
  destruct (execute D c "SELECT 1" w2) as [[rs | e] w3]; simpl;
    destruct (close D c w3) as [[u | e'] w4]; simpl;
    now rewrite <- !List.app_assoc.
Qed.

Lemma whole_sessions_get_db_connection :
  whole_sessions D (Screen.call (driver D)
                      (Runtime.get_db_connection (driver D))).
Proof.
  intros sc. unfold Screen.call.
  destruct (get_db_connection_whole_session (Screen.process sc))
    as [H | (c & H)];
    destruct (Runtime.get_db_connection (driver D) (Screen.process sc))
      as [r s1]; simpl in *.
  - exists []. rewrite H, List.app_nil_r.
    split; [ reflexivity | constructor ].
  - eexists. split; [ exact H | repeat constructor ].
Qed.

Lemma whole_sessions_ret {A} (a : A) :
  whole_sessions D (Screen.ret (driver D) a).
Proof.
  now apply whole_sessions_keeps.
Qed.

Lemma whole_sessions_pandas {A} (r : Res A) :
  whole_sessions D (Screen.pandas (driver D) r).
Proof.
  now apply whole_sessions_keeps.
Qed.

Lemma whole_sessions_draw (e : Screen.Element) :
  whole_sessions D (Screen.draw (driver D) e).
Proof.
  now apply whole_sessions_keeps.
Qed.

Lemma whole_sessions_st_info (text : string) :
  whole_sessions D (Screen.st_info (driver D) text).
Proof.
  now apply whole_sessions_keeps.
Qed.

Lemma whole_sessions_dataframe_or_info (df : DataFrame) (text : string) :
  whole_sessions D (Screen.dataframe_or_info (driver D) df text).
Proof.
  unfold Screen.dataframe_or_info.
  destruct (negb (df_empty df));
    [ apply whole_sessions_draw | apply whole_sessions_st_info ].
Qed.

Lemma whole_sessions_options_with_all (df : DataFrame) (col : string) :
  whole_sessions D (Screen.options_with_all (driver D) df col).
Proof.
  unfold Screen.options_with_all.
  destruct (negb (df_empty df)); [ | apply whole_sessions_ret ].
  apply whole_sessions_bind; [ apply whole_sessions_pandas | ].
  intros vs. apply whole_sessions_ret.
Qed.

Lemma whole_sessions_dataframe_and_chart (df : DataFrame) (col : string) :
  whole_sessions D (Screen.dataframe_and_chart (driver D) df col).
Proof.
  unfold Screen.dataframe_and_chart.
  apply whole_sessions_bind; [ apply whole_sessions_draw | intros _ ].
  destruct (negb (df_empty df)); [ | apply whole_sessions_ret ].
  apply whole_sessions_bind; [ apply whole_sessions_pandas | ].
  intros indexed. apply whole_sessions_draw.
Qed.

End TracedFacts.

Ltac whole_sessions_step :=
  first
    [ apply whole_sessions_run_sql_query
    | apply whole_sessions_get_db_connection
    | apply whole_sessions_dataframe_or_info
    | apply whole_sessions_options_with_all
    | apply whole_sessions_dataframe_and_chart
    | apply whole_sessions_st_info
    | apply whole_sessions_draw
    | apply whole_sessions_pandas
    | apply whole_sessions_ret
    | match goal with
      | |- Traced.whole_sessions _ (if ?b then _ else _) => destruct b
      end
    | apply whole_sessions_bind; [ | intros ? ] ].

(** X20.  Whatever the driver does and whatever the viewer picked, each of
    the three pages, from its first line to where it returns or raises,
    asks of the connections nothing but whole sessions: a connection is
    opened, one statement is executed on it, and its [close] is called,
    also when the statement failed; no connection is left without its
    [close]. *)
Theorem pages_close_every_connection :
  forall (D : Driver) (p : CompetitionsScript.Picks) (country_pick : nat)
         (w : RankingsScript.Inputs),
    Traced.whole_sessions D
      (CompetitionsScript.page (Traced.driver D) p)
    /\ Traced.whole_sessions D
         (VenuesScript.page (Traced.driver D) country_pick)
    /\ Traced.whole_sessions D
         (RankingsScript.page (Traced.driver D) w).
Proof.
  intros D p country_pick w. split; [ | split ].
  - unfold CompetitionsScript.page, CompetitionsScript.select_filters.
    repeat whole_sessions_step.
  - unfold VenuesScript.page, VenuesScript.venues_in_country.
    repeat whole_sessions_step.
  - unfold RankingsScript.page, RankingsScript.search_and_filter,
      RankingsScript.details_viewer, RankingsScript.leaderboards,
      RankingsScript.country_analysis.
    repeat whole_sessions_step.
Qed.
